(** * Business-day deadline engine of the Openserve milestone tracker

    A shallow embedding of the business-day module of the server (imported
    by the routes as [utils/businessDays]): the South African public-holiday
    calendar, business-day arithmetic and the phase deadline propagation,
    together with the properties the specification states about them, and
    the callers of the module in the project and notification routes (the
    status of a project, the rows of a new project, the update of a
    project, the notification of a phase) behind the role middleware.

    Dates.  A JavaScript [Date] is a time value in milliseconds.  The code
    only uses local-time accessors, so a date is modelled by its local time
    value: an integer number of milliseconds counted from local midnight of
    1 January 1970, in a zone with a fixed offset (every local day lasts
    24 hours; South Africa has no daylight-saving time).  Day, year and
    weekday are computed as ECMAScript defines them (Day, DayFromYear,
    YearFromTime, WeekDay, MakeDay).  Dates are assumed valid: the range
    limit of the time value and [Invalid Date] are not modelled.  The module
    never mutates a [Date] (the [date-fns] helpers return fresh objects), so
    dates are plain values and a map entry copied from another entry is an
    equal value.

    Loops.  The two [while] loops are run with fuel; each function is shown
    to end within the fuel it is given ([addBusinessDays_spec],
    [getBusinessDaysBetween_spec]). *)

From Stdlib Require Import ZArith Lia Bool String.
From stdpp Require Import base decidable countable gmap list.

Local Open Scope Z_scope.

(** ** ECMAScript date arithmetic and the [date-fns] helpers *)

Module DateFns.

Abbreviation Date := Z (only parsing).

Definition msPerDay : Z := 86400000.

(** [Day(t) = floor(t / msPerDay)] *)
Definition Day (t : Date) : Z := t / msPerDay.

(** [DayFromYear(y)]: day number of 1 January of year [y]. *)
Definition DayFromYear (y : Z) : Z :=
  365 * (y - 1970) + (y - 1969) / 4 - (y - 1901) / 100 + (y - 1601) / 400.

Definition InLeapYear (y : Z) : bool :=
  ((y mod 4 =? 0) && negb (y mod 100 =? 0)) || (y mod 400 =? 0).

(** [YearFromTime]: the largest [y] with [DayFromYear y <= d], found from
    the mean year length (146097 days in 400 years) and one correction. *)
Definition YearFromDay (d : Z) : Z :=
  let y := 1970 + (400 * d) / 146097 in
  if d <? DayFromYear y then y - 1
  else if DayFromYear (y + 1) <=? d then y + 1
  else y.

(** Day within the year on which month [m] (0-based) starts. *)
Definition monthStart (m : Z) (leap : bool) : Z :=
  let L := if leap then 1 else 0 in
  match m with
  | 0 => 0
  | 1 => 31
  | 2 => 59 + L
  | 3 => 90 + L
  | 4 => 120 + L
  | 5 => 151 + L
  | 6 => 181 + L
  | 7 => 212 + L
  | 8 => 243 + L
  | 9 => 273 + L
  | 10 => 304 + L
  | _ => 334 + L
  end.

(** [MakeDay(year, month, date)]; month and date may be out of range. *)
Definition MakeDay (year month date : Z) : Z :=
  let ym := year + month / 12 in
  let mn := month mod 12 in
  DayFromYear ym + monthStart mn (InLeapYear ym) + date - 1.

(** The [Date] constructor reads a year in 0..99 as 1900 + year. *)
Definition fullYear (year : Z) : Z :=
  if (0 <=? year) && (year <=? 99) then 1900 + year else year.

(** [new Date(year, month, day)]: local midnight of that day. *)
Definition newDate (year month day : Z) : Date :=
  MakeDay (fullYear year) month day * msPerDay.

(** [date.getDay()]: 0 is Sunday, 6 is Saturday; 1 January 1970 was a
    Thursday. *)
Definition getDay (t : Date) : Z := (Day t + 4) mod 7.

Definition getYear (t : Date) : Z := YearFromDay (Day t).

Definition startOfDay (t : Date) : Date := Day t * msPerDay.

Definition addDays (t : Date) (amount : Z) : Date := t + amount * msPerDay.

Definition isWeekend (t : Date) : bool := (getDay t =? 0) || (getDay t =? 6).

Definition isSameDay (a b : Date) : bool := startOfDay a =? startOfDay b.

Definition isBefore (a b : Date) : bool := a <? b.

Definition isAfter (a b : Date) : bool := b <? a.

End DateFns.

Import DateFns.

(** ** The holiday calendar *)

(** Easter Sunday by the anonymous Gregorian algorithm.  [%] is the
    JavaScript remainder (sign of the dividend), [Math.floor(x / n)] the
    floor division. *)
Definition getEasterSunday (year : Z) : Date :=
  let a := Z.rem year 19 in
  let b := year / 100 in
  let c := Z.rem year 100 in
  let d := b / 4 in
  let e := Z.rem b 4 in
  let f := (b + 8) / 25 in
  let g := (b - f + 1) / 3 in
  let h := Z.rem (19 * a + b - d - g + 15) 30 in
  let i := c / 4 in
  let k := Z.rem c 4 in
  let l := Z.rem (32 + 2 * e + 2 * i - h - k) 7 in
  let m := (a + 11 * h + 22 * l) / 451 in
  let month := (h + l - 7 * m + 114) / 31 in
  let day := Z.rem (h + l - 7 * m + 114) 31 + 1 in
  newDate year (month - 1) day.

Definition getGoodFriday (year : Z) : Date :=
  let easter := getEasterSunday year in
  addDays easter (-2).

Definition getFamilyDay (year : Z) : Date :=
  let goodFriday := getGoodFriday year in
  addDays goodFriday 1.

Record FixedHoliday := { month : Z; day : Z; name : string }.

Definition fixedHolidays : list FixedHoliday :=
  [ {| month := 0; day := 1; name := "New Year's Day" |};
    {| month := 2; day := 21; name := "Human Rights Day" |};
    {| month := 3; day := 27; name := "Freedom Day" |};
    {| month := 4; day := 1; name := "Workers' Day" |};
    {| month := 5; day := 16; name := "Youth Day" |};
    {| month := 7; day := 9; name := "National Women's Day" |};
    {| month := 8; day := 24; name := "Heritage Day" |};
    {| month := 11; day := 16; name := "Day of Reconciliation" |};
    {| month := 11; day := 25; name := "Christmas Day" |};
    {| month := 11; day := 26; name := "Day of Goodwill" |} ].

(** One pass of the loop over [fixedHolidays]: the date pushed for a
    holiday.  A Sunday date is replaced by the Monday after it. *)
Definition observedDate (year : Z) (holiday : FixedHoliday) : Date :=
  let date := newDate year (month holiday) (day holiday) in
  let date := if getDay date =? 0 then addDays date 1 else date in
  startOfDay date.

Definition getSAPublicHolidays (year : Z) : list Date :=
  let holidays := map (observedDate year) fixedHolidays in
  let goodFriday := getGoodFriday year in
  let familyDay := getFamilyDay year in
  holidays ++ [startOfDay goodFriday; startOfDay familyDay].

Definition isPublicHoliday (date : Date) : bool :=
  let year := getYear date in
  let holidays := getSAPublicHolidays year in
  let checkDate := startOfDay date in
  existsb (fun holiday => isSameDay holiday checkDate) holidays.

Definition isBusinessDay (date : Date) : bool :=
  negb (isWeekend date) && negb (isPublicHoliday date).

(** ** Business-day arithmetic *)

(** A [while] loop run for at most [fuel] iterations; [None] when the fuel
    is used up before the condition fails. *)
Fixpoint whileLoop {St : Type} (fuel : nat) (cond : St -> bool) (body : St -> St)
    (s : St) : option St :=
  if cond s then
    match fuel with
    | O => None
    | S fuel' => whileLoop fuel' cond body (body s)
    end
  else Some s.

(** Body of the loop of [addBusinessDays] on (currentDate, daysAdded). *)
Definition addBusinessDays_body (st : Date * Z) : Date * Z :=
  let currentDate := addDays (fst st) 1 in
  if isBusinessDay currentDate then (currentDate, snd st + 1)
  else (currentDate, snd st).

Definition addBusinessDays_run (fuel : nat) (startDate : Date) (businessDays : Z)
    : option Date :=
  let currentDate := startOfDay startDate in
  let daysAdded := 0 in
  if businessDays <=? 0 then Some currentDate
  else
    fst <$> whileLoop fuel (fun st => snd st <? businessDays)
              addBusinessDays_body (currentDate, daysAdded).

(** Every window of 35 days holds a business day ([business_day_within]
    below), so 35 iterations for each requested day are enough. *)
Definition addBusinessDays_fuel (businessDays : Z) : nat :=
  Z.to_nat (35 * businessDays).

Definition addBusinessDays (startDate : Date) (businessDays : Z) : Date :=
  default (startOfDay startDate)
    (addBusinessDays_run (addBusinessDays_fuel businessDays) startDate businessDays).

(** Body of the loop of [getBusinessDaysBetween] on
    (currentDate, businessDays). *)
Definition getBusinessDaysBetween_body (st : Date * Z) : Date * Z :=
  let businessDays := if isBusinessDay (fst st) then snd st + 1 else snd st in
  (addDays (fst st) 1, businessDays).

Definition getBusinessDaysBetween_run (fuel : nat) (startDate endDate : Date)
    : option Z :=
  let start := startOfDay startDate in
  let end_ := startOfDay endDate in
  if isSameDay start end_ then Some 0
  else
    let isNegative := isBefore end_ start in
    let earlier := if isNegative then end_ else start in
    let later := if isNegative then start else end_ in
    let businessDays := 0 in
    let currentDate := addDays earlier 1 in
    (fun st => if isNegative then - snd st else snd st) <$>
      whileLoop fuel (fun st => negb (isAfter (fst st) later))
        getBusinessDaysBetween_body (currentDate, businessDays).

(** The loop visits each day after [earlier] up to [later] once. *)
Definition getBusinessDaysBetween_fuel (startDate endDate : Date) : nat :=
  Z.to_nat (Z.abs (Day endDate - Day startDate)).

Definition getBusinessDaysBetween (startDate endDate : Date) : Z :=
  default 0
    (getBusinessDaysBetween_run (getBusinessDaysBetween_fuel startDate endDate)
       startDate endDate).

(** [getBusinessDaysUntil]: [now] is the value of [new Date()] read at the
    call. *)
Definition getBusinessDaysUntil (now : Date) (deadline : Date) : Z :=
  let today := startOfDay now in
  let deadlineDate := startOfDay deadline in
  if isSameDay today deadlineDate then 0
  else if isBefore deadlineDate today then - getBusinessDaysBetween deadlineDate today
  else getBusinessDaysBetween today deadlineDate.

(** ** Phases and deadline propagation *)

Inductive PhaseName :=
  | planning | funding | wayleave | materials | announcement | kickoff
  | build | fqa | ecc | integration | rfa | com.

#[global] Instance PhaseName_eq_dec : EqDecision PhaseName.
Proof. solve_decision. Defined.

Definition PHASE_ORDER : list PhaseName :=
  [planning; funding; wayleave; materials; announcement; kickoff;
   build; fqa; ecc; integration; rfa; com].

Definition phaseCode (p : PhaseName) : nat :=
  match p with
  | planning => 0 | funding => 1 | wayleave => 2 | materials => 3
  | announcement => 4 | kickoff => 5 | build => 6 | fqa => 7 | ecc => 8
  | integration => 9 | rfa => 10 | com => 11
  end%nat.

Definition phaseOfCode (n : nat) : PhaseName := nth n PHASE_ORDER com.

#[global] Instance PhaseName_countable : Countable PhaseName.
Proof. apply (inj_countable' phaseCode phaseOfCode). by intros []. Defined.

Definition DEFAULT_ALLOWED_DAYS (p : PhaseName) : Z :=
  match p with
  | planning => 10 | funding => 2 | wayleave => 20 | materials => 15
  | announcement => 1 | kickoff => 2 | build => 20 | fqa => 0 | ecc => 1
  | integration => 2 | rfa => 1 | com => 0
  end.

Definition MIRROR_PHASES (p : PhaseName) : option PhaseName :=
  match p with
  | fqa => Some build
  | com => Some rfa
  | _ => None
  end.

(** State of the propagation loops: the [deadlines] object and the
    [previousDeadline] cursor. *)
Record CalcState := {
  deadlines : gmap PhaseName Date;
  previousDeadline : Date
}.

(** One pass of the loop body shared by [calculatePhaseDeadlines] and
    [calculatePhaseDeadlinesFromDeadline].  A [Date] object is truthy, so
    [mirrorOf && deadlines[mirrorOf]] holds exactly when the phase has a
    mirror source and that source has an entry. *)
Definition phaseStep (allowedDaysPerPhase : PhaseName -> Z) (st : CalcState)
    (phase : PhaseName) : CalcState :=
  match MIRROR_PHASES phase ≫= (fun mirrorOf => deadlines st !! mirrorOf) with
  | Some d =>
      {| deadlines := <[phase := d]> (deadlines st);
         previousDeadline := previousDeadline st |}
  | None =>
      let allowedDays := allowedDaysPerPhase phase in
      if bool_decide (phase = wayleave) && (allowedDays =? 0) then st
      else
        let deadline := addBusinessDays (previousDeadline st) allowedDays in
        {| deadlines := <[phase := deadline]> (deadlines st);
           previousDeadline :=
             if bool_decide (phase ≠ fqa) && bool_decide (phase ≠ com)
             then deadline else previousDeadline st |}
  end.

(** The [for] loop over a list of phases. *)
Definition runPhases (allowedDaysPerPhase : PhaseName -> Z) (phases : list PhaseName)
    (st : CalcState) : CalcState :=
  foldl (phaseStep allowedDaysPerPhase) st phases.

(** The loop of [calculatePhaseDeadlines] over an arbitrary phase order;
    the code runs it over the constant [PHASE_ORDER]. *)
Definition calculatePhaseDeadlinesOver (order : list PhaseName) (siteSurveyDate : Date)
    (allowedDaysPerPhase : PhaseName -> Z) : CalcState :=
  runPhases allowedDaysPerPhase order
    {| deadlines := ∅; previousDeadline := startOfDay siteSurveyDate |}.

Definition calculatePhaseDeadlines (siteSurveyDate : Date)
    (allowedDaysPerPhase : PhaseName -> Z) : gmap PhaseName Date :=
  deadlines (calculatePhaseDeadlinesOver PHASE_ORDER siteSurveyDate allowedDaysPerPhase).

(** [Array.prototype.indexOf]: -1 when the element is absent. *)
Fixpoint indexOf (l : list PhaseName) (x : PhaseName) : Z :=
  match l with
  | [] => -1
  | y :: l' =>
      if bool_decide (y = x) then 0
      else let r := indexOf l' x in if r <? 0 then -1 else r + 1
  end.

(** [obj[k] = obj[k']]: an absent source leaves [k] without a date. *)
Definition copyEntry (m : gmap PhaseName Date) (k k' : PhaseName) : gmap PhaseName Date :=
  match m !! k' with
  | Some d => <[k := d]> m
  | None => delete k m
  end.

Definition calculatePhaseDeadlinesFromDeadline (changedPhase : PhaseName)
    (newDeadline : Date) (allowedDaysPerPhase : PhaseName -> Z)
    (currentDeadlines : gmap PhaseName Date) : gmap PhaseName Date :=
  let deadlines0 := currentDeadlines in
  let changedPhaseIndex := indexOf PHASE_ORDER changedPhase in
  let deadlines0 := <[changedPhase := startOfDay newDeadline]> deadlines0 in
  let deadlines0 :=
    if bool_decide (changedPhase = fqa) then copyEntry deadlines0 build fqa else deadlines0 in
  let deadlines0 :=
    if bool_decide (changedPhase = build) then copyEntry deadlines0 fqa build else deadlines0 in
  let deadlines0 :=
    if bool_decide (changedPhase = rfa) then copyEntry deadlines0 com rfa else deadlines0 in
  let deadlines0 :=
    if bool_decide (changedPhase = com) then copyEntry deadlines0 rfa com else deadlines0 in
  let previousDeadline0 := startOfDay newDeadline in
  deadlines
    (runPhases allowedDaysPerPhase
       (drop (Z.to_nat (changedPhaseIndex + 1)) PHASE_ORDER)
       {| deadlines := deadlines0; previousDeadline := previousDeadline0 |}).

(** ** Auxiliary definitions for the statements and proofs *)

(** Number of business days among the [len] days that follow [cur]. *)
Fixpoint businessDaysIn (cur : Date) (len : nat) : Z :=
  match len with
  | O => 0
  | S len' =>
      (if isBusinessDay (addDays cur 1) then 1 else 0) + businessDaysIn (addDays cur 1) len'
  end.

(** Offsets 1..35 after a day whose weekday is [r] that fall on Monday to
    Friday. *)
Definition weekdayOffsets (r : Z) : list Z :=
  filter (fun k => (r + k) mod 7 ≠ 0 ∧ (r + k) mod 7 ≠ 6) (seqZ 1 35).

(** The sum [h + l - 7 * m + 114] from which [getEasterSunday] reads the
    month (quotient by 31) and the day (remainder plus one). *)
Definition easterSum (year : Z) : Z :=
  let a := Z.rem year 19 in
  let b := year / 100 in
  let c := Z.rem year 100 in
  let d := b / 4 in
  let e := Z.rem b 4 in
  let f := (b + 8) / 25 in
  let g := (b - f + 1) / 3 in
  let h := Z.rem (19 * a + b - d - g + 15) 30 in
  let i := c / 4 in
  let k := Z.rem c 4 in
  let l := Z.rem (32 + 2 * e + 2 * i - h - k) 7 in
  let m := (a + 11 * h + 22 * l) / 451 in
  h + l - 7 * m + 114.

(** The nominal dates of the holidays of a year, before any shift: the
    [new Date(year, month, day)] of each fixed holiday, Good Friday and
    Family Day. *)
Definition holidayDates (year : Z) : list Date :=
  map (fun holiday => newDate year (month holiday) (day holiday)) fixedHolidays
  ++ [getGoodFriday year; getFamilyDay year].

(** The list holds a holiday on the calendar day of [d]. *)
Definition holidayOn (holidays : list Date) (d : Date) : bool :=
  existsb (fun holiday => isSameDay holiday d) holidays.

(** Number of entries of the list on the calendar day of [d]. *)
Definition occurrences (holidays : list Date) (d : Date) : nat :=
  length (List.filter (fun holiday => isSameDay holiday d) holidays).

(** The fixed holidays up to the Day of Reconciliation. *)
Definition beforeChristmas (holiday : FixedHoliday) : bool :=
  (month holiday <? 11) || (day holiday <=? 16).

(** The deadline the full pass computes for each phase, written out along
    [PHASE_ORDER]: every phase adds its days to the date of the phase before
    it, a skipped wayleave passes the cursor on unchanged, and the two
    mirrors repeat the date of their source. *)
Definition chainDate (siteSurveyDate : Date) (allowedDaysPerPhase : PhaseName -> Z)
    (phase : PhaseName) : Date :=
  let c0 := startOfDay siteSurveyDate in
  let d_planning := addBusinessDays c0 (allowedDaysPerPhase planning) in
  let d_funding := addBusinessDays d_planning (allowedDaysPerPhase funding) in
  let d_wayleave :=
    if allowedDaysPerPhase wayleave =? 0 then d_funding
    else addBusinessDays d_funding (allowedDaysPerPhase wayleave) in
  let d_materials := addBusinessDays d_wayleave (allowedDaysPerPhase materials) in
  let d_announcement := addBusinessDays d_materials (allowedDaysPerPhase announcement) in
  let d_kickoff := addBusinessDays d_announcement (allowedDaysPerPhase kickoff) in
  let d_build := addBusinessDays d_kickoff (allowedDaysPerPhase build) in
  let d_ecc := addBusinessDays d_build (allowedDaysPerPhase ecc) in
  let d_integration := addBusinessDays d_ecc (allowedDaysPerPhase integration) in
  let d_rfa := addBusinessDays d_integration (allowedDaysPerPhase rfa) in
  match phase with
  | planning => d_planning
  | funding => d_funding
  | wayleave => d_wayleave
  | materials => d_materials
  | announcement => d_announcement
  | kickoff => d_kickoff
  | build => d_build
  | fqa => d_build
  | ecc => d_ecc
  | integration => d_integration
  | rfa => d_rfa
  | com => d_rfa
  end.

(** State of the loop of [calculatePhaseDeadlines] after its first [n]
    iterations. *)
Definition stateAfter (n : nat) (siteSurveyDate : Date)
    (allowedDaysPerPhase : PhaseName -> Z) : CalcState :=
  calculatePhaseDeadlinesOver (take n PHASE_ORDER) siteSurveyDate allowedDaysPerPhase.

(** The phases visited by the loop of [calculatePhaseDeadlinesFromDeadline]. *)
Definition phasesAfter (changedPhase : PhaseName) : list PhaseName :=
  drop (Z.to_nat (indexOf PHASE_ORDER changedPhase + 1)) PHASE_ORDER.

(** The [deadlines] object of [calculatePhaseDeadlinesFromDeadline] when its
    loop starts. *)
Definition deadlinesBeforeLoop (changedPhase : PhaseName) (newDeadline : Date)
    (currentDeadlines : gmap PhaseName Date) : gmap PhaseName Date :=
  let deadlines0 := <[changedPhase := startOfDay newDeadline]> currentDeadlines in
  let deadlines0 :=
    if bool_decide (changedPhase = fqa) then copyEntry deadlines0 build fqa else deadlines0 in
  let deadlines0 :=
    if bool_decide (changedPhase = build) then copyEntry deadlines0 fqa build else deadlines0 in
  let deadlines0 :=
    if bool_decide (changedPhase = rfa) then copyEntry deadlines0 com rfa else deadlines0 in
  if bool_decide (changedPhase = com) then copyEntry deadlines0 rfa com else deadlines0.

(** The phase whose deadline is the cursor when the full pass reaches
    [phase]: the phase before it in [PHASE_ORDER], stepping over the mirror
    phases and over a skipped wayleave.  The first phase starts from the
    anchor date and the mirrors do not read the cursor. *)
Definition cursorPhase (allowedDaysPerPhase : PhaseName -> Z) (phase : PhaseName)
    : option PhaseName :=
  match phase with
  | planning => None
  | funding => Some planning
  | wayleave => Some funding
  | materials => if allowedDaysPerPhase wayleave =? 0 then Some funding else Some wayleave
  | announcement => Some materials
  | kickoff => Some announcement
  | build => Some kickoff
  | fqa => None
  | ecc => Some build
  | integration => Some ecc
  | rfa => Some integration
  | com => None
  end.

(** The duration table with the phases up to [changedPhase] set to zero
    days. *)
Definition daysAfter (changedPhase : PhaseName) (allowedDaysPerPhase : PhaseName -> Z)
    (phase : PhaseName) : Z :=
  if (phaseCode phase <=? phaseCode changedPhase)%nat then 0 else allowedDaysPerPhase phase.

(** ** The routes that use the module

    The pure parts of the project and notification routes: what they
    compute from the rows of a project and from the body of a request.
    Reading and writing the rows is left to the caller.  Every call of
    [getBusinessDaysUntil] made while answering one request reads the clock
    on the same calendar day; [now] stands for that reading. *)

Module Routes.

(** A phase name as the string stored in a row or sent in a request. *)
Definition phaseString (p : PhaseName) : string :=
  match p with
  | planning => "planning" | funding => "funding" | wayleave => "wayleave"
  | materials => "materials" | announcement => "announcement" | kickoff => "kickoff"
  | build => "build" | fqa => "fqa" | ecc => "ecc" | integration => "integration"
  | rfa => "rfa" | com => "com"
  end.

(** The phase of [PHASE_ORDER] with that name, if any
    ([PHASE_ORDER.includes]). *)
Definition phaseOfString (s : string) : option PhaseName :=
  List.find (fun p => String.eqb (phaseString p) s) PHASE_ORDER.

(** A row of the phase table, as far as the routes read it. *)
Record PhaseRow := {
  phaseName : string;
  allowedDays : Z;
  deadline : Date;
  isComplete : bool
}.

(** [phase.phaseName === 'wayleave' && phase.allowedDays === 0] *)
Definition isDisabledWayleave (phase : PhaseRow) : bool :=
  String.eqb (phaseName phase) "wayleave" && (allowedDays phase =? 0).

(** The rows written when a project is created. *)
Definition createPhaseRows (siteSurveyDate : Date) (allowedDaysMap : PhaseName -> Z)
    : list PhaseRow :=
  let deadlines := calculatePhaseDeadlines siteSurveyDate allowedDaysMap in
  map (fun phaseName =>
         {| phaseName := phaseString phaseName;
            allowedDays := allowedDaysMap phaseName;
            deadline := default siteSurveyDate (deadlines !! phaseName);
            isComplete := false |})
      PHASE_ORDER.

(** A phase the status and notification loops look at: not complete and
    not a disabled wayleave. *)
Definition isActive (phase : PhaseRow) : bool :=
  negb (isComplete phase) && negb (isDisabledWayleave phase).

Inductive ProjectStatus := Complete | Overdue | AtRisk | OnTrack.

(** The filter behind [totalPhases]. *)
Definition countsInTotal (p : PhaseRow) : bool :=
  if isDisabledWayleave p then false
  else if String.eqb (phaseName p) "fqa" || String.eqb (phaseName p) "com" then false
  else true.

(** The loop over the phases of a project; reaching an overdue phase
    leaves the loop. *)
Fixpoint statusLoop (now : Date) (phases : list PhaseRow) (status : ProjectStatus)
    : ProjectStatus :=
  match phases with
  | [] => status
  | phase :: rest =>
      if isComplete phase then statusLoop now rest status
      else if isDisabledWayleave phase then statusLoop now rest status
      else
        let daysUntil := getBusinessDaysUntil now (deadline phase) in
        if daysUntil <? 0 then Overdue
        else if daysUntil <=? 3 then
          statusLoop now rest (match status with OnTrack => AtRisk | _ => status end)
        else statusLoop now rest status
  end.

Record ProjectSummary := {
  status : ProjectStatus;
  completedPhases : nat;
  totalPhases : nat
}.

(** The status computed for each project of the project list. *)
Definition projectStatus (now : Date) (phases : list PhaseRow) : ProjectSummary :=
  let completedCount := length (List.filter isComplete phases) in
  let totalPhases := length (List.filter countsInTotal phases) in
  let status :=
    if (completedCount =? totalPhases)%nat && (0 <? totalPhases)%nat then Complete
    else statusLoop now phases OnTrack in
  {| status := status; completedPhases := completedCount; totalPhases := totalPhases |}.


Inductive NotificationType := warning | urgent | overdue.

(** What [generateNotificationsForUser] does with the notification of one
    phase.  The message text is not modelled. *)
Inductive NotificationAction :=
  | DeleteNotification
  | LeaveNotification
  | UpsertNotification (type : NotificationType).

Definition notificationType (daysUntil : Z) : option NotificationType :=
  if daysUntil <? 0 then Some overdue
  else if daysUntil =? 0 then Some urgent
  else if daysUntil =? 1 then Some urgent
  else if daysUntil <=? 3 then Some warning
  else None.

Definition phaseNotification (now : Date) (phase : PhaseRow) : NotificationAction :=
  if isComplete phase then DeleteNotification
  else if isDisabledWayleave phase then LeaveNotification
  else
    let daysUntil := getBusinessDaysUntil now (deadline phase) in
    match notificationType daysUntil with
    | Some type => UpsertNotification type
    | None => DeleteNotification
    end.

(** One entry of [phases] in the body of an update request. *)
Record PhaseUpdate := {
  update_phaseName : string;
  update_allowedDays : option Z;
  update_deadline : option Date
}.

(** The variables of the update route while it reads the request. *)
Record UpdateState := {
  currentAllowedDays : PhaseName -> Z;
  currentDeadlines : gmap PhaseName Date;
  needsFullRecalculation : bool;
  recalculateFromPhase : option PhaseName;
  recalculateFromDeadline : option Date
}.

(** One pass of the loop over [data.phases]. *)
Definition applyPhaseUpdate (isSuperAdmin : bool) (st : UpdateState)
    (phaseUpdate : PhaseUpdate) : UpdateState :=
  match phaseOfString (update_phaseName phaseUpdate) with
  | None => st
  | Some phaseName =>
      let st :=
        match update_allowedDays phaseUpdate with
        | Some days =>
            {| currentAllowedDays :=
                 fun p => if bool_decide (p = phaseName) then days
                          else currentAllowedDays st p;
               currentDeadlines := currentDeadlines st;
               needsFullRecalculation :=
                 match recalculateFromPhase st with
                 | None => true
                 | Some _ => needsFullRecalculation st
                 end;
               recalculateFromPhase := recalculateFromPhase st;
               recalculateFromDeadline := recalculateFromDeadline st |}
        | None => st
        end in
      match update_deadline phaseUpdate with
      | Some newDeadline =>
          if isSuperAdmin then
            let phaseIndex := indexOf PHASE_ORDER phaseName in
            let earlier :=
              match recalculateFromPhase st with
              | None => true
              | Some from => phaseIndex <? indexOf PHASE_ORDER from
              end in
            {| currentAllowedDays := currentAllowedDays st;
               currentDeadlines := <[phaseName := newDeadline]> (currentDeadlines st);
               needsFullRecalculation := needsFullRecalculation st;
               recalculateFromPhase :=
                 if earlier then Some phaseName else recalculateFromPhase st;
               recalculateFromDeadline :=
                 if earlier then Some newDeadline else recalculateFromDeadline st |}
          else st
      | None => st
      end
  end.

(** The allowed days and the deadlines the update route ends with, from
    the role of the caller, the body of the request ([siteSurveyDate] and
    [phases], both optional) and the stored project. *)
Definition updateProject (isSuperAdmin : bool) (dataSiteSurveyDate : option Date)
    (dataPhases : option (list PhaseUpdate)) (existingSiteSurveyDate : Date)
    (existingAllowedDays : PhaseName -> Z) (existingDeadlines : gmap PhaseName Date)
    : (PhaseName -> Z) * gmap PhaseName Date :=
  let st :=
    foldl (applyPhaseUpdate isSuperAdmin)
      {| currentAllowedDays := existingAllowedDays;
         currentDeadlines := existingDeadlines;
         needsFullRecalculation := false;
         recalculateFromPhase := None;
         recalculateFromDeadline := None |}
      (default [] dataPhases) in
  let siteSurveyDate := default existingSiteSurveyDate dataSiteSurveyDate in
  let needsFull :=
    match dataSiteSurveyDate with
    | Some _ => true
    | None => needsFullRecalculation st
    end in
  let finalDeadlines :=
    match recalculateFromPhase st, recalculateFromDeadline st with
    | Some from, Some newDeadline =>
        calculatePhaseDeadlinesFromDeadline from newDeadline
          (currentAllowedDays st) (currentDeadlines st)
    | _, _ =>
        if needsFull then calculatePhaseDeadlines siteSurveyDate (currentAllowedDays st)
        else currentDeadlines st
    end in
  (currentAllowedDays st, finalDeadlines).

(** An update that names a known phase and gives its allowed days. *)
Definition changesAllowedDays (phaseUpdate : PhaseUpdate) : bool :=
  match phaseOfString (update_phaseName phaseUpdate), update_allowedDays phaseUpdate with
  | Some _, Some _ => true
  | _, _ => false
  end.

(** The deadline override an update carries: a known phase with a
    deadline. *)
Definition overrideOf (phaseUpdate : PhaseUpdate) : option (PhaseName * Date) :=
  match phaseOfString (update_phaseName phaseUpdate), update_deadline phaseUpdate with
  | Some phaseName, Some newDeadline => Some (phaseName, newDeadline)
  | _, _ => None
  end.

(** The current deadlines with a list of overrides written in order. *)
Definition withOverrides (deadlines : gmap PhaseName Date)
    (overrides : list (PhaseName * Date)) : gmap PhaseName Date :=
  foldl (fun m o => <[o.1 := o.2]> m) deadlines overrides.

End Routes.

(** ** The role middleware *)

Module Auth.

Inductive UserRole := staff | admin | superadmin.

#[global] Instance UserRole_eq_dec : EqDecision UserRole.
Proof. solve_decision. Defined.

Record AuthUser := {
  id : string;
  email : string;
  name : string;
  role : UserRole
}.

(** What a middleware does with a request: answer it with a status and an
    error text, or pass it on with [next()]. *)
Inductive Outcome :=
  | Respond (status : Z) (error : string)
  | Next.

(** [authenticate]: [token] is the cookie of the request, if any, and
    [verifyToken] the check of the signed token, which is not modelled.
    An empty cookie counts as absent.  The second component is [req.user]
    as the next middleware finds it. *)
Definition authenticate (verifyToken : string -> option AuthUser) (token : option string)
    : Outcome * option AuthUser :=
  match token with
  | None => (Respond 401 "Authentication required", None)
  | Some t =>
      if String.eqb t EmptyString then (Respond 401 "Authentication required", None)
      else
        match verifyToken t with
        | None => (Respond 401 "Invalid or expired token", None)
        | Some user => (Next, Some user)
        end
  end.

Definition requireRole (allowedRoles : list UserRole) (user : option AuthUser) : Outcome :=
  match user with
  | None => Respond 401 "Authentication required"
  | Some u =>
      if bool_decide (role u ∈ allowedRoles) then Next
      else Respond 403 "Insufficient permissions"
  end.

Definition requireAdmin (user : option AuthUser) : Outcome :=
  requireRole [admin; superadmin] user.

Definition requireSuperAdmin (user : option AuthUser) : Outcome :=
  requireRole [superadmin] user.

(** A route guarded by [authenticate] and then by a role middleware: the
    second runs only when the first calls [next()]. *)
Definition guarded (verifyToken : string -> option AuthUser)
    (roleCheck : option AuthUser -> Outcome) (token : option string) : Outcome :=
  match authenticate verifyToken token with
  | (Next, user) => roleCheck user
  | (response, _) => response
  end.

End Auth.

(** ** Sanity checks *)

Example newDate_2023_01_01 : Day (newDate 2023 0 1) = 19358 /\ getDay (newDate 2023 0 1) = 0.
Proof. split; reflexivity. Qed.

Example easter_2024 : getEasterSunday 2024 = newDate 2024 2 31.
Proof. reflexivity. Qed.

Example year_roundtrip : getYear (newDate 2024 11 31) = 2024 /\ getYear (newDate 2025 0 1) = 2025.
Proof. split; reflexivity. Qed.

(** Scenario A of the specification, from Monday 8 January 2024. *)
Example scenarioA :
  let table p :=
    match p with
    | planning => 10 | funding => 2 | wayleave => 0 | materials => 15
    | announcement => 1 | kickoff => 2 | build => 20 | fqa => 0 | ecc => 1
    | integration => 2 | rfa => 1 | com => 0
    end in
  let r := calculatePhaseDeadlines (newDate 2024 0 8) table in
  r !! planning = Some (newDate 2024 0 22) /\ r !! wayleave = None /\
  r !! build = Some (newDate 2024 2 18) /\ r !! fqa = r !! build /\ r !! com = r !! rfa.
Proof. vm_compute. repeat split; reflexivity. Qed.

(** Scenario B: from Friday 23 December 2022 the ten days to the planning
    deadline span Sunday 1 January 2023, observed on Monday 2 January. *)
Example scenarioB :
  addBusinessDays (newDate 2022 11 23) 10 = newDate 2023 0 10 /\
  isBusinessDay (newDate 2023 0 2) = false.
Proof. vm_compute. split; reflexivity. Qed.

(** ** Facts about the calendar arithmetic *)

(** Linear arithmetic with the floor and truncated divisions by constants
    replaced by their defining equations. *)
Ltac divlia := Z.to_euclidean_division_equations; lia.

Section Calendar.

Lemma DayFromYear_step y :
  DayFromYear (y + 1) = DayFromYear y + (if InLeapYear y then 366 else 365).
Proof.
  unfold DayFromYear, InLeapYear.
  destruct (y mod 4 =? 0) eqn:E4; destruct (y mod 100 =? 0) eqn:E100;
    destruct (y mod 400 =? 0) eqn:E400; simpl; divlia.
Qed.

Lemma DayFromYear_mono y1 y2 : y1 < y2 -> DayFromYear y1 + 365 * (y2 - y1) <= DayFromYear y2.
Proof. unfold DayFromYear. divlia. Qed.

Lemma YearFromDay_spec d :
  DayFromYear (YearFromDay d) <= d < DayFromYear (YearFromDay d + 1).
Proof.
  unfold YearFromDay.
  set (y := 1970 + 400 * d / 146097).
  assert (Hlo : DayFromYear (y - 1) <= d) by (unfold DayFromYear, y; divlia).
  assert (Hhi : d < DayFromYear (y + 2)) by (unfold DayFromYear, y; divlia).
  destruct (d <? DayFromYear y) eqn:E1.
  - replace (y - 1 + 1) with y by lia. lia.
  - destruct (DayFromYear (y + 1) <=? d) eqn:E2.
    + replace (y + 1 + 1) with (y + 2) by lia. lia.
    + lia.
Qed.

Lemma YearFromDay_unique d y :
  DayFromYear y <= d < DayFromYear (y + 1) -> YearFromDay d = y.
Proof.
  intros Hy. pose proof (YearFromDay_spec d) as Hs.
  set (z := YearFromDay d) in *.
  destruct (Z.lt_trichotomy z y) as [Hlt | [Heq | Hgt]]; [|done|].
  - destruct (Z.eq_dec (z + 1) y) as [E|E].
    + rewrite E in Hs. lia.
    + pose proof (DayFromYear_mono (z + 1) y). lia.
  - destruct (Z.eq_dec (y + 1) z) as [E|E].
    + rewrite E in Hy. lia.
    + pose proof (DayFromYear_mono (y + 1) z). lia.
Qed.

Lemma Day_startOfDay t : Day (startOfDay t) = Day t.
Proof. unfold startOfDay, Day, msPerDay. divlia. Qed.

Lemma startOfDay_idem t : startOfDay (startOfDay t) = startOfDay t.
Proof. unfold startOfDay at 1. by rewrite Day_startOfDay. Qed.

Lemma startOfDay_bounds t : startOfDay t <= t < startOfDay t + msPerDay.
Proof. unfold startOfDay, Day, msPerDay. divlia. Qed.

Lemma Day_midnight d : Day (d * msPerDay) = d.
Proof. unfold Day, msPerDay. divlia. Qed.

Lemma Day_addDays t n : Day (addDays t n) = Day t + n.
Proof. unfold addDays, Day, msPerDay. divlia. Qed.

Lemma startOfDay_addDays t n : startOfDay (addDays t n) = addDays (startOfDay t) n.
Proof. unfold startOfDay. rewrite Day_addDays. unfold addDays. lia. Qed.

Lemma Day_newDate y m d : Day (newDate y m d) = MakeDay (fullYear y) m d.
Proof. apply Day_midnight. Qed.

Lemma startOfDay_newDate y m d : startOfDay (newDate y m d) = newDate y m d.
Proof. unfold startOfDay. by rewrite Day_newDate. Qed.

Lemma isSameDay_Day a b : isSameDay a b = (Day a =? Day b).
Proof.
  unfold isSameDay, startOfDay, msPerDay.
  destruct (Day a =? Day b) eqn:E; lia.
Qed.

Lemma fullYear_idem y : fullYear (fullYear y) = fullYear y.
Proof.
  unfold fullYear.
  destruct (0 <=? y) eqn:E1, (y <=? 99) eqn:E2; simpl; rewrite ?E1, ?E2; simpl; try done.
  destruct (0 <=? 1900 + y) eqn:E3, (1900 + y <=? 99) eqn:E4; simpl; lia.
Qed.

Lemma monthStart_bounds m leap :
  0 <= m <= 11 -> 0 <= monthStart m leap <= 335.
Proof.
  intros Hm. assert (Hc : m = 0 \/ m = 1 \/ m = 2 \/ m = 3 \/ m = 4 \/ m = 5 \/ m = 6
    \/ m = 7 \/ m = 8 \/ m = 9 \/ m = 10 \/ m = 11) by lia.
  destruct leap; intuition (subst; simpl; lia).
Qed.

(** A date built in month 0..11 on a day that keeps it inside the year has
    that year as its [getYear]. *)
Lemma getYear_newDate y m d :
  0 <= m <= 11 -> 1 <= monthStart m (InLeapYear (fullYear y)) + d <= 365 ->
  getYear (newDate y m d) = fullYear y.
Proof.
  intros Hm Hd. unfold getYear. rewrite Day_newDate. apply YearFromDay_unique.
  unfold MakeDay. replace (m / 12) with 0 by divlia.
  replace (m mod 12) with m by divlia. rewrite Z.add_0_r, DayFromYear_step.
  destruct (InLeapYear (fullYear y)); lia.
Qed.

(** In a window of 35 days after any day the year changes at most once. *)
Lemma YearFromDay_window d k :
  1 <= k <= 35 ->
  YearFromDay (d + k) = YearFromDay (d + 1) \/ YearFromDay (d + k) = YearFromDay (d + 1) + 1.
Proof.
  intros Hk. pose proof (YearFromDay_spec (d + 1)) as Hs.
  set (y0 := YearFromDay (d + 1)) in *.
  destruct (Z.lt_ge_cases (d + k) (DayFromYear (y0 + 1))) as [Hlt | Hge].
  - left. apply YearFromDay_unique. lia.
  - right. apply YearFromDay_unique.
    pose proof (DayFromYear_mono (y0 + 1) (y0 + 1 + 1)). lia.
Qed.

End Calendar.

(** ** Business days exist: every 35-day window holds one *)

Section BusinessDays.

Lemma getDay_Day t : getDay t = (Day t + 4) mod 7.
Proof. reflexivity. Qed.

Lemma isBusinessDay_startOfDay t : isBusinessDay (startOfDay t) = isBusinessDay t.
Proof.
  unfold isBusinessDay, isWeekend, isPublicHoliday, getYear, getDay.
  rewrite startOfDay_idem, !Day_startOfDay. reflexivity.
Qed.

Lemma length_getSAPublicHolidays y : length (getSAPublicHolidays y) = 12%nat.
Proof. unfold getSAPublicHolidays. rewrite length_app, length_map. reflexivity. Qed.

Lemma isPublicHoliday_elem t :
  isPublicHoliday t = true ->
  Day t ∈ Day <$> getSAPublicHolidays (YearFromDay (Day t)).
Proof.
  unfold isPublicHoliday, getYear. intros H.
  apply existsb_exists in H as (h & Hin & Hs).
  rewrite isSameDay_Day, Day_startOfDay in Hs.
  apply list_elem_of_fmap. exists h. split; [lia | by apply list_elem_of_In].
Qed.

Lemma length_weekdayOffsets r : 0 <= r < 7 -> length (weekdayOffsets r) = 25%nat.
Proof.
  intros Hr.
  assert (Hc : r = 0 \/ r = 1 \/ r = 2 \/ r = 3 \/ r = 4 \/ r = 5 \/ r = 6) by lia.
  intuition (subst; vm_compute; reflexivity).
Qed.

Lemma business_day_within cur :
  exists k, 1 <= k <= 35 /\ isBusinessDay (addDays cur k) = true.
Proof.
  destruct (existsb (fun k => isBusinessDay (addDays cur k)) (seqZ 1 35)) eqn:E.
  { apply existsb_exists in E as (k & Hin & Hk).
    apply list_elem_of_In, elem_of_seqZ in Hin. exists k. split; [lia | exact Hk]. }
  exfalso.
  assert (Hall : forall k, 1 <= k <= 35 -> isBusinessDay (addDays cur k) = false).
  { intros k Hk. destruct (isBusinessDay (addDays cur k)) eqn:Hb; [|reflexivity].
    rewrite <- E. symmetry. apply existsb_exists. exists k. split; [|exact Hb].
    apply list_elem_of_In, elem_of_seqZ. lia. }
  clear E.
  set (d := Day cur). set (r := (d + 4) mod 7).
  set (y0 := YearFromDay (d + 1)).
  set (W := (fun k => d + k) <$> weekdayOffsets r).
  set (H := Day <$> (getSAPublicHolidays y0 ++ getSAPublicHolidays (y0 + 1))).
  assert (HW : length W = 25%nat).
  { unfold W. rewrite length_fmap. apply length_weekdayOffsets. unfold r. divlia. }
  assert (HH : length H = 24%nat).
  { unfold H. rewrite length_fmap, length_app, !length_getSAPublicHolidays. reflexivity. }
  assert (Hsub : W ⊆+ H).
  { apply NoDup_submseteq.
    - unfold W. apply NoDup_fmap_2; [intros a b; lia |].
      apply NoDup_filter, NoDup_seqZ.
    - intros x Hx. unfold W in Hx.
      apply list_elem_of_fmap in Hx as (k & -> & Hk).
      apply list_elem_of_filter in Hk as [[Hk0 Hk6] Hk].
      apply elem_of_seqZ in Hk.
      assert (Hb := Hall k ltac:(lia)).
      unfold isBusinessDay in Hb.
      assert (Hwe : isWeekend (addDays cur k) = false).
      { unfold isWeekend. rewrite getDay_Day, Day_addDays. fold d.
        replace ((d + k + 4) mod 7) with ((r + k) mod 7) by (unfold r; divlia).
        apply orb_false_intro; apply Z.eqb_neq; assumption. }
      rewrite Hwe, andb_true_l in Hb. apply negb_false_iff in Hb.
      apply isPublicHoliday_elem in Hb. rewrite Day_addDays in Hb. fold d in Hb.
      unfold H. rewrite fmap_app. apply elem_of_app.
      destruct (YearFromDay_window d k ltac:(lia)) as [Hy | Hy];
        fold y0 in Hy; rewrite Hy in Hb; auto. }
  apply submseteq_length in Hsub. rewrite HW, HH in Hsub. lia.
Qed.

End BusinessDays.

(** ** Loops with fuel *)

Section Loops.

Context {St : Type} (cond : St -> bool) (body : St -> St).

Lemma whileLoop_done fuel s : cond s = false -> whileLoop fuel cond body s = Some s.
Proof. intros H. destruct fuel; simpl; rewrite H; reflexivity. Qed.

Lemma whileLoop_step fuel s :
  cond s = true -> whileLoop (S fuel) cond body s = whileLoop fuel cond body (body s).
Proof. intros H. simpl. rewrite H. reflexivity. Qed.

(** More fuel never changes a result. *)
Lemma whileLoop_fuel_mono fuel fuel' s r :
  whileLoop fuel cond body s = Some r -> (fuel <= fuel')%nat ->
  whileLoop fuel' cond body s = Some r.
Proof.
  revert fuel' s. induction fuel as [|fuel IH]; intros fuel' s Hr Hle.
  - simpl in Hr. destruct (cond s) eqn:Hc; [discriminate|].
    rewrite whileLoop_done; assumption.
  - destruct (cond s) eqn:Hc.
    + rewrite whileLoop_step in Hr by assumption.
      destruct fuel' as [|fuel']; [lia|].
      rewrite whileLoop_step by assumption. apply IH; [assumption | lia].
    + rewrite whileLoop_done in Hr by assumption.
      rewrite whileLoop_done; assumption.
Qed.

End Loops.

Section AddBusinessDays.

Lemma addDays_0 t : addDays t 0 = t.
Proof. unfold addDays. lia. Qed.

Lemma addDays_add t a b : addDays (addDays t a) b = addDays t (a + b).
Proof. unfold addDays. lia. Qed.

Lemma businessDaysIn_app cur a b :
  businessDaysIn cur (a + b) = businessDaysIn cur a + businessDaysIn (addDays cur (Z.of_nat a)) b.
Proof.
  revert cur. induction a as [|a IH]; intros cur.
  - change (Z.of_nat 0) with 0. rewrite addDays_0. reflexivity.
  - change (S a + b)%nat with (S (a + b)). cbn [businessDaysIn].
    rewrite IH, addDays_add. replace (1 + Z.of_nat a) with (Z.of_nat (S a)) by lia. lia.
Qed.

Lemma businessDaysIn_bounds cur len : 0 <= businessDaysIn cur len <= Z.of_nat len.
Proof.
  revert cur. induction len as [|len IH]; intros cur; cbn [businessDaysIn]; [lia|].
  specialize (IH (addDays cur 1)). destruct (isBusinessDay (addDays cur 1)); lia.
Qed.

Variable businessDays : Z.

Let cond := fun st : Date * Z => snd st <? businessDays.

(** From a state that still needs days, the loop reaches the first business
    day after [cur], which lies within the next [j] days. *)
Lemma addBusinessDays_progress (j : nat) : forall cur added (f : nat),
  added < businessDays ->
  (exists k : nat, (1 <= k <= j)%nat /\ isBusinessDay (addDays cur (Z.of_nat k)) = true) ->
  exists k : nat, (1 <= k <= j)%nat /\
    isBusinessDay (addDays cur (Z.of_nat k)) = true /\
    businessDaysIn cur k = 1 /\
    whileLoop (j + f) cond addBusinessDays_body (cur, added)
    = whileLoop (j - k + f) cond addBusinessDays_body (addDays cur (Z.of_nat k), added + 1).
Proof.
  induction j as [|j IH]; intros cur added f Hlt (k0 & Hk0 & Hb0); [lia|].
  change (S j + f)%nat with (S (j + f)).
  rewrite whileLoop_step by (unfold cond; cbn [snd]; lia).
  unfold addBusinessDays_body at 2. cbn [fst snd].
  destruct (isBusinessDay (addDays cur 1)) eqn:Hb1.
  - exists 1%nat. split; [lia|]. change (Z.of_nat 1) with 1. split; [exact Hb1|]. split.
    + cbn [businessDaysIn]. rewrite Hb1. lia.
    + replace (S j - 1 + f)%nat with (j + f)%nat by lia. reflexivity.
  - assert (k0 <> 1%nat) by (intros ->; change (Z.of_nat 1) with 1 in Hb0; congruence).
    destruct (IH (addDays cur 1) added f Hlt) as (k & Hk & Hb & Hcnt & Hloop).
    { exists (k0 - 1)%nat. split; [lia|]. rewrite addDays_add.
      replace (1 + Z.of_nat (k0 - 1)) with (Z.of_nat k0) by lia. exact Hb0. }
    rewrite addDays_add in Hb, Hloop.
    replace (1 + Z.of_nat k) with (Z.of_nat (S k)) in Hb, Hloop by lia.
    exists (S k). split; [lia|]. split; [exact Hb|]. split.
    + cbn [businessDaysIn]. rewrite Hb1, Hcnt. lia.
    + rewrite Hloop. replace (S j - S k + f)%nat with (j - k + f)%nat by lia. reflexivity.
Qed.

(** With 35 iterations for each day still needed the loop ends, on the
    day that closes the requested number of business days. *)
Lemma addBusinessDays_loop_total (m : nat) : forall cur added,
  Z.of_nat m = businessDays - added ->
  exists k : nat, (m <= k <= 35 * m)%nat /\
    whileLoop (35 * m) cond addBusinessDays_body (cur, added)
    = Some (addDays cur (Z.of_nat k), businessDays) /\
    businessDaysIn cur k = Z.of_nat m /\
    ((1 <= m)%nat -> isBusinessDay (addDays cur (Z.of_nat k)) = true).
Proof.
  induction m as [|m IH]; intros cur added Hm.
  - exists 0%nat. split; [lia|]. change (Z.of_nat 0) with 0. rewrite addDays_0.
    split; [|split; [reflexivity | lia]].
    rewrite whileLoop_done by (unfold cond; cbn [snd]; lia).
    f_equal. f_equal. lia.
  - destruct (business_day_within cur) as (k0 & Hk0 & Hb0).
    destruct (addBusinessDays_progress 35 cur added (35 * m)) as (k1 & Hk1 & Hb1 & Hc1 & Hloop);
      [lia | |].
    { exists (Z.to_nat k0). split; [lia|]. rewrite Z2Nat.id by lia. exact Hb0. }
    destruct (IH (addDays cur (Z.of_nat k1)) (added + 1)) as (k2 & Hk2 & Hl2 & Hc2 & Hb2); [lia|].
    exists (k1 + k2)%nat. split; [lia|].
    rewrite addDays_add in Hl2, Hb2.
    replace (Z.of_nat k1 + Z.of_nat k2) with (Z.of_nat (k1 + k2)) in Hl2, Hb2 by lia.
    split; [|split].
    + replace (35 * S m)%nat with (35 + 35 * m)%nat by lia. rewrite Hloop.
      eapply whileLoop_fuel_mono; [exact Hl2 | lia].
    + rewrite businessDaysIn_app, Hc1, Hc2. lia.
    + intros _. destruct m as [|m].
      * assert (k2 = 0%nat) by lia. subst k2. rewrite Nat.add_0_r. exact Hb1.
      * apply Hb2. lia.
Qed.

End AddBusinessDays.

(** [addBusinessDays] returns: the loop ends within its fuel, and the
    result is [k] days after the start of [startDate], where those [k] days
    hold exactly [businessDays] business days and the last one is a
    business day. *)
Lemma addBusinessDays_spec startDate businessDays :
  exists k : nat,
    addBusinessDays_run (addBusinessDays_fuel businessDays) startDate businessDays
    = Some (addDays (startOfDay startDate) (Z.of_nat k)) /\
    addBusinessDays startDate businessDays = addDays (startOfDay startDate) (Z.of_nat k) /\
    businessDaysIn (startOfDay startDate) k = Z.max 0 businessDays /\
    (0 < businessDays ->
       (1 <= k)%nat /\ isBusinessDay (addBusinessDays startDate businessDays) = true).
Proof.
  unfold addBusinessDays, addBusinessDays_run.
  destruct (businessDays <=? 0) eqn:Hn.
  - exists 0%nat. change (Z.of_nat 0) with 0. rewrite addDays_0. cbn [default businessDaysIn].
    repeat split; try lia.
  - destruct (addBusinessDays_loop_total businessDays (Z.to_nat businessDays)
                (startOfDay startDate) 0) as (k & Hk & Hl & Hc & Hb); [lia|].
    exists k. unfold addBusinessDays_fuel.
    replace (Z.to_nat (35 * businessDays)) with (35 * Z.to_nat businessDays)%nat by lia.
    rewrite Hl. cbn [fmap option_fmap option_map fst default].
    split; [reflexivity|]. split; [reflexivity|]. split; [lia|].
    intros Hpos. split; [lia|]. apply Hb. lia.
Qed.
Section BusinessDaysBetween.

Lemma startOfDay_lt a b : (startOfDay a <? startOfDay b) = (Day a <? Day b).
Proof. unfold startOfDay, msPerDay. destruct (Day a <? Day b) eqn:E; lia. Qed.

Lemma startOfDay_as_addDays a b : startOfDay b = addDays (startOfDay a) (Day b - Day a).
Proof. unfold startOfDay, addDays. lia. Qed.

Variable later : Date.

Let cond := fun st : Date * Z => negb (isAfter (fst st) later).

(** The counting loop, started on the day after [cur] with [later] being
    [len] days after [cur], adds the business days among those [len] days. *)
Lemma getBusinessDaysBetween_loop (len : nat) : forall cur acc (f : nat),
  later = addDays cur (Z.of_nat len) ->
  whileLoop (len + f) cond getBusinessDaysBetween_body (addDays cur 1, acc)
  = Some (addDays cur (Z.of_nat len + 1), acc + businessDaysIn cur len).
Proof.
  induction len as [|len IH]; intros cur acc f Hl.
  - rewrite whileLoop_done.
    + change (Z.of_nat 0 + 1) with 1. cbn [businessDaysIn]. f_equal. f_equal. lia.
    + unfold cond, isAfter. cbn [fst]. subst later. unfold addDays, msPerDay.
      apply negb_false_iff, Z.ltb_lt. lia.
  - change (S len + f)%nat with (S (len + f)).
    rewrite whileLoop_step.
    + unfold getBusinessDaysBetween_body at 2. cbn [fst snd].
      rewrite IH by (rewrite addDays_add, Hl; f_equal; lia).
      rewrite addDays_add. cbn [businessDaysIn]. f_equal. f_equal; [f_equal; lia|].
      destruct (isBusinessDay (addDays cur 1)); lia.
    + unfold cond, isAfter. cbn [fst]. subst later. unfold addDays, msPerDay.
      apply negb_true_iff, Z.ltb_ge. lia.
Qed.

End BusinessDaysBetween.

(** [getBusinessDaysBetween] returns: its loop ends within the fuel, and the
    result is the signed number of business days after the earlier day up to
    and including the later day. *)
Lemma getBusinessDaysBetween_spec startDate endDate :
  getBusinessDaysBetween_run (getBusinessDaysBetween_fuel startDate endDate) startDate endDate
  = Some (getBusinessDaysBetween startDate endDate) /\
  getBusinessDaysBetween startDate endDate
  = if Day startDate =? Day endDate then 0
    else if Day endDate <? Day startDate
    then - businessDaysIn (startOfDay endDate) (Z.to_nat (Day startDate - Day endDate))
    else businessDaysIn (startOfDay startDate) (Z.to_nat (Day endDate - Day startDate)).
Proof.
  unfold getBusinessDaysBetween, getBusinessDaysBetween_run, getBusinessDaysBetween_fuel.
  rewrite isSameDay_Day, !Day_startOfDay.
  destruct (Day startDate =? Day endDate) eqn:Hs; [split; reflexivity|].
  unfold isBefore. rewrite startOfDay_lt.
  destruct (Day endDate <? Day startDate) eqn:Hb.
  - pose proof (getBusinessDaysBetween_loop (startOfDay startDate)
      (Z.to_nat (Day startDate - Day endDate)) (startOfDay endDate) 0 0) as Hl.
    rewrite Nat.add_0_r in Hl.
    replace (Z.to_nat (Z.abs (Day endDate - Day startDate)))
      with (Z.to_nat (Day startDate - Day endDate)) by lia.
    rewrite Hl.
    + cbn [fmap option_fmap option_map snd default]. split; reflexivity.
    + rewrite (startOfDay_as_addDays endDate startDate). f_equal. lia.
  - pose proof (getBusinessDaysBetween_loop (startOfDay endDate)
      (Z.to_nat (Day endDate - Day startDate)) (startOfDay startDate) 0 0) as Hl.
    rewrite Nat.add_0_r in Hl.
    replace (Z.to_nat (Z.abs (Day endDate - Day startDate)))
      with (Z.to_nat (Day endDate - Day startDate)) by lia.
    rewrite Hl.
    + cbn [fmap option_fmap option_map snd default]. split; reflexivity.
    + rewrite (startOfDay_as_addDays startDate endDate). f_equal. lia.
Qed.
Section Easter.

Lemma getEasterSunday_easterSum year :
  getEasterSunday year
  = newDate year (easterSum year / 31 - 1) (Z.rem (easterSum year) 31 + 1).
Proof. reflexivity. Qed.

Lemma easterSum_bounds year : 72 <= easterSum year <= 163.
Proof.
  unfold easterSum.
  set (a := Z.rem year 19). set (b := year / 100). set (c := Z.rem year 100).
  set (d := b / 4). set (e := Z.rem b 4). set (f := (b + 8) / 25).
  set (g := (b - f + 1) / 3). set (h := Z.rem (19 * a + b - d - g + 15) 30).
  set (i := c / 4). set (k := Z.rem c 4).
  set (l := Z.rem (32 + 2 * e + 2 * i - h - k) 7).
  set (m := (a + 11 * h + 22 * l) / 451).
  assert (-18 <= a <= 18) by (unfold a; divlia).
  assert (-29 <= h <= 29) by (unfold h; generalize (19 * a + b - d - g + 15); intros; divlia).
  assert (-6 <= l <= 6) by (unfold l; generalize (32 + 2 * e + 2 * i - h - k); intros; divlia).
  assert (-2 <= m <= 1) by (unfold m; divlia).
  lia.
Qed.

Lemma easterSum_bounds_pos year : 0 <= year -> 107 <= easterSum year <= 149.
Proof.
  intros Hy. unfold easterSum.
  set (a := Z.rem year 19). set (b := year / 100). set (c := Z.rem year 100).
  set (d := b / 4). set (e := Z.rem b 4). set (f := (b + 8) / 25).
  set (g := (b - f + 1) / 3). set (h := Z.rem (19 * a + b - d - g + 15) 30).
  set (i := c / 4). set (k := Z.rem c 4).
  set (l := Z.rem (32 + 2 * e + 2 * i - h - k) 7).
  set (m := (a + 11 * h + 22 * l) / 451).
  assert (0 <= a <= 18) by (unfold a; divlia).
  assert (0 <= b) by (unfold b; divlia).
  assert (0 <= c <= 99) by (unfold c; divlia).
  assert (0 <= e <= 3) by (unfold e; divlia).
  assert (0 <= i <= 24) by (unfold i; divlia).
  assert (0 <= k <= 3) by (unfold k; divlia).
  assert (0 <= 19 * a + b - d - g + 15) by (unfold g, f, d; divlia).
  assert (0 <= h < 30) by (apply Z.rem_bound_pos; lia).
  assert (0 <= l < 7) by (apply Z.rem_bound_pos; lia).
  assert (0 <= m <= 1) by (unfold m; divlia).
  lia.
Qed.

Lemma DayFromYear_leap y :
  DayFromYear y + (if InLeapYear y then 1 else 0)
  = 365 * (y - 1970) + y / 4 - y / 100 + y / 400 - 477.
Proof.
  unfold DayFromYear, InLeapYear.
  destruct (y mod 4 =? 0) eqn:E4; destruct (y mod 100 =? 0) eqn:E100;
    destruct (y mod 400 =? 0) eqn:E400; cbn [andb orb negb]; divlia.
Qed.

(** Day number of Easter Sunday for a year the [Date] constructor takes
    as it is. *)
Lemma Day_getEasterSunday year :
  100 <= year ->
  Day (getEasterSunday year)
  = 365 * (year - 1970) + year / 4 - year / 100 + year / 400 - 477 + easterSum year - 34.
Proof.
  intros Hy. rewrite getEasterSunday_easterSum, Day_newDate.
  pose proof (easterSum_bounds_pos year ltac:(lia)) as Hs.
  rewrite <- DayFromYear_leap.
  assert (Hfy : fullYear year = year).
  { unfold fullYear. replace (year <=? 99) with false by lia. by rewrite andb_false_r. }
  rewrite Hfy. unfold MakeDay.
  set (s := easterSum year) in *.
  assert (Hm : s / 31 = 3 \/ s / 31 = 4) by divlia.
  assert (Hd : Z.rem s 31 = s - 31 * (s / 31)) by divlia.
  rewrite Hd.
  destruct Hm as [-> | ->].
  - change ((3 - 1) / 12) with 0. change ((3 - 1) mod 12) with 2.
    rewrite Z.add_0_r. unfold monthStart. destruct (InLeapYear year); lia.
  - change ((4 - 1) / 12) with 0. change ((4 - 1) mod 12) with 3.
    rewrite Z.add_0_r. unfold monthStart. destruct (InLeapYear year); lia.
Qed.

(** The date found by [getEasterSunday] is a Sunday. *)
Lemma getDay_getEasterSunday year : 100 <= year -> getDay (getEasterSunday year) = 0.
Proof.
  intros Hy. rewrite getDay_Day, Day_getEasterSunday by assumption.
  assert (H4 : year / 4 = 25 * (year / 100) + year mod 100 / 4) by divlia.
  assert (H400 : year / 400 = year / 100 / 4) by divlia.
  assert (Hyear : year = 100 * (year / 100) + year mod 100) by divlia.
  assert (Ha : Z.rem year 100 = year mod 100) by (apply Z.rem_mod_nonneg; lia).
  assert (Hb0 : 0 <= year / 100) by (apply Z.div_pos; lia).
  assert (Hc0 : 0 <= year mod 100 < 100) by (apply Z.mod_pos_bound; lia).
  assert (Hr0 : 0 <= Z.rem year 19 < 19) by (apply Z.rem_bound_pos; lia).
  rewrite H4, H400. rewrite Hyear at 1.
  unfold easterSum. rewrite !Ha.
  set (b := year / 100) in *. set (c := year mod 100) in *.
  set (a := Z.rem year 19) in *.
  clearbody a b c. clear year Hy H4 H400 Hyear Ha.
  assert (Hb : Z.rem b 4 = b mod 4) by (apply Z.rem_mod_nonneg; lia).
  assert (Hk : Z.rem c 4 = c mod 4) by (apply Z.rem_mod_nonneg; lia).
  rewrite !Hb, !Hk.
  pose proof (Z.div_mod b 4 ltac:(lia)) as Eb.
  pose proof (Z.div_mod c 4 ltac:(lia)) as Ec.
  pose proof (Z.mod_pos_bound b 4 ltac:(lia)) as Be.
  pose proof (Z.mod_pos_bound c 4 ltac:(lia)) as Bk.
  assert (Bg : 3 * ((b - (b + 8) / 25 + 1) / 3) <= b + 1) by divlia.
  assert (Bi : 0 <= c / 4) by (apply Z.div_pos; lia).
  set (d := b / 4) in *. set (e := b mod 4) in *.
  set (i := c / 4) in *. set (k := c mod 4) in *.
  set (g := (b - (b + 8) / 25 + 1) / 3) in *.
  clearbody d e i k g.
  assert (Bh : 0 <= Z.rem (19 * a + b - d - g + 15) 30 < 30)
    by (apply Z.rem_bound_pos; lia).
  set (h := Z.rem (19 * a + b - d - g + 15) 30) in *. clearbody h.
  assert (Hl : Z.rem (32 + 2 * e + 2 * i - h - k) 7 = (32 + 2 * e + 2 * i - h - k) mod 7)
    by (apply Z.rem_mod_nonneg; lia).
  rewrite !Hl.
  pose proof (Z.div_mod (32 + 2 * e + 2 * i - h - k) 7 ltac:(lia)) as ET.
  set (q := (32 + 2 * e + 2 * i - h - k) / 7) in *.
  set (l := (32 + 2 * e + 2 * i - h - k) mod 7) in *.
  clearbody q l.
  set (m := (a + 11 * h + 22 * l) / 451). clearbody m.
  replace (365 * (100 * b + c - 1970) + (25 * b + i) - b + d - 477
           + (h + l - 7 * m + 114) - 34 + 4)
    with ((20871 * d + 5218 * e + 209 * i + 52 * k - q - m - 102773) * 7) by lia.
  apply Z.mod_mul. lia.
Qed.

End Easter.

Section Holidays.

Lemma getDay_addDays t n : getDay (addDays t n) = (getDay t + n) mod 7.
Proof. rewrite !getDay_Day, Day_addDays. divlia. Qed.

Lemma getDay_startOfDay t : getDay (startOfDay t) = getDay t.
Proof. by rewrite !getDay_Day, Day_startOfDay. Qed.

Lemma getDay_range t : 0 <= getDay t < 7.
Proof. rewrite getDay_Day. divlia. Qed.

(** Easter Sunday lies between 1 February and 31 May of its year, whatever
    the year. *)
Lemma Day_getEasterSunday_range year :
  DayFromYear (fullYear year) + 31 <= Day (getEasterSunday year)
  <= DayFromYear (fullYear year) + 151.
Proof.
  rewrite getEasterSunday_easterSum, Day_newDate.
  pose proof (easterSum_bounds year) as Hs. set (s := easterSum year) in *. clearbody s.
  assert (Hd : 0 <= Z.rem s 31 <= 30) by divlia.
  set (dd := Z.rem s 31) in *. clearbody dd.
  assert (Hm : s / 31 = 2 \/ s / 31 = 3 \/ s / 31 = 4 \/ s / 31 = 5) by divlia.
  unfold MakeDay.
  destruct Hm as [-> | [-> | [-> | ->]]].
  - change ((2 - 1) / 12) with 0. change ((2 - 1) mod 12) with 1.
    rewrite Z.add_0_r. unfold monthStart. destruct (InLeapYear (fullYear year)); lia.
  - change ((3 - 1) / 12) with 0. change ((3 - 1) mod 12) with 2.
    rewrite Z.add_0_r. unfold monthStart. destruct (InLeapYear (fullYear year)); lia.
  - change ((4 - 1) / 12) with 0. change ((4 - 1) mod 12) with 3.
    rewrite Z.add_0_r. unfold monthStart. destruct (InLeapYear (fullYear year)); lia.
  - change ((5 - 1) / 12) with 0. change ((5 - 1) mod 12) with 4.
    rewrite Z.add_0_r. unfold monthStart. destruct (InLeapYear (fullYear year)); lia.
Qed.

Lemma Day_getGoodFriday year : Day (getGoodFriday year) = Day (getEasterSunday year) - 2.
Proof. unfold getGoodFriday. rewrite Day_addDays. lia. Qed.

Lemma Day_getFamilyDay year : Day (getFamilyDay year) = Day (getEasterSunday year) - 1.
Proof. unfold getFamilyDay. rewrite Day_addDays, Day_getGoodFriday. lia. Qed.

(** Good Friday is a Friday and Family Day a Saturday. *)
Lemma getDay_getGoodFriday year : 100 <= year -> getDay (getGoodFriday year) = 5.
Proof.
  intros Hy. unfold getGoodFriday.
  rewrite getDay_addDays, getDay_getEasterSunday by assumption. reflexivity.
Qed.

Lemma getDay_getFamilyDay year : 100 <= year -> getDay (getFamilyDay year) = 6.
Proof.
  intros Hy. unfold getFamilyDay.
  rewrite getDay_addDays, getDay_getGoodFriday by assumption. reflexivity.
Qed.

(** Day number of a date built in a month 0..11. *)
Lemma Day_newDate_month y m d :
  0 <= m <= 11 ->
  Day (newDate y m d)
  = DayFromYear (fullYear y) + monthStart m (InLeapYear (fullYear y)) + d - 1.
Proof.
  intros Hm. rewrite Day_newDate. unfold MakeDay.
  replace (m / 12) with 0 by divlia. replace (m mod 12) with m by divlia.
  by rewrite Z.add_0_r.
Qed.

(** The entry pushed for a fixed holiday: its own day, or the day after
    when it falls on a Sunday; never a Sunday. *)
Lemma Day_observedDate year holiday :
  Day (observedDate year holiday)
  = Day (newDate year (month holiday) (day holiday))
    + (if getDay (newDate year (month holiday) (day holiday)) =? 0 then 1 else 0).
Proof.
  unfold observedDate. rewrite Day_startOfDay.
  destruct (getDay _ =? 0); [rewrite Day_addDays|]; lia.
Qed.

Lemma getDay_observedDate year holiday : getDay (observedDate year holiday) <> 0.
Proof.
  unfold observedDate. rewrite getDay_startOfDay.
  destruct (getDay _ =? 0) eqn:E.
  - rewrite getDay_addDays. apply Z.eqb_eq in E. rewrite E. discriminate.
  - by apply Z.eqb_neq.
Qed.

Lemma holidayOn_true holidays d :
  holidayOn holidays d = true <-> exists h, h ∈ holidays /\ Day h = Day d.
Proof.
  unfold holidayOn. rewrite existsb_exists. split; intros (h & Hin & Hs); exists h.
  - rewrite isSameDay_Day in Hs. split; [by apply list_elem_of_In | lia].
  - rewrite isSameDay_Day. split; [by apply list_elem_of_In | lia].
Qed.

Lemma holidayOn_false holidays d :
  (forall h, h ∈ holidays -> Day h <> Day d) -> holidayOn holidays d = false.
Proof.
  intros H. destruct (holidayOn holidays d) eqn:E; [|done].
  apply holidayOn_true in E as (h & Hin & Hd). by destruct (H h Hin).
Qed.

Lemma isPublicHoliday_holidayOn date :
  isPublicHoliday date = holidayOn (getSAPublicHolidays (getYear date)) date.
Proof.
  unfold isPublicHoliday, holidayOn.
  induction (getSAPublicHolidays (getYear date)) as [|h l IH]; [reflexivity|].
  cbn [existsb]. rewrite IH, !isSameDay_Day, Day_startOfDay. reflexivity.
Qed.

Lemma elem_of_getSAPublicHolidays year h :
  h ∈ getSAPublicHolidays year <->
  (exists holiday, h = observedDate year holiday /\ holiday ∈ fixedHolidays)
  \/ h = startOfDay (getGoodFriday year) \/ h = startOfDay (getFamilyDay year).
Proof.
  unfold getSAPublicHolidays. rewrite elem_of_app.
  change (map (observedDate year) fixedHolidays) with (observedDate year <$> fixedHolidays).
  rewrite list_elem_of_fmap, !elem_of_cons, elem_of_nil. tauto.
Qed.

End Holidays.

Section Christmas.

Lemma occurrences_app l1 l2 d :
  occurrences (l1 ++ l2) d = (occurrences l1 d + occurrences l2 d)%nat.
Proof. unfold occurrences. by rewrite List.filter_app, length_app. Qed.

Lemma occurrences_none l d : (forall h, h ∈ l -> Day h <> Day d) -> occurrences l d = 0%nat.
Proof.
  unfold occurrences. induction l as [|h l IH]; intros H; [reflexivity|].
  cbn [List.filter]. rewrite isSameDay_Day.
  replace (Day h =? Day d) with false by (symmetry; apply Z.eqb_neq, H; left).
  apply IH. intros h' Hin. apply H. by right.
Qed.

Lemma Day_observedDate_beforeChristmas year holiday :
  holiday ∈ fixedHolidays -> beforeChristmas holiday = true ->
  DayFromYear (fullYear year) <= Day (observedDate year holiday)
  <= DayFromYear (fullYear year) + 351.
Proof.
  intros Hin Hb. rewrite Day_observedDate.
  set (s := if getDay _ =? 0 then 1 else 0).
  assert (Hs : 0 <= s <= 1) by (unfold s; destruct (getDay _ =? 0); lia).
  clearbody s. unfold fixedHolidays in Hin.
  repeat (apply elem_of_cons in Hin as [-> | Hin]);
    try (by apply elem_of_nil in Hin); try discriminate Hb;
    cbn [month day]; rewrite Day_newDate_month by lia;
    unfold monthStart; destruct (InLeapYear (fullYear year)); lia.
Qed.

Variable year : Z.
Hypothesis christmas_sunday : getDay (newDate year 11 25) = 0.

Lemma Day_christmas_observed :
  Day (observedDate year {| month := 11; day := 25; name := "Christmas Day" |})
  = Day (newDate year 11 26).
Proof.
  rewrite Day_observedDate. cbn [month day]. rewrite christmas_sunday.
  rewrite !Day_newDate_month by lia. change (0 =? 0) with true. cbv iota. lia.
Qed.

Lemma getDay_december k :
  getDay (newDate year 11 (25 + k)) = k mod 7.
Proof.
  pose proof christmas_sunday as H. rewrite getDay_Day in *.
  rewrite Day_newDate_month in * by lia.
  set (x := DayFromYear _ + monthStart _ _) in *. clearbody x. divlia.
Qed.

Lemma Day_goodwill_observed :
  Day (observedDate year {| month := 11; day := 26; name := "Day of Goodwill" |})
  = Day (newDate year 11 26).
Proof.
  rewrite Day_observedDate. cbn [month day].
  change 26 with (25 + 1). rewrite getDay_december. change (1 mod 7 =? 0) with false.
  cbv iota. lia.
Qed.

Lemma Day_fixed_not_after_christmas holiday k :
  holiday ∈ fixedHolidays -> 1 <= k ->
  Day (observedDate year holiday) = Day (newDate year 11 (25 + k)) ->
  k = 1 /\ beforeChristmas holiday = false.
Proof.
  intros Hin Hk.
  destruct (beforeChristmas holiday) eqn:Hb.
  - pose proof (Day_observedDate_beforeChristmas year holiday Hin Hb) as Hr.
    rewrite Day_newDate_month by lia. unfold monthStart.
    destruct (InLeapYear (fullYear year)); lia.
  - unfold fixedHolidays in Hin.
    repeat (apply elem_of_cons in Hin as [-> | Hin]);
      try (by apply elem_of_nil in Hin); try discriminate Hb.
    + rewrite Day_christmas_observed, !Day_newDate_month by lia. lia.
    + rewrite Day_goodwill_observed, !Day_newDate_month by lia. lia.
Qed.

Lemma Day_easter_not_december h k :
  1 <= k ->
  h = startOfDay (getGoodFriday year) \/ h = startOfDay (getFamilyDay year) ->
  Day h <> Day (newDate year 11 k).
Proof.
  pose proof (Day_getEasterSunday_range year) as Hr. intros Hk.
  rewrite Day_newDate_month by lia. unfold monthStart.
  intros [-> | ->]; rewrite Day_startOfDay.
  - rewrite Day_getGoodFriday. destruct (InLeapYear (fullYear year)); lia.
  - rewrite Day_getFamilyDay. destruct (InLeapYear (fullYear year)); lia.
Qed.

Lemma isSameDay_fixed_dec26 holiday :
  holiday ∈ fixedHolidays ->
  isSameDay (observedDate year holiday) (newDate year 11 26) = negb (beforeChristmas holiday).
Proof.
  intros Hin. rewrite isSameDay_Day.
  destruct (Z.eqb_spec (Day (observedDate year holiday)) (Day (newDate year 11 26))) as [E | E].
  - apply (Day_fixed_not_after_christmas holiday 1) in E as [_ ->];
      [reflexivity | assumption | lia].
  - destruct (beforeChristmas holiday) eqn:Hb; [reflexivity|]. exfalso. apply E.
    unfold fixedHolidays in Hin.
    repeat (apply elem_of_cons in Hin as [-> | Hin]);
      try (by apply elem_of_nil in Hin); try discriminate Hb.
    + apply Day_christmas_observed.
    + apply Day_goodwill_observed.
Qed.

Lemma occurrences_observed (l : list FixedHoliday) (p : FixedHoliday -> bool) d :
  (forall holiday, holiday ∈ l -> isSameDay (observedDate year holiday) d = p holiday) ->
  occurrences (map (observedDate year) l) d = length (List.filter p l).
Proof.
  unfold occurrences. induction l as [|h l IH]; intros H; [reflexivity|].
  cbn [map List.filter]. rewrite (H h) by left.
  destruct (p h); cbn [length]; rewrite IH; try reflexivity; intros; apply H; by right.
Qed.

(** 26 December is in the list twice. *)
Lemma occurrences_dec26 :
  occurrences (getSAPublicHolidays year) (newDate year 11 26) = 2%nat.
Proof.
  unfold getSAPublicHolidays. rewrite occurrences_app.
  rewrite (occurrences_observed fixedHolidays (fun h => negb (beforeChristmas h)))
    by apply isSameDay_fixed_dec26.
  rewrite occurrences_none; [reflexivity|].
  intros h Hin. apply Day_easter_not_december; [lia|].
  apply elem_of_cons in Hin as [-> | Hin]; [by left|].
  apply elem_of_cons in Hin as [-> | Hin]; [by right|]. by apply elem_of_nil in Hin.
Qed.

(** 27 December is not in the list. *)
Lemma holidayOn_dec27 :
  holidayOn (getSAPublicHolidays year) (newDate year 11 27) = false.
Proof.
  apply holidayOn_false. intros h Hin.
  apply elem_of_getSAPublicHolidays in Hin as [(holiday & -> & Hin) | Hin].
  - intros E. apply (Day_fixed_not_after_christmas holiday 2) in E as [E _];
      [lia | assumption | lia].
  - apply Day_easter_not_december; [lia | assumption].
Qed.

End Christmas.

(** ** Claims about the holiday calendar *)

(** C3, as stated, fails: 1 January 2023 is a Sunday; the list for 2023 holds
    Monday 2 January but not the Sunday itself, which the shift replaced. *)
Lemma sunday_holiday_kept_counterexample :
  ~ (forall year h, h ∈ holidayDates year -> getDay h = 0 ->
       holidayOn (getSAPublicHolidays year) (addDays h 1) = true /\
       holidayOn (getSAPublicHolidays year) h = true).
Proof.
  intros H. destruct (H 2023 (newDate 2023 0 1)) as [_ Hkept].
  - left.
  - reflexivity.
  - vm_compute in Hkept. discriminate Hkept.
Qed.

(** C3 (amended): for every year, a fixed holiday that falls on a Sunday is
    entered on the following Monday.  For every year from 100 on (a year the
    [Date] constructor takes as written), Good Friday is a Friday and Family
    Day a Saturday, so only fixed holidays can fall on a Sunday, and no entry
    of the list is on a Sunday: the Monday replaces the Sunday date. *)
Theorem sunday_holiday_observed_on_monday (year : Z) :
  (forall holiday, holiday ∈ fixedHolidays ->
     getDay (newDate year (month holiday) (day holiday)) = 0 ->
     holidayOn (getSAPublicHolidays year)
       (addDays (newDate year (month holiday) (day holiday)) 1) = true) /\
  (100 <= year ->
     getDay (getGoodFriday year) = 5 /\ getDay (getFamilyDay year) = 6 /\
     forall date, getDay date = 0 -> holidayOn (getSAPublicHolidays year) date = false).
Proof.
  split.
  - intros holiday Hin Hsun. apply holidayOn_true.
    exists (observedDate year holiday). split.
    + apply elem_of_getSAPublicHolidays. left. by exists holiday.
    + rewrite Day_observedDate, Hsun, Day_addDays. reflexivity.
  - intros Hy. split; [by apply getDay_getGoodFriday|].
    split; [by apply getDay_getFamilyDay|].
    intros date Hsun. apply holidayOn_false. intros h Hin Hd.
    assert (Hh : getDay h = 0) by (rewrite getDay_Day, Hd, <- getDay_Day; exact Hsun).
    apply elem_of_getSAPublicHolidays in Hin as [(holiday & -> & Hin) | [-> | ->]].
    + by apply getDay_observedDate in Hh.
    + rewrite getDay_startOfDay, getDay_getGoodFriday in Hh by assumption. discriminate Hh.
    + rewrite getDay_startOfDay, getDay_getFamilyDay in Hh by assumption. discriminate Hh.
Qed.

Lemma sunday_holiday_observed_on_monday_witness :
  holidayOn (getSAPublicHolidays 2023) (addDays (newDate 2023 0 1) 1) = true /\
  holidayOn (getSAPublicHolidays 2023) (newDate 2023 0 1) = false.
Proof.
  destruct (sunday_holiday_observed_on_monday 2023) as [Hmon Hsun]. split.
  - apply (Hmon {| month := 0; day := 1; name := "New Year's Day" |}).
    + left.
    + reflexivity.
  - apply Hsun.
    + discriminate.
    + reflexivity.
Defined.

(** C10: in a year whose 25 December is a Sunday, 26 December is in the
    list twice, 27 December is not in it, and 27 December, a Tuesday, is a
    business day. *)
Theorem christmas_on_sunday (year : Z) :
  getDay (newDate year 11 25) = 0 ->
  occurrences (getSAPublicHolidays year) (newDate year 11 26) = 2%nat /\
  holidayOn (getSAPublicHolidays year) (newDate year 11 27) = false /\
  getDay (newDate year 11 27) = 2 /\
  isBusinessDay (newDate year 11 27) = true.
Proof.
  intros Hsun.
  assert (Htue : getDay (newDate year 11 27) = 2)
    by (change 27 with (25 + 2); by rewrite getDay_december).
  split; [by apply occurrences_dec26|]. split; [by apply holidayOn_dec27|].
  split; [exact Htue|].
  unfold isBusinessDay, isWeekend. rewrite Htue, isPublicHoliday_holidayOn.
  rewrite getYear_newDate.
  - assert (Hnd : forall m d, newDate (fullYear year) m d = newDate year m d)
      by (intros; unfold newDate; by rewrite fullYear_idem).
    rewrite <- (Hnd 11 27), holidayOn_dec27; [reflexivity|]. by rewrite Hnd.
  - lia.
  - unfold monthStart. destruct (InLeapYear (fullYear year)); lia.
Qed.

Lemma christmas_on_sunday_witness :
  occurrences (getSAPublicHolidays 2022) (newDate 2022 11 26) = 2%nat /\
  holidayOn (getSAPublicHolidays 2022) (newDate 2022 11 27) = false /\
  getDay (newDate 2022 11 27) = 2 /\
  isBusinessDay (newDate 2022 11 27) = true.
Proof. apply (christmas_on_sunday 2022). reflexivity. Defined.

(** ** Claims about business-day arithmetic *)

Lemma getBusinessDaysBetween_startOfDay_l a b :
  getBusinessDaysBetween (startOfDay a) b = getBusinessDaysBetween a b.
Proof.
  rewrite !(proj2 (getBusinessDaysBetween_spec _ _)).
  by rewrite startOfDay_idem, Day_startOfDay.
Qed.

Lemma getBusinessDaysBetween_startOfDay_r a b :
  getBusinessDaysBetween a (startOfDay b) = getBusinessDaysBetween a b.
Proof.
  rewrite !(proj2 (getBusinessDaysBetween_spec _ _)).
  by rewrite startOfDay_idem, Day_startOfDay.
Qed.

Lemma getBusinessDaysBetween_opp a b :
  getBusinessDaysBetween a b = - getBusinessDaysBetween b a.
Proof.
  rewrite !(proj2 (getBusinessDaysBetween_spec _ _)).
  destruct (Z.eqb_spec (Day a) (Day b)) as [E | E].
  - rewrite E, Z.eqb_refl. reflexivity.
  - replace (Day b =? Day a) with false by (symmetry; apply Z.eqb_neq; lia).
    destruct (Z.ltb_spec (Day b) (Day a)).
    + replace (Day a <? Day b) with false by (symmetry; apply Z.ltb_ge; lia). lia.
    + replace (Day a <? Day b) with true by (symmetry; apply Z.ltb_lt; lia). lia.
Qed.

Lemma getBusinessDaysBetween_sameDay a b :
  isSameDay a b = true -> getBusinessDaysBetween a b = 0.
Proof.
  intros Hs. rewrite isSameDay_Day in Hs.
  rewrite (proj2 (getBusinessDaysBetween_spec _ _)), Hs. reflexivity.
Qed.

(** C5: [getBusinessDaysBetween] returns (its loop ends within its fuel),
    is antisymmetric, and is 0 for two dates on the same calendar day. *)
Theorem getBusinessDaysBetween_antisymmetric (a b : Date) :
  getBusinessDaysBetween_run (getBusinessDaysBetween_fuel a b) a b
  = Some (getBusinessDaysBetween a b) /\
  getBusinessDaysBetween a b = - getBusinessDaysBetween b a /\
  (isSameDay a b = true -> getBusinessDaysBetween a b = 0).
Proof.
  split; [apply getBusinessDaysBetween_spec|].
  split; [apply getBusinessDaysBetween_opp | apply getBusinessDaysBetween_sameDay].
Qed.

Lemma getBusinessDaysBetween_antisymmetric_witness :
  getBusinessDaysBetween (newDate 2024 0 8) (newDate 2024 0 8 + 3600000) = 0 /\
  getBusinessDaysBetween (newDate 2024 0 8) (newDate 2024 0 22) = 10 /\
  getBusinessDaysBetween (newDate 2024 0 22) (newDate 2024 0 8) = -10.
Proof.
  split; [|split].
  - apply (getBusinessDaysBetween_antisymmetric (newDate 2024 0 8) (newDate 2024 0 8 + 3600000)).
    reflexivity.
  - vm_compute. reflexivity.
  - destruct (getBusinessDaysBetween_antisymmetric (newDate 2024 0 22) (newDate 2024 0 8))
      as (_ & -> & _).
    vm_compute. reflexivity.
Defined.

(** C6: [getBusinessDaysUntil], with [now] the clock value read at the call
    and [today] its start of day, returns [getBusinessDaysBetween today
    deadline]: 0 when the deadline is on the calendar day of today, and -1
    when the deadline is one business day before today, that is, when today
    is the first business day after the deadline or, more generally, when
    exactly one business day lies after the deadline up to today. *)
Theorem getBusinessDaysUntil_between (now deadline : Date) :
  let today := startOfDay now in
  getBusinessDaysUntil now deadline = getBusinessDaysBetween today deadline /\
  (isSameDay today deadline = true -> getBusinessDaysUntil now deadline = 0) /\
  (addBusinessDays deadline 1 = today -> getBusinessDaysUntil now deadline = -1) /\
  (Day deadline < Day today ->
   businessDaysIn (startOfDay deadline) (Z.to_nat (Day today - Day deadline)) = 1 ->
   getBusinessDaysUntil now deadline = -1).
Proof.
  intros today.
  assert (Hmain : getBusinessDaysUntil now deadline = getBusinessDaysBetween today deadline).
  { unfold getBusinessDaysUntil. fold today.
    destruct (isSameDay today (startOfDay deadline)) eqn:Hs.
    - rewrite isSameDay_Day, Day_startOfDay in Hs.
      rewrite (proj2 (getBusinessDaysBetween_spec _ _)), Hs. reflexivity.
    - destruct (isBefore (startOfDay deadline) today).
      + rewrite <- getBusinessDaysBetween_opp. apply getBusinessDaysBetween_startOfDay_r.
      + apply getBusinessDaysBetween_startOfDay_r. }
  split; [exact Hmain|]. split; [|split].
  - intros Hs. rewrite Hmain. by apply getBusinessDaysBetween_sameDay.
  - intros Hone. rewrite Hmain.
    destruct (addBusinessDays_spec deadline 1) as (k & _ & Hr & Hc & Hk).
    destruct (Hk ltac:(lia)) as [Hk1 _]. rewrite Hone in Hr.
    rewrite (proj2 (getBusinessDaysBetween_spec _ _)).
    assert (Hd : Day today = Day deadline + Z.of_nat k)
      by (rewrite Hr, Day_addDays, Day_startOfDay; reflexivity).
    replace (Day today =? Day deadline) with false by (symmetry; apply Z.eqb_neq; lia).
    replace (Day deadline <? Day today) with true by (symmetry; apply Z.ltb_lt; lia).
    replace (Z.to_nat (Day today - Day deadline)) with k by lia.
    rewrite Hc. reflexivity.
  - intros Hlt Hcnt. rewrite Hmain, (proj2 (getBusinessDaysBetween_spec _ _)).
    replace (Day today =? Day deadline) with false by (symmetry; apply Z.eqb_neq; lia).
    replace (Day deadline <? Day today) with true by (symmetry; apply Z.ltb_lt; lia).
    rewrite Hcnt. reflexivity.
Qed.

Lemma getBusinessDaysUntil_between_witness :
  getBusinessDaysUntil (newDate 2024 0 8 + 3600000) (newDate 2024 0 8) = 0 /\
  getBusinessDaysUntil (newDate 2024 0 8 + 3600000) (newDate 2024 0 5) = -1.
Proof.
  destruct (getBusinessDaysUntil_between (newDate 2024 0 8 + 3600000) (newDate 2024 0 8))
    as (_ & Hsame & _).
  destruct (getBusinessDaysUntil_between (newDate 2024 0 8 + 3600000) (newDate 2024 0 5))
    as (_ & _ & Hone & _).
  split; [apply Hsame | apply Hone]; vm_compute; reflexivity.
Defined.

(** C7: from a business day, [addBusinessDays d 1] returns (its loop ends
    within its fuel) a date strictly later than [d] that is a business day:
    not a Saturday, not a Sunday and not a public holiday. *)
Theorem addBusinessDays_one_next_business_day (d : Date) :
  isBusinessDay d = true ->
  addBusinessDays_run (addBusinessDays_fuel 1) d 1 = Some (addBusinessDays d 1) /\
  isAfter (addBusinessDays d 1) d = true /\
  isBusinessDay (addBusinessDays d 1) = true /\
  getDay (addBusinessDays d 1) <> 6 /\ getDay (addBusinessDays d 1) <> 0 /\
  isPublicHoliday (addBusinessDays d 1) = false.
Proof.
  intros _.
  destruct (addBusinessDays_spec d 1) as (k & Hrun & Hr & _ & Hk).
  destruct (Hk ltac:(lia)) as [Hk1 Hb].
  split; [by rewrite Hrun, Hr|]. split; [|split; [exact Hb|]].
  - unfold isAfter. rewrite Hr. pose proof (startOfDay_bounds d) as Hd.
    unfold addDays, msPerDay in *. apply Z.ltb_lt. lia.
  - unfold isBusinessDay, isWeekend in Hb.
    apply andb_true_iff in Hb as [Hw Hh]. apply negb_true_iff in Hw, Hh.
    apply orb_false_iff in Hw as [H0 H6]. apply Z.eqb_neq in H0, H6. auto.
Qed.

Lemma addBusinessDays_one_next_business_day_witness :
  isBusinessDay (newDate 2024 2 28) = true /\
  addBusinessDays (newDate 2024 2 28) 1 = newDate 2024 3 1 /\
  isAfter (addBusinessDays (newDate 2024 2 28) 1) (newDate 2024 2 28) = true /\
  isBusinessDay (addBusinessDays (newDate 2024 2 28) 1) = true.
Proof.
  assert (H : isBusinessDay (newDate 2024 2 28) = true) by (vm_compute; reflexivity).
  destruct (addBusinessDays_one_next_business_day (newDate 2024 2 28) H) as (_ & Ha & Hb & _).
  split; [exact H|]. split; [vm_compute; reflexivity|]. split; assumption.
Defined.

(** ** The propagation loop *)

Section Propagation.

Lemma addBusinessDays_ge c n : startOfDay c <= addBusinessDays c n.
Proof.
  destruct (addBusinessDays_spec c n) as (k & _ & -> & _).
  unfold addDays, msPerDay. lia.
Qed.

Lemma addBusinessDays_midnight c n :
  startOfDay (addBusinessDays c n) = addBusinessDays c n.
Proof.
  destruct (addBusinessDays_spec c n) as (k & _ & -> & _).
  by rewrite startOfDay_addDays, startOfDay_idem.
Qed.

Lemma addBusinessDays_startOfDay c n :
  addBusinessDays (startOfDay c) n = addBusinessDays c n.
Proof.
  unfold addBusinessDays, addBusinessDays_run. by rewrite startOfDay_idem.
Qed.

Lemma addBusinessDays_nonpos c n : n <= 0 -> addBusinessDays c n = startOfDay c.
Proof.
  intros Hn. unfold addBusinessDays, addBusinessDays_run.
  replace (n <=? 0) with true by (symmetry; apply Z.leb_le; lia). reflexivity.
Qed.

Variable allowedDaysPerPhase : PhaseName -> Z.

Local Abbreviation step := (phaseStep allowedDaysPerPhase).
Local Abbreviation run := (runPhases allowedDaysPerPhase).

Lemma runPhases_nil st : run [] st = st.
Proof. reflexivity. Qed.

Lemma runPhases_cons phase phases st : run (phase :: phases) st = run phases (step st phase).
Proof. reflexivity. Qed.

Lemma runPhases_snoc phases phase st : run (phases ++ [phase]) st = step (run phases st) phase.
Proof. unfold runPhases. by rewrite foldl_app. Qed.

(** A phase that is neither a mirror nor the wayleave: deadline assigned
    from the cursor, cursor advanced. *)
Lemma phaseStep_plain m c phase :
  MIRROR_PHASES phase = None -> phase <> wayleave ->
  step {| deadlines := m; previousDeadline := c |} phase
  = {| deadlines := <[phase := addBusinessDays c (allowedDaysPerPhase phase)]> m;
       previousDeadline := addBusinessDays c (allowedDaysPerPhase phase) |}.
Proof.
  intros Hm Hw. unfold phaseStep. rewrite Hm. cbn [mbind option_bind].
  rewrite (bool_decide_eq_false_2 _ Hw). cbn [andb].
  destruct phase; try discriminate Hm; reflexivity.
Qed.

(** The wayleave with no allowed days: nothing changes. *)
Lemma phaseStep_wayleave_skip st :
  allowedDaysPerPhase wayleave = 0 -> step st wayleave = st.
Proof. intros Hw. unfold phaseStep. cbn [MIRROR_PHASES mbind option_bind]. by rewrite Hw. Qed.

Lemma phaseStep_wayleave_kept m c :
  allowedDaysPerPhase wayleave <> 0 ->
  step {| deadlines := m; previousDeadline := c |} wayleave
  = {| deadlines := <[wayleave := addBusinessDays c (allowedDaysPerPhase wayleave)]> m;
       previousDeadline := addBusinessDays c (allowedDaysPerPhase wayleave) |}.
Proof.
  intros Hw. unfold phaseStep. cbn [MIRROR_PHASES mbind option_bind].
  apply Z.eqb_neq in Hw. rewrite Hw, andb_false_r. reflexivity.
Qed.

(** A mirror phase whose source has a deadline: that deadline is copied and
    the cursor stays. *)
Lemma phaseStep_mirror m c phase source d :
  MIRROR_PHASES phase = Some source -> m !! source = Some d ->
  step {| deadlines := m; previousDeadline := c |} phase
  = {| deadlines := <[phase := d]> m; previousDeadline := c |}.
Proof.
  intros Hm Hs. unfold phaseStep. rewrite Hm. cbn [mbind option_bind deadlines].
  rewrite Hs. reflexivity.
Qed.

(** A step only writes the entry of its own phase. *)
Lemma lookup_phaseStep_ne st phase p :
  phase <> p -> deadlines (step st phase) !! p = deadlines st !! p.
Proof.
  intros Hne. unfold phaseStep.
  destruct (MIRROR_PHASES phase ≫= _); cbn [deadlines]; [by rewrite lookup_insert_ne|].
  destruct (bool_decide (phase = wayleave) && _); cbn [deadlines]; [done|].
  by rewrite lookup_insert_ne.
Qed.

Lemma lookup_runPhases_notin phases st p :
  p ∉ phases -> deadlines (run phases st) !! p = deadlines st !! p.
Proof.
  revert st. induction phases as [|phase phases IH]; intros st Hp; [done|].
  apply not_elem_of_cons in Hp as [Hne Hp].
  rewrite runPhases_cons, IH by assumption. by apply lookup_phaseStep_ne.
Qed.

End Propagation.

(** One iteration of a propagation loop on an explicit state. *)
Ltac phase_step :=
  rewrite runPhases_cons;
  first
    [ rewrite phaseStep_plain by done
    | rewrite phaseStep_wayleave_skip by assumption
    | rewrite phaseStep_wayleave_kept by assumption
    | erewrite phaseStep_mirror;
      [ | reflexivity
        | first [ apply lookup_insert_eq
                | rewrite lookup_insert_ne by done; apply lookup_insert_eq ] ] ].

Section FullPass.

Variables (siteSurveyDate : Date) (allowedDaysPerPhase : PhaseName -> Z).

Local Abbreviation date := (chainDate siteSurveyDate allowedDaysPerPhase).

(** The state in which the loop of [calculatePhaseDeadlines] ends. *)
Lemma calculatePhaseDeadlinesOver_PHASE_ORDER :
  calculatePhaseDeadlinesOver PHASE_ORDER siteSurveyDate allowedDaysPerPhase
  = {| deadlines :=
         <[com := date rfa]> (<[rfa := date rfa]> (<[integration := date integration]>
         (<[ecc := date ecc]> (<[fqa := date build]> (<[build := date build]>
         (<[kickoff := date kickoff]> (<[announcement := date announcement]>
         (<[materials := date materials]>
         ((if allowedDaysPerPhase wayleave =? 0 then id
           else <[wayleave := date wayleave]>)
         (<[funding := date funding]> (<[planning := date planning]> ∅)))))))))));
       previousDeadline := date rfa |}.
Proof.
  unfold calculatePhaseDeadlinesOver, PHASE_ORDER, chainDate.
  destruct (Z.eqb_spec (allowedDaysPerPhase wayleave) 0) as [Hw | Hw];
    do 12 phase_step; reflexivity.
Qed.

Lemma calculatePhaseDeadlines_lookup phase :
  calculatePhaseDeadlines siteSurveyDate allowedDaysPerPhase !! phase
  = if bool_decide (phase = wayleave) && (allowedDaysPerPhase wayleave =? 0) then None
    else Some (date phase).
Proof.
  unfold calculatePhaseDeadlines. rewrite calculatePhaseDeadlinesOver_PHASE_ORDER.
  cbn [deadlines].
  destruct (allowedDaysPerPhase wayleave =? 0); destruct phase;
    cbn [bool_decide decide_rel andb id];
    repeat first [ rewrite lookup_insert_eq | rewrite lookup_insert_ne by done ];
    try rewrite lookup_empty; reflexivity.
Qed.

(** The dates of the chain are midnights and never decrease along
    [PHASE_ORDER]. *)
Lemma chainDate_midnight phase : startOfDay (date phase) = date phase.
Proof.
  unfold chainDate. destruct phase; try apply addBusinessDays_midnight;
    destruct (allowedDaysPerPhase wayleave =? 0); apply addBusinessDays_midnight.
Qed.

Lemma addBusinessDays_chainDate_ge phase n : date phase <= addBusinessDays (date phase) n.
Proof. rewrite <- (chainDate_midnight phase) at 1. apply addBusinessDays_ge. Qed.

Lemma chainDate_mono p q :
  (phaseCode p <= phaseCode q)%nat -> startOfDay siteSurveyDate <= date p <= date q.
Proof.
  intros Hpq.
  pose proof (addBusinessDays_ge siteSurveyDate (allowedDaysPerPhase planning)) as H1.
  pose proof (addBusinessDays_chainDate_ge planning (allowedDaysPerPhase funding)) as H2.
  pose proof (addBusinessDays_chainDate_ge funding (allowedDaysPerPhase wayleave)) as H3.
  pose proof (addBusinessDays_chainDate_ge wayleave (allowedDaysPerPhase materials)) as H4.
  pose proof (addBusinessDays_chainDate_ge materials (allowedDaysPerPhase announcement)) as H5.
  pose proof (addBusinessDays_chainDate_ge announcement (allowedDaysPerPhase kickoff)) as H6.
  pose proof (addBusinessDays_chainDate_ge kickoff (allowedDaysPerPhase build)) as H7.
  pose proof (addBusinessDays_chainDate_ge build (allowedDaysPerPhase ecc)) as H8.
  pose proof (addBusinessDays_chainDate_ge ecc (allowedDaysPerPhase integration)) as H9.
  pose proof (addBusinessDays_chainDate_ge integration (allowedDaysPerPhase rfa)) as H10.
  assert (Hw : date funding <= date wayleave).
  { unfold chainDate at 2. destruct (allowedDaysPerPhase wayleave =? 0); [|exact H3].
    apply Z.le_refl. }
  clear H3.
  assert (E1 : date planning = addBusinessDays siteSurveyDate (allowedDaysPerPhase planning))
    by (unfold chainDate; apply addBusinessDays_startOfDay).
  assert (E2 : date funding = addBusinessDays (date planning) (allowedDaysPerPhase funding))
    by reflexivity.
  assert (E4 : date materials = addBusinessDays (date wayleave) (allowedDaysPerPhase materials))
    by reflexivity.
  assert (E5 : date announcement
               = addBusinessDays (date materials) (allowedDaysPerPhase announcement))
    by reflexivity.
  assert (E6 : date kickoff = addBusinessDays (date announcement) (allowedDaysPerPhase kickoff))
    by reflexivity.
  assert (E7 : date build = addBusinessDays (date kickoff) (allowedDaysPerPhase build))
    by reflexivity.
  assert (E7' : date fqa = date build) by reflexivity.
  assert (E8 : date ecc = addBusinessDays (date build) (allowedDaysPerPhase ecc))
    by reflexivity.
  assert (E9 : date integration = addBusinessDays (date ecc) (allowedDaysPerPhase integration))
    by reflexivity.
  assert (E10 : date rfa = addBusinessDays (date integration) (allowedDaysPerPhase rfa))
    by reflexivity.
  assert (E10' : date com = date rfa) by reflexivity.
  rewrite <- E1 in H1. rewrite <- E2 in H2. rewrite <- E4 in H4. rewrite <- E5 in H5.
  rewrite <- E6 in H6. rewrite <- E7 in H7. rewrite <- E8 in H8. rewrite <- E9 in H9.
  rewrite <- E10 in H10.
  clear E1 E2 E4 E5 E6 E7 E8 E9 E10.
  destruct p, q; cbn [phaseCode] in Hpq; try lia.
Qed.

End FullPass.

Section Recalculation.

Variable allowedDaysPerPhase : PhaseName -> Z.

Lemma stateAfter_S siteSurveyDate (i : nat) phase :
  PHASE_ORDER !! i = Some phase ->
  stateAfter (S i) siteSurveyDate allowedDaysPerPhase
  = phaseStep allowedDaysPerPhase (stateAfter i siteSurveyDate allowedDaysPerPhase) phase.
Proof.
  intros Hi. unfold stateAfter, calculatePhaseDeadlinesOver.
  rewrite (take_S_r _ _ _ Hi). apply runPhases_snoc.
Qed.

Lemma calculatePhaseDeadlinesFromDeadline_loop changedPhase newDeadline currentDeadlines :
  calculatePhaseDeadlinesFromDeadline changedPhase newDeadline allowedDaysPerPhase
    currentDeadlines
  = deadlines
      (runPhases allowedDaysPerPhase (phasesAfter changedPhase)
         {| deadlines := deadlinesBeforeLoop changedPhase newDeadline currentDeadlines;
            previousDeadline := startOfDay newDeadline |}).
Proof. reflexivity. Qed.

Lemma phasesAfter_phaseCode changedPhase :
  phasesAfter changedPhase = drop (S (phaseCode changedPhase)) PHASE_ORDER.
Proof. by destruct changedPhase. Qed.

(** What the entries changed before the loop look like. *)
Lemma deadlinesBeforeLoop_cases changedPhase newDeadline currentDeadlines :
  let D := startOfDay newDeadline in
  deadlinesBeforeLoop changedPhase newDeadline currentDeadlines
  = match changedPhase with
    | fqa => <[build := D]> (<[fqa := D]> currentDeadlines)
    | build => <[fqa := D]> (<[build := D]> currentDeadlines)
    | rfa => <[com := D]> (<[rfa := D]> currentDeadlines)
    | com => <[rfa := D]> (<[com := D]> currentDeadlines)
    | _ => <[changedPhase := D]> currentDeadlines
    end.
Proof.
  intros D. unfold deadlinesBeforeLoop, copyEntry. fold D.
  destruct changedPhase;
    repeat first [ rewrite bool_decide_eq_true_2 by done
                 | rewrite bool_decide_eq_false_2 by done ];
    try reflexivity; by rewrite lookup_insert_eq.
Qed.

End Recalculation.

(** Lookups through explicit inserts at known phases. *)
Ltac lookup_inserts :=
  repeat first [ rewrite lookup_insert_eq | rewrite lookup_insert_ne by done ].

(** Run a propagation loop over an explicit list of phases. *)
Ltac run_phases :=
  repeat phase_step; rewrite ?runPhases_nil; cbn [deadlines previousDeadline].
(** Whenever a propagation loop over [PHASE_ORDER] reaches a mirror phase,
    the source of that phase comes right before it in the order. *)
Lemma mirror_follows_source (i : nat) phase source :
  PHASE_ORDER !! i = Some phase -> MIRROR_PHASES phase = Some source ->
  exists j, i = S j /\ PHASE_ORDER !! j = Some source /\
    MIRROR_PHASES source = None /\ source <> wayleave.
Proof.
  intros Hi Hm.
  do 12 (destruct i as [|i]; [injection Hi as <-; try discriminate Hm;
    injection Hm as <-; eexists; repeat split; done|]).
  discriminate Hi.
Qed.

(** ** Claims about the deadline propagation *)

(** C1: [calculatePhaseDeadlines] walks [PHASE_ORDER] from an empty map and
    a cursor at the start of day of the anchor date, and returns the map of
    the state after the twelfth iteration.  In the iteration for a phase:
    a mirror phase finds a deadline for its source, takes that deadline and
    leaves the cursor; the wayleave with [allowedDays = 0] gets no deadline,
    in that state or in the result, and leaves the cursor; every other phase
    gets [addBusinessDays cursor allowedDays], to which the cursor moves. *)
Theorem calculatePhaseDeadlines_iterations (siteSurveyDate : Date)
    (allowedDaysPerPhase : PhaseName -> Z) :
  let st := fun n => stateAfter n siteSurveyDate allowedDaysPerPhase in
  st 0%nat = {| deadlines := ∅; previousDeadline := startOfDay siteSurveyDate |} /\
  calculatePhaseDeadlines siteSurveyDate allowedDaysPerPhase = deadlines (st 12%nat) /\
  forall (i : nat) (phase : PhaseName), PHASE_ORDER !! i = Some phase ->
    match MIRROR_PHASES phase with
    | Some source =>
        exists d, deadlines (st i) !! source = Some d /\
          st (S i) = {| deadlines := <[phase := d]> (deadlines (st i));
                        previousDeadline := previousDeadline (st i) |}
    | None =>
        if bool_decide (phase = wayleave) && (allowedDaysPerPhase phase =? 0)
        then st (S i) = st i /\ deadlines (st i) !! phase = None /\
             calculatePhaseDeadlines siteSurveyDate allowedDaysPerPhase !! phase = None
        else
          let deadline := addBusinessDays (previousDeadline (st i)) (allowedDaysPerPhase phase) in
          st (S i) = {| deadlines := <[phase := deadline]> (deadlines (st i));
                        previousDeadline := deadline |}
    end.
Proof.
  intros st. split; [reflexivity|].
  split; [unfold st, stateAfter; change (take 12 PHASE_ORDER) with PHASE_ORDER; reflexivity|].
  intros i phase Hi. unfold st. rewrite (stateAfter_S _ _ _ _ Hi).
  destruct (MIRROR_PHASES phase) as [source|] eqn:Hm.
  - destruct (mirror_follows_source i phase source Hi Hm) as (j & -> & Hj & Hms & Hsw).
    rewrite (stateAfter_S _ _ _ _ Hj).
    destruct (stateAfter j siteSurveyDate allowedDaysPerPhase) as [m c].
    rewrite phaseStep_plain by assumption. cbn [deadlines previousDeadline].
    eexists. split; [apply lookup_insert_eq|].
    eapply phaseStep_mirror; [exact Hm | apply lookup_insert_eq].
  - destruct (bool_decide (phase = wayleave)) eqn:Hw; cbn [andb].
    + apply bool_decide_eq_true_1 in Hw as ->.
      destruct (Z.eqb_spec (allowedDaysPerPhase wayleave) 0) as [Hz | Hz].
      * split; [by apply phaseStep_wayleave_skip|]. split.
        -- do 3 (destruct i as [|i]; [try discriminate Hi|]); [reflexivity|].
           do 9 (destruct i as [|i]; [discriminate Hi|]). discriminate Hi.
        -- rewrite calculatePhaseDeadlines_lookup.
           rewrite bool_decide_eq_true_2 by done. apply Z.eqb_eq in Hz. by rewrite Hz.
      * destruct (stateAfter i siteSurveyDate allowedDaysPerPhase) as [m c].
        by apply phaseStep_wayleave_kept.
    + apply bool_decide_eq_false_1 in Hw.
      destruct (stateAfter i siteSurveyDate allowedDaysPerPhase) as [m c].
      by apply phaseStep_plain.
Qed.

Lemma calculatePhaseDeadlines_iterations_witness :
  stateAfter 3 (newDate 2024 0 8) (fun p => if bool_decide (p = wayleave) then 0 else 2)
  = stateAfter 2 (newDate 2024 0 8) (fun p => if bool_decide (p = wayleave) then 0 else 2) /\
  exists d,
    deadlines (stateAfter 7 (newDate 2024 0 8) DEFAULT_ALLOWED_DAYS) !! build = Some d /\
    deadlines (stateAfter 8 (newDate 2024 0 8) DEFAULT_ALLOWED_DAYS) !! fqa = Some d.
Proof.
  split.
  - pose proof (calculatePhaseDeadlines_iterations (newDate 2024 0 8)
                  (fun p => if bool_decide (p = wayleave) then 0 else 2)) as (_ & _ & H).
    apply (H 2%nat wayleave). reflexivity.
  - pose proof (calculatePhaseDeadlines_iterations (newDate 2024 0 8) DEFAULT_ALLOWED_DAYS)
      as (_ & _ & H).
    destruct (H 7%nat fqa) as (d & Hd & Hst); [reflexivity|].
    exists d. split; [exact Hd|]. rewrite Hst. apply lookup_insert_eq.
Defined.

(** The map returned by a targeted recalculation, one case for each changed
    phase: the mirrors end equal to their sources. *)
Lemma calculatePhaseDeadlinesFromDeadline_mirrors changedPhase newDeadline
    (allowedDaysPerPhase : PhaseName -> Z) (currentDeadlines : gmap PhaseName Date) :
  currentDeadlines !! fqa = currentDeadlines !! build ->
  currentDeadlines !! com = currentDeadlines !! rfa ->
  let r := calculatePhaseDeadlinesFromDeadline changedPhase newDeadline allowedDaysPerPhase
             currentDeadlines in
  r !! fqa = r !! build /\ r !! com = r !! rfa.
Proof.
  intros Hfqa Hcom r. unfold r.
  rewrite calculatePhaseDeadlinesFromDeadline_loop, phasesAfter_phaseCode,
    deadlinesBeforeLoop_cases.
  destruct (Z.eqb_spec (allowedDaysPerPhase wayleave) 0) as [Hw | Hw];
    destruct changedPhase; cbn [phaseCode drop PHASE_ORDER];
    run_phases; lookup_inserts; auto.
Qed.

(** C2: after a full recalculation, and after a targeted recalculation from
    current deadlines in which the mirrors equal their sources, the deadline
    of fqa is the deadline of build and the deadline of com is the deadline
    of rfa.  After a full recalculation all four are present. *)
Theorem mirror_invariant (allowedDaysPerPhase : PhaseName -> Z) :
  (forall siteSurveyDate,
     let r := calculatePhaseDeadlines siteSurveyDate allowedDaysPerPhase in
     r !! fqa = r !! build /\ r !! com = r !! rfa /\
     is_Some (r !! build) /\ is_Some (r !! rfa)) /\
  (forall changedPhase newDeadline (currentDeadlines : gmap PhaseName Date),
     currentDeadlines !! fqa = currentDeadlines !! build ->
     currentDeadlines !! com = currentDeadlines !! rfa ->
     let r := calculatePhaseDeadlinesFromDeadline changedPhase newDeadline
                allowedDaysPerPhase currentDeadlines in
     r !! fqa = r !! build /\ r !! com = r !! rfa).
Proof.
  split.
  - intros siteSurveyDate r. unfold r. rewrite !calculatePhaseDeadlines_lookup.
    rewrite !bool_decide_eq_false_2 by done. cbn [andb]. eauto.
  - intros. by apply calculatePhaseDeadlinesFromDeadline_mirrors.
Qed.

Lemma mirror_invariant_witness :
  let r := calculatePhaseDeadlinesFromDeadline ecc (newDate 2024 5 3) DEFAULT_ALLOWED_DAYS
             (calculatePhaseDeadlines (newDate 2024 0 8) DEFAULT_ALLOWED_DAYS) in
  r !! fqa = r !! build /\ r !! com = r !! rfa.
Proof.
  apply (proj2 (mirror_invariant DEFAULT_ALLOWED_DAYS) ecc (newDate 2024 5 3)
           (calculatePhaseDeadlines (newDate 2024 0 8) DEFAULT_ALLOWED_DAYS));
    vm_compute; reflexivity.
Defined.

(** C4: a targeted recalculation from build with new deadline [D] gives
    fqa, like build, the deadline [D]: the stored date is the start of day
    of [D], which is on the calendar day of [D] and is [D] itself whenever
    [D] is a calendar date (a local midnight).  It gives ecc
    [addBusinessDays D] of its allowed days, and leaves the entry of every
    phase before build as it is in the current deadlines. *)
Theorem override_build (allowedDaysPerPhase : PhaseName -> Z)
    (currentDeadlines : gmap PhaseName Date) (D : Date) :
  let r := calculatePhaseDeadlinesFromDeadline build D allowedDaysPerPhase currentDeadlines in
  r !! fqa = Some (startOfDay D) /\
  r !! build = Some (startOfDay D) /\
  isSameDay (startOfDay D) D = true /\
  (startOfDay D = D -> r !! fqa = Some D) /\
  r !! ecc = Some (addBusinessDays D (allowedDaysPerPhase ecc)) /\
  forall phase, (phaseCode phase < phaseCode build)%nat -> r !! phase = currentDeadlines !! phase.
Proof.
  intros r. unfold r.
  rewrite calculatePhaseDeadlinesFromDeadline_loop, phasesAfter_phaseCode,
    deadlinesBeforeLoop_cases.
  cbn [phaseCode drop PHASE_ORDER]. run_phases.
  rewrite addBusinessDays_startOfDay.
  split; [by lookup_inserts|]. split; [by lookup_inserts|].
  split; [rewrite isSameDay_Day, Day_startOfDay; apply Z.eqb_refl|].
  split; [intros Hmidnight; transitivity (Some (startOfDay D));
            [by lookup_inserts | f_equal; exact Hmidnight]|].
  split; [by lookup_inserts|].
  intros phase Hp. destruct phase; cbn [phaseCode] in Hp; try lia; by lookup_inserts.
Qed.

Lemma override_build_witness :
  calculatePhaseDeadlinesFromDeadline build (newDate 2024 5 3) DEFAULT_ALLOWED_DAYS ∅
    !! fqa = Some (newDate 2024 5 3) /\
  calculatePhaseDeadlinesFromDeadline build (newDate 2024 5 3) DEFAULT_ALLOWED_DAYS ∅
    !! planning = None.
Proof.
  destruct (override_build DEFAULT_ALLOWED_DAYS ∅ (newDate 2024 5 3))
    as (_ & _ & _ & Hfqa & _ & Hframe).
  split.
  - apply Hfqa. apply startOfDay_newDate.
  - rewrite (Hframe planning); [reflexivity | vm_compute; lia].
Defined.



(** C9: every deadline returned by [calculatePhaseDeadlines] is on or
    after the start of day of the anchor date, and of two phases that both
    have a deadline the later one in [PHASE_ORDER] has the later or equal
    deadline.  This holds for every duration table, with non-negative
    entries or not. *)
Theorem calculatePhaseDeadlines_monotone (siteSurveyDate : Date)
    (allowedDaysPerPhase : PhaseName -> Z) :
  (forall phase, 0 <= allowedDaysPerPhase phase) ->
  let r := calculatePhaseDeadlines siteSurveyDate allowedDaysPerPhase in
  (forall phase d, r !! phase = Some d -> startOfDay siteSurveyDate <= d) /\
  (forall p q dp dq,
     (phaseCode p < phaseCode q)%nat -> r !! p = Some dp -> r !! q = Some dq -> dp <= dq).
Proof.
  intros _ r. unfold r. split.
  - intros phase d. rewrite calculatePhaseDeadlines_lookup.
    destruct (_ && _); [discriminate|]. intros [= <-].
    by apply (chainDate_mono siteSurveyDate allowedDaysPerPhase phase phase).
  - intros p q dp dq Hpq. rewrite !calculatePhaseDeadlines_lookup.
    destruct (_ && _); [discriminate|]. intros [= <-].
    destruct (_ && _); [discriminate|]. intros [= <-].
    apply (chainDate_mono siteSurveyDate allowedDaysPerPhase p q). lia.
Qed.

Lemma calculatePhaseDeadlines_monotone_witness :
  calculatePhaseDeadlines (newDate 2024 0 8 + 1) DEFAULT_ALLOWED_DAYS !! planning
  = Some (newDate 2024 0 22) /\
  newDate 2024 0 8 <= newDate 2024 0 22.
Proof.
  assert (Hnonneg : forall phase, 0 <= DEFAULT_ALLOWED_DAYS phase)
    by (intros []; discriminate).
  destruct (calculatePhaseDeadlines_monotone (newDate 2024 0 8 + 1) DEFAULT_ALLOWED_DAYS Hnonneg)
    as [Hanchor _].
  assert (Hp : calculatePhaseDeadlines (newDate 2024 0 8 + 1) DEFAULT_ALLOWED_DAYS !! planning
               = Some (newDate 2024 0 22)) by (vm_compute; reflexivity).
  split; [exact Hp|]. apply (Hanchor planning _ Hp).
Defined.
(** ** Further properties of business-day arithmetic *)

Section CountingDays.

Lemma businessDaysIn_last cur len :
  businessDaysIn cur (S len)
  = businessDaysIn cur len
    + (if isBusinessDay (addDays cur (Z.of_nat (S len))) then 1 else 0).
Proof.
  replace (S len) with (len + 1)%nat at 1 by lia.
  rewrite businessDaysIn_app. cbn [businessDaysIn]. rewrite addDays_add.
  replace (Z.of_nat len + 1) with (Z.of_nat (S len)) by lia. lia.
Qed.

Lemma businessDaysIn_le cur (a b : nat) :
  (a <= b)%nat -> businessDaysIn cur a <= businessDaysIn cur b.
Proof.
  intros Hab. replace b with (a + (b - a))%nat by lia. rewrite businessDaysIn_app.
  pose proof (businessDaysIn_bounds (addDays cur (Z.of_nat a)) (b - a)). lia.
Qed.

(** Counting up to a business day strictly passes every shorter count. *)
Lemma businessDaysIn_lt cur (a b : nat) :
  (a < b)%nat -> isBusinessDay (addDays cur (Z.of_nat b)) = true ->
  businessDaysIn cur a < businessDaysIn cur b.
Proof.
  intros Hab Hb. destruct b as [|b]; [lia|].
  rewrite businessDaysIn_last, Hb.
  pose proof (businessDaysIn_le cur a b ltac:(lia)). lia.
Qed.

(** The day on which a given positive count is reached on a business day
    is unique. *)
Lemma businessDay_index_unique cur (k1 k2 : nat) :
  isBusinessDay (addDays cur (Z.of_nat k1)) = true ->
  isBusinessDay (addDays cur (Z.of_nat k2)) = true ->
  businessDaysIn cur k1 = businessDaysIn cur k2 -> k1 = k2.
Proof.
  intros H1 H2 Hc.
  destruct (Nat.lt_trichotomy k1 k2) as [Hlt | [Heq | Hgt]]; [|exact Heq|].
  - pose proof (businessDaysIn_lt cur k1 k2 Hlt H2). lia.
  - pose proof (businessDaysIn_lt cur k2 k1 Hgt H1). lia.
Qed.

(** [addBusinessDays] is the only date that closes the requested count on
    a business day. *)
Lemma addBusinessDays_unique startDate businessDays (k : nat) :
  0 < businessDays ->
  businessDaysIn (startOfDay startDate) k = businessDays ->
  isBusinessDay (addDays (startOfDay startDate) (Z.of_nat k)) = true ->
  addBusinessDays startDate businessDays = addDays (startOfDay startDate) (Z.of_nat k).
Proof.
  intros Hpos Hc Hb.
  destruct (addBusinessDays_spec startDate businessDays) as (k' & _ & Hr & Hc' & Hk').
  destruct (Hk' Hpos) as [_ Hb']. rewrite Hr in Hb' |- *.
  f_equal. f_equal. apply (businessDay_index_unique (startOfDay startDate)); [assumption.. | lia].
Qed.

(** The signed count of [getBusinessDaysBetween] is a difference of counts
    from any common earlier day. *)
Lemma getBusinessDaysBetween_from base a b :
  base <= Day a -> base <= Day b ->
  getBusinessDaysBetween a b
  = businessDaysIn (base * msPerDay) (Z.to_nat (Day b - base))
    - businessDaysIn (base * msPerDay) (Z.to_nat (Day a - base)).
Proof.
  intros Ha Hb. rewrite (proj2 (getBusinessDaysBetween_spec _ _)).
  assert (Hs : forall x, base <= Day x ->
            startOfDay x = addDays (base * msPerDay) (Z.of_nat (Z.to_nat (Day x - base)))).
  { intros x Hx. unfold startOfDay, addDays. rewrite Z2Nat.id by lia. lia. }
  destruct (Z.eqb_spec (Day a) (Day b)) as [E | E]; [rewrite E; lia|].
  destruct (Z.ltb_spec (Day b) (Day a)).
  - replace (Z.to_nat (Day a - base))
      with (Z.to_nat (Day b - base) + Z.to_nat (Day a - Day b))%nat by lia.
    rewrite businessDaysIn_app, <- Hs by assumption. lia.
  - replace (Z.to_nat (Day b - base))
      with (Z.to_nat (Day a - base) + Z.to_nat (Day b - Day a))%nat by lia.
    rewrite businessDaysIn_app, <- Hs by assumption. lia.
Qed.

End CountingDays.

(** X1: [addBusinessDays] always returns a local midnight on or after the
    start of day of its start date, and for a count of zero or less it
    returns that start of day itself. *)
Theorem addBusinessDays_midnight_not_before (startDate : Date) (businessDays : Z) :
  startOfDay (addBusinessDays startDate businessDays) = addBusinessDays startDate businessDays /\
  startOfDay startDate <= addBusinessDays startDate businessDays /\
  (businessDays <= 0 -> addBusinessDays startDate businessDays = startOfDay startDate).
Proof.
  split; [apply addBusinessDays_midnight|]. split; [apply addBusinessDays_ge|].
  apply addBusinessDays_nonpos.
Qed.

Lemma addBusinessDays_midnight_not_before_witness :
  addBusinessDays (newDate 2024 0 6 + 5000) (-3) = newDate 2024 0 6.
Proof.
  destruct (addBusinessDays_midnight_not_before (newDate 2024 0 6 + 5000) (-3)) as (_ & _ & H).
  rewrite H; [reflexivity | discriminate].
Defined.

Lemma getBusinessDaysBetween_addBusinessDays_eq (d : Date) (n : Z) :
  0 <= n -> getBusinessDaysBetween d (addBusinessDays d n) = n.
Proof.
  intros Hn. destruct (Z.eq_dec n 0) as [-> | Hne].
  - rewrite addBusinessDays_nonpos by lia. rewrite getBusinessDaysBetween_startOfDay_r.
    apply getBusinessDaysBetween_sameDay. rewrite isSameDay_Day. apply Z.eqb_refl.
  - destruct (addBusinessDays_spec d n) as (k & _ & Hr & Hc & Hk).
    destruct (Hk ltac:(lia)) as [Hk1 _].
    rewrite (proj2 (getBusinessDaysBetween_spec _ _)), Hr, Day_addDays, Day_startOfDay.
    replace (Day d =? Day d + Z.of_nat k) with false by (symmetry; apply Z.eqb_neq; lia).
    replace (Day d + Z.of_nat k <? Day d) with false by (symmetry; apply Z.ltb_ge; lia).
    replace (Z.to_nat (Day d + Z.of_nat k - Day d)) with k by lia. lia.
Qed.

(** X2: counting back what was added: for [n >= 0] there are exactly [n]
    business days from a date to [addBusinessDays] of it by [n], and [-n]
    in the other direction. *)
Theorem getBusinessDaysBetween_addBusinessDays (d : Date) (n : Z) :
  0 <= n ->
  getBusinessDaysBetween d (addBusinessDays d n) = n /\
  getBusinessDaysBetween (addBusinessDays d n) d = - n.
Proof.
  intros Hn. split; [by apply getBusinessDaysBetween_addBusinessDays_eq|].
  rewrite getBusinessDaysBetween_opp. f_equal.
  by apply getBusinessDaysBetween_addBusinessDays_eq.
Qed.

Lemma getBusinessDaysBetween_addBusinessDays_witness :
  getBusinessDaysBetween (newDate 2024 2 27) (addBusinessDays (newDate 2024 2 27) 3) = 3.
Proof.
  apply (getBusinessDaysBetween_addBusinessDays (newDate 2024 2 27) 3). discriminate.
Defined.

Lemma addBusinessDays_plus (d : Date) (m n : Z) :
  0 <= m -> 0 <= n ->
  addBusinessDays (addBusinessDays d m) n = addBusinessDays d (m + n).
Proof.
  intros Hm Hn. destruct (Z.eq_dec n 0) as [-> | Hne].
  - rewrite addBusinessDays_nonpos by lia. rewrite Z.add_0_r. apply addBusinessDays_midnight.
  - destruct (addBusinessDays_spec d m) as (k1 & _ & Hr1 & Hc1 & _).
    destruct (addBusinessDays_spec (addBusinessDays d m) n) as (k2 & _ & Hr2 & Hc2 & Hk2).
    destruct (Hk2 ltac:(lia)) as [_ Hb2].
    rewrite addBusinessDays_midnight in Hr2, Hc2.
    rewrite Hr2 in Hb2 |- *. rewrite Hr1 in Hc2, Hb2 |- *.
    rewrite addDays_add in Hb2 |- *.
    replace (Z.of_nat k1 + Z.of_nat k2) with (Z.of_nat (k1 + k2)) in Hb2 |- * by lia.
    symmetry. apply addBusinessDays_unique; [lia | | exact Hb2].
    rewrite businessDaysIn_app, Hc1, Hc2. lia.
Qed.

(** X3: adding business days in two steps is adding their sum, for counts
    that are not negative, in whichever order the steps are taken. *)
Theorem addBusinessDays_add (d : Date) (m n : Z) :
  0 <= m -> 0 <= n ->
  addBusinessDays (addBusinessDays d m) n = addBusinessDays d (m + n) /\
  addBusinessDays (addBusinessDays d n) m = addBusinessDays d (m + n).
Proof.
  intros Hm Hn. split; [by apply addBusinessDays_plus|].
  rewrite Z.add_comm. by apply addBusinessDays_plus.
Qed.

Lemma addBusinessDays_add_witness :
  addBusinessDays (addBusinessDays (newDate 2024 2 27) 2) 3
  = addBusinessDays (newDate 2024 2 27) (2 + 3).
Proof. apply (addBusinessDays_add (newDate 2024 2 27) 2 3); discriminate. Defined.

(** X4: a larger count gives a strictly later date: for [0 <= m < n],
    [addBusinessDays d m] is before [addBusinessDays d n]. *)
Theorem addBusinessDays_strictly_increasing (d : Date) (m n : Z) :
  0 <= m -> m < n -> addBusinessDays d m < addBusinessDays d n.
Proof.
  intros Hm Hmn. replace n with (m + (n - m)) by lia.
  rewrite <- addBusinessDays_plus by lia.
  destruct (addBusinessDays_spec (addBusinessDays d m) (n - m)) as (k & _ & Hr & _ & Hk).
  destruct (Hk ltac:(lia)) as [Hk1 _]. rewrite Hr, addBusinessDays_midnight.
  unfold addDays, msPerDay. lia.
Qed.

Lemma addBusinessDays_strictly_increasing_witness :
  addBusinessDays (newDate 2024 2 27) 1 < addBusinessDays (newDate 2024 2 27) 2.
Proof.
  apply (addBusinessDays_strictly_increasing (newDate 2024 2 27) 1 2); [discriminate | reflexivity].
Defined.

(** X5: [addBusinessDays d n] is the first date that far: any date on a
    day from the day of [d] up to the day before the result has fewer than
    [n] business days between [d] and it. *)
Theorem addBusinessDays_first (d t : Date) (n : Z) :
  0 < n -> Day d <= Day t -> Day t < Day (addBusinessDays d n) ->
  getBusinessDaysBetween d t < n.
Proof.
  intros Hn Hdt Ht.
  destruct (addBusinessDays_spec d n) as (k & _ & Hr & Hc & Hk).
  destruct (Hk Hn) as [Hk1 Hb]. rewrite Hr in Hb, Ht.
  rewrite Day_addDays, Day_startOfDay in Ht.
  rewrite (getBusinessDaysBetween_from (Day d)) by lia.
  replace (Z.to_nat (Day d - Day d)) with 0%nat by lia. cbn [businessDaysIn].
  change (Day d * msPerDay) with (startOfDay d).
  pose proof (businessDaysIn_lt (startOfDay d) (Z.to_nat (Day t - Day d)) k ltac:(lia) Hb).
  lia.
Qed.

Lemma addBusinessDays_first_witness :
  getBusinessDaysBetween (newDate 2024 2 28) (newDate 2024 2 31) < 1.
Proof.
  apply (addBusinessDays_first (newDate 2024 2 28) (newDate 2024 2 31) 1);
    vm_compute; congruence.
Defined.

(** X6: signed business-day counts add up along any three dates, in
    whatever order they lie. *)
Theorem getBusinessDaysBetween_additive (a b c : Date) :
  getBusinessDaysBetween a c = getBusinessDaysBetween a b + getBusinessDaysBetween b c.
Proof.
  set (base := Z.min (Day a) (Z.min (Day b) (Day c))).
  rewrite (getBusinessDaysBetween_from base a c), (getBusinessDaysBetween_from base a b),
    (getBusinessDaysBetween_from base b c) by (unfold base; lia).
  lia.
Qed.

Lemma getBusinessDaysBetween_range (a b : Date) :
  Day a <= Day b -> 0 <= getBusinessDaysBetween a b <= Day b - Day a.
Proof.
  intros Hab. rewrite (getBusinessDaysBetween_from (Day a)) by lia.
  replace (Z.to_nat (Day a - Day a)) with 0%nat by lia. cbn [businessDaysIn].
  pose proof (businessDaysIn_bounds (Day a * msPerDay) (Z.to_nat (Day b - Day a))). lia.
Qed.

(** X7: from a date to a date on the same or a later day the count is not
    negative and at most the number of calendar days between them; in the
    other direction it is not positive and at least minus that number. *)
Theorem getBusinessDaysBetween_bounds (a b : Date) :
  Day a <= Day b ->
  0 <= getBusinessDaysBetween a b <= Day b - Day a /\
  Day a - Day b <= getBusinessDaysBetween b a <= 0.
Proof.
  intros Hab. pose proof (getBusinessDaysBetween_range a b Hab) as H.
  split; [exact H|]. rewrite (getBusinessDaysBetween_opp b a). lia.
Qed.

Lemma getBusinessDaysBetween_bounds_witness :
  0 <= getBusinessDaysBetween (newDate 2024 2 28) (newDate 2024 3 2) <= 5.
Proof.
  apply (getBusinessDaysBetween_bounds (newDate 2024 2 28) (newDate 2024 3 2)).
  vm_compute. congruence.
Defined.
Lemma getBusinessDaysUntil_as_between now deadline :
  getBusinessDaysUntil now deadline = getBusinessDaysBetween now deadline.
Proof.
  unfold getBusinessDaysUntil.
  destruct (isSameDay (startOfDay now) (startOfDay deadline)) eqn:Hs.
  - rewrite isSameDay_Day, !Day_startOfDay in Hs.
    rewrite (proj2 (getBusinessDaysBetween_spec _ _)), Hs. reflexivity.
  - destruct (isBefore (startOfDay deadline) (startOfDay now)).
    + rewrite <- getBusinessDaysBetween_opp.
      by rewrite getBusinessDaysBetween_startOfDay_l, getBusinessDaysBetween_startOfDay_r.
    + by rewrite getBusinessDaysBetween_startOfDay_l, getBusinessDaysBetween_startOfDay_r.
Qed.

Lemma getBusinessDaysUntil_addBusinessDays_eq (now : Date) (n : Z) :
  0 <= n -> getBusinessDaysUntil now (addBusinessDays now n) = n.
Proof.
  intros Hn. rewrite getBusinessDaysUntil_as_between.
  by apply getBusinessDaysBetween_addBusinessDays_eq.
Qed.

(** X8: a deadline set [n >= 0] business days after the current date is
    reported as [n] business days away, whatever the time of day; seen from
    that deadline, the current date is [n] business days overdue. *)
Theorem getBusinessDaysUntil_addBusinessDays (now : Date) (n : Z) :
  0 <= n ->
  getBusinessDaysUntil now (addBusinessDays now n) = n /\
  getBusinessDaysUntil (addBusinessDays now n) now = - n.
Proof.
  intros Hn. split; [by apply getBusinessDaysUntil_addBusinessDays_eq|].
  rewrite getBusinessDaysUntil_as_between, getBusinessDaysBetween_opp. f_equal.
  by apply getBusinessDaysBetween_addBusinessDays_eq.
Qed.

Lemma getBusinessDaysUntil_addBusinessDays_witness :
  getBusinessDaysUntil (newDate 2024 2 27 + 7200000)
    (addBusinessDays (newDate 2024 2 27 + 7200000) 4) = 4.
Proof.
  apply (getBusinessDaysUntil_addBusinessDays (newDate 2024 2 27 + 7200000) 4). discriminate.
Defined.

(** X9: the sign of [getBusinessDaysUntil] follows the calendar: not
    negative for a deadline on a later day, not positive for a deadline on
    an earlier day, and in both cases at most the number of calendar days
    apart.  A passed deadline need not give a negative number: it gives 0
    when no business day has gone by since. *)
Theorem getBusinessDaysUntil_sign (now deadline : Date) :
  (Day now <= Day deadline ->
     0 <= getBusinessDaysUntil now deadline <= Day deadline - Day now) /\
  (Day deadline <= Day now ->
     Day deadline - Day now <= getBusinessDaysUntil now deadline <= 0) /\
  (Day deadline < Day now ->
     (forall t, Day deadline < Day t <= Day now -> isBusinessDay t = false) ->
     getBusinessDaysUntil now deadline = 0).
Proof.
  rewrite getBusinessDaysUntil_as_between. split; [|split].
  - apply getBusinessDaysBetween_range.
  - intros H. rewrite getBusinessDaysBetween_opp.
    pose proof (getBusinessDaysBetween_range deadline now H). lia.
  - intros Hlt Hnone. rewrite (proj2 (getBusinessDaysBetween_spec _ _)).
    replace (Day now =? Day deadline) with false by (symmetry; apply Z.eqb_neq; lia).
    replace (Day deadline <? Day now) with true by (symmetry; apply Z.ltb_lt; lia).
    assert (Hz : forall len cur, Day cur = Day deadline ->
              (Z.of_nat len <= Day now - Day deadline) -> businessDaysIn cur len = 0).
    { intros len. induction len as [|len IH]; intros cur Hc Hl.
      - reflexivity.
      - rewrite businessDaysIn_last, IH by lia.
        rewrite Hnone; [reflexivity|]. rewrite Day_addDays. lia. }
    rewrite Hz; [reflexivity | apply Day_startOfDay | lia].
Qed.

Lemma getBusinessDaysUntil_sign_witness :
  getBusinessDaysUntil (newDate 2024 0 7) (newDate 2024 0 5) = 0.
Proof.
  destruct (getBusinessDaysUntil_sign (newDate 2024 0 7) (newDate 2024 0 5)) as (_ & _ & H).
  apply H; [reflexivity|].
  intros t Ht. rewrite <- isBusinessDay_startOfDay. unfold startOfDay.
  assert (Hd : Day t = 19728 \/ Day t = 19729).
  { change (Day (newDate 2024 0 5)) with 19727 in Ht.
    change (Day (newDate 2024 0 7)) with 19729 in Ht. lia. }
  destruct Hd as [-> | ->]; vm_compute; reflexivity.
Defined.
(** ** Further properties of the holiday calendar *)

Section CalendarFacts.

(** A fixed holiday is entered on a day of its own year. *)
Lemma Day_observedDate_in_year year holiday :
  holiday ∈ fixedHolidays ->
  DayFromYear (fullYear year) <= Day (observedDate year holiday)
  < DayFromYear (fullYear year + 1).
Proof.
  intros Hin. rewrite Day_observedDate, DayFromYear_step.
  set (s := if getDay _ =? 0 then 1 else 0).
  assert (Hs : 0 <= s <= 1) by (unfold s; destruct (getDay _ =? 0); lia).
  clearbody s. unfold fixedHolidays in Hin.
  repeat (apply elem_of_cons in Hin as [-> | Hin]);
    try (by apply elem_of_nil in Hin);
    cbn [month day]; rewrite Day_newDate_month by lia;
    unfold monthStart; destruct (InLeapYear (fullYear year)); lia.
Qed.

Lemma getYear_in_year t y :
  DayFromYear y <= Day t < DayFromYear (y + 1) -> getYear t = y.
Proof. apply YearFromDay_unique. Qed.

Lemma getYear_getSAPublicHolidays year h :
  h ∈ getSAPublicHolidays year -> getYear h = fullYear year.
Proof.
  intros Hin. apply getYear_in_year.
  apply elem_of_getSAPublicHolidays in Hin as [(holiday & -> & Hin) | [-> | ->]].
  - by apply Day_observedDate_in_year.
  - pose proof (Day_getEasterSunday_range year).
    rewrite Day_startOfDay, Day_getGoodFriday, DayFromYear_step.
    destruct (InLeapYear (fullYear year)); lia.
  - pose proof (Day_getEasterSunday_range year).
    rewrite Day_startOfDay, Day_getFamilyDay, DayFromYear_step.
    destruct (InLeapYear (fullYear year)); lia.
Qed.

Lemma fullYear_id year : ~ (0 <= year <= 99) -> fullYear year = year.
Proof.
  intros Hy. unfold fullYear.
  destruct (0 <=? year) eqn:E1, (year <=? 99) eqn:E2; cbn [andb]; try reflexivity. lia.
Qed.

Lemma newDate_fullYear year m d : newDate (fullYear year) m d = newDate year m d.
Proof. unfold newDate. by rewrite fullYear_idem. Qed.

Lemma observedDate_fullYear year holiday :
  observedDate (fullYear year) holiday = observedDate year holiday.
Proof. unfold observedDate. by rewrite newDate_fullYear. Qed.

(** For a year from 0 on the sum read by [getEasterSunday] stays between
    the values of 22 March and 25 April. *)
Lemma easterSum_range year : 0 <= year -> 114 <= easterSum year <= 148.
Proof.
  intros Hy. unfold easterSum.
  set (a := Z.rem year 19). set (b := year / 100). set (c := Z.rem year 100).
  set (d := b / 4). set (e := Z.rem b 4). set (f := (b + 8) / 25).
  set (g := (b - f + 1) / 3). set (h := Z.rem (19 * a + b - d - g + 15) 30).
  set (i := c / 4). set (k := Z.rem c 4).
  set (l := Z.rem (32 + 2 * e + 2 * i - h - k) 7).
  set (m := (a + 11 * h + 22 * l) / 451).
  assert (0 <= a <= 18) by (unfold a; divlia).
  assert (0 <= b) by (unfold b; divlia).
  assert (0 <= c <= 99) by (unfold c; divlia).
  assert (0 <= e <= 3) by (unfold e; divlia).
  assert (0 <= i <= 24) by (unfold i; divlia).
  assert (0 <= k <= 3) by (unfold k; divlia).
  assert (0 <= 19 * a + b - d - g + 15) by (unfold g, f, d; divlia).
  assert (0 <= h < 30) by (apply Z.rem_bound_pos; lia).
  assert (0 <= l < 7) by (apply Z.rem_bound_pos; lia).
  assert (Hm : 451 * m <= a + 11 * h + 22 * l < 451 * m + 451).
  { unfold m. generalize (a + 11 * h + 22 * l). intros z. divlia. }
  clearbody a b c d e f g h i k l m. lia.
Qed.

End CalendarFacts.

(** X10: the list of a year has twelve entries, every entry is a local
    midnight of that year (the year as the [Date] constructor reads it),
    and so a list only ever answers for dates of its own year: if the list
    of a year that is not in 0..99 holds the day of a date, that date is a
    public holiday. *)
Theorem getSAPublicHolidays_in_year (year : Z) :
  length (getSAPublicHolidays year) = 12%nat /\
  (forall h, h ∈ getSAPublicHolidays year ->
     startOfDay h = h /\ getYear h = fullYear year) /\
  (forall d, ~ (0 <= year <= 99) ->
     holidayOn (getSAPublicHolidays year) d = true -> isPublicHoliday d = true).
Proof.
  split; [apply length_getSAPublicHolidays|]. split.
  - intros h Hin. split; [|by apply getYear_getSAPublicHolidays].
    apply elem_of_getSAPublicHolidays in Hin as [(holiday & -> & Hin) | [-> | ->]];
      apply startOfDay_idem.
  - intros d Hy Hon. rewrite isPublicHoliday_holidayOn.
    apply holidayOn_true in Hon as (h & Hin & Hd).
    assert (Hyear : getYear d = year).
    { unfold getYear. rewrite <- Hd. fold (getYear h).
      rewrite (getYear_getSAPublicHolidays year h Hin). by apply fullYear_id. }
    rewrite Hyear. apply holidayOn_true. by exists h.
Qed.

Lemma getSAPublicHolidays_in_year_witness :
  isPublicHoliday (newDate 2023 0 2 + 1000) = true.
Proof.
  destruct (getSAPublicHolidays_in_year 2023) as (_ & _ & H).
  apply H; [lia | vm_compute; reflexivity].
Defined.

(** X11: for a year from 100 on, [getEasterSunday] returns a Sunday between
    22 March and 25 April of that year. *)
Theorem getEasterSunday_sunday_in_spring (year : Z) :
  100 <= year ->
  getDay (getEasterSunday year) = 0 /\
  getYear (getEasterSunday year) = year /\
  Day (newDate year 2 22) <= Day (getEasterSunday year) <= Day (newDate year 3 25).
Proof.
  intros Hy. split; [by apply getDay_getEasterSunday|].
  pose proof (easterSum_range year ltac:(lia)) as Hs.
  pose proof (Day_getEasterSunday year Hy) as HE. rewrite <- DayFromYear_leap in HE.
  assert (Hfy : fullYear year = year) by (apply fullYear_id; lia).
  split.
  - apply getYear_in_year. rewrite HE, DayFromYear_step.
    destruct (InLeapYear year); lia.
  - rewrite !Day_newDate_month, Hfy, HE by lia. unfold monthStart.
    destruct (InLeapYear year); lia.
Qed.

Lemma getEasterSunday_sunday_in_spring_witness :
  getDay (getEasterSunday 2038) = 0 /\ getEasterSunday 2038 = newDate 2038 3 25.
Proof.
  destruct (getEasterSunday_sunday_in_spring 2038) as (H & _); [discriminate|].
  split; [exact H | reflexivity].
Defined.

(** X12: in every year, the date of each fixed holiday is not a business
    day, and when that date is a Sunday the Monday after it is not a
    business day either. *)
Theorem fixed_holiday_not_business_day (year : Z) (holiday : FixedHoliday) :
  holiday ∈ fixedHolidays ->
  let date := newDate year (month holiday) (day holiday) in
  isBusinessDay date = false /\
  (getDay date = 0 -> isBusinessDay (addDays date 1) = false).
Proof.
  intros Hin date.
  assert (Hobs : isPublicHoliday (observedDate year holiday) = true).
  { rewrite isPublicHoliday_holidayOn.
    rewrite (getYear_getSAPublicHolidays year) by
      (apply elem_of_getSAPublicHolidays; left; by exists holiday).
    apply holidayOn_true. exists (observedDate (fullYear year) holiday).
    split; [|by rewrite observedDate_fullYear].
    apply elem_of_getSAPublicHolidays. left. by exists holiday. }
  assert (Hday : forall t, Day t = Day (observedDate year holiday) -> isBusinessDay t = false).
  { intros t Ht. rewrite <- (isBusinessDay_startOfDay t). unfold startOfDay. rewrite Ht.
    fold (startOfDay (observedDate year holiday)).
    rewrite isBusinessDay_startOfDay. unfold isBusinessDay. rewrite Hobs.
    apply andb_false_r. }
  destruct (Z.eq_dec (getDay date) 0) as [Hsun | Hsun].
  - split.
    + unfold isBusinessDay, isWeekend. rewrite Hsun. reflexivity.
    + intros _. apply Hday. rewrite Day_observedDate. fold date.
      rewrite Hsun, Day_addDays. reflexivity.
  - split; [|done]. apply Hday. rewrite Day_observedDate. fold date.
    apply Z.eqb_neq in Hsun. rewrite Hsun. lia.
Qed.

Lemma fixed_holiday_not_business_day_witness :
  isBusinessDay (newDate 2023 0 1) = false /\ isBusinessDay (addDays (newDate 2023 0 1) 1) = false.
Proof.
  destruct (fixed_holiday_not_business_day 2023
              {| month := 0; day := 1; name := "New Year's Day" |}) as [H1 H2]; [left|].
  split; [exact H1 | apply H2; reflexivity].
Defined.
(** No fixed holiday is entered between 23 March and 26 April. *)
Lemma Day_observedDate_not_easter_monday year holiday :
  holiday ∈ fixedHolidays ->
  let base := DayFromYear (fullYear year) + (if InLeapYear (fullYear year) then 1 else 0) in
  Day (observedDate year holiday) <= base + 80 \/ base + 116 <= Day (observedDate year holiday).
Proof.
  intros Hin base. unfold base. rewrite Day_observedDate.
  set (s := if getDay _ =? 0 then 1 else 0).
  assert (Hs : 0 <= s <= 1) by (unfold s; destruct (getDay _ =? 0); lia).
  clearbody s. unfold fixedHolidays in Hin.
  repeat (apply elem_of_cons in Hin as [-> | Hin]);
    try (by apply elem_of_nil in Hin);
    cbn [month day]; rewrite Day_newDate_month by lia;
    unfold monthStart; destruct (InLeapYear (fullYear year)); lia.
Qed.

(** X13: for a year from 100 on, Good Friday and Family Day (the Saturday
    before Easter) are not business days, while the Monday after Easter
    Sunday is a business day: the calendar has no Easter Monday holiday. *)
Theorem easter_weekend_business_days (year : Z) :
  100 <= year ->
  isBusinessDay (getGoodFriday year) = false /\
  isBusinessDay (getFamilyDay year) = false /\
  isBusinessDay (addDays (getEasterSunday year) 1) = true.
Proof.
  intros Hy.
  assert (Hfy : fullYear year = year) by (apply fullYear_id; lia).
  pose proof (easterSum_range year ltac:(lia)) as Hs.
  pose proof (Day_getEasterSunday year Hy) as HE. rewrite <- DayFromYear_leap in HE.
  assert (Hlist : forall t, DayFromYear year <= Day t < DayFromYear (year + 1) ->
            isPublicHoliday t = holidayOn (getSAPublicHolidays year) t).
  { intros t Ht. rewrite isPublicHoliday_holidayOn. by rewrite (getYear_in_year t year). }
  split; [|split].
  - unfold isBusinessDay. rewrite Hlist.
    + replace (holidayOn _ _) with true; [apply andb_false_r|]. symmetry.
      apply holidayOn_true. exists (startOfDay (getGoodFriday year)).
      split; [|apply Day_startOfDay]. apply elem_of_getSAPublicHolidays. auto.
    + rewrite Day_getGoodFriday, HE, DayFromYear_step. destruct (InLeapYear year); lia.
  - unfold isBusinessDay, isWeekend. by rewrite getDay_getFamilyDay.
  - unfold isBusinessDay, isWeekend.
    rewrite getDay_addDays, getDay_getEasterSunday by assumption.
    change ((0 + 1) mod 7 =? 0) with false. change ((0 + 1) mod 7 =? 6) with false.
    cbn [orb negb andb]. rewrite Hlist.
    + rewrite holidayOn_false; [reflexivity|]. intros h Hin.
      rewrite Day_addDays.
      apply elem_of_getSAPublicHolidays in Hin as [(holiday & -> & Hin) | [-> | ->]].
      * pose proof (Day_observedDate_not_easter_monday year holiday Hin) as Hh.
        cbv zeta in Hh. rewrite Hfy in Hh. lia.
      * rewrite Day_startOfDay, Day_getGoodFriday. lia.
      * rewrite Day_startOfDay, Day_getFamilyDay. lia.
    + rewrite Day_addDays, HE, DayFromYear_step. destruct (InLeapYear year); lia.
Qed.

Lemma easter_weekend_business_days_witness :
  isBusinessDay (newDate 2024 2 29) = false /\
  isBusinessDay (newDate 2024 3 1) = true.
Proof.
  destruct (easter_weekend_business_days 2024) as (Hgf & _ & Hem); [discriminate|].
  split; [exact Hgf | exact Hem].
Defined.
(** ** Further properties of the deadline propagation *)

Section FullPassFacts.

Variables (siteSurveyDate : Date) (allowedDaysPerPhase : PhaseName -> Z).

Lemma chainDate_startOfDay phase :
  chainDate (startOfDay siteSurveyDate) allowedDaysPerPhase phase
  = chainDate siteSurveyDate allowedDaysPerPhase phase.
Proof. unfold chainDate. by rewrite startOfDay_idem. Qed.

Lemma chainDate_ext (allowed' : PhaseName -> Z) phase :
  (forall p, p <> fqa -> p <> com -> allowed' p = allowedDaysPerPhase p) ->
  chainDate siteSurveyDate allowed' phase = chainDate siteSurveyDate allowedDaysPerPhase phase.
Proof.
  intros H. unfold chainDate. by rewrite !H by done.
Qed.

End FullPassFacts.

(** X14: the full pass gives a deadline to every phase except a wayleave
    with no allowed days, and every deadline it gives is a local midnight. *)
Theorem calculatePhaseDeadlines_domain (siteSurveyDate : Date)
    (allowedDaysPerPhase : PhaseName -> Z) (phase : PhaseName) :
  let r := calculatePhaseDeadlines siteSurveyDate allowedDaysPerPhase in
  (r !! phase = None <-> phase = wayleave /\ allowedDaysPerPhase wayleave = 0) /\
  (forall d, r !! phase = Some d -> startOfDay d = d).
Proof.
  intros r. unfold r. rewrite calculatePhaseDeadlines_lookup. split.
  - destruct (bool_decide (phase = wayleave)) eqn:Hp; cbn [andb].
    + apply bool_decide_eq_true_1 in Hp.
      destruct (Z.eqb_spec (allowedDaysPerPhase wayleave) 0); split; try done; intros []; done.
    + apply bool_decide_eq_false_1 in Hp. split; [done | intros []; done].
  - intros d. destruct (_ && _); [done|]. intros [= <-]. apply chainDate_midnight.
Qed.

(** X15: the full pass reads only the calendar day of the anchor date and
    never the allowed days of the mirror phases fqa and com. *)
Theorem calculatePhaseDeadlines_ignores (siteSurveyDate : Date)
    (allowedDaysPerPhase allowed' : PhaseName -> Z) :
  (forall p, p <> fqa -> p <> com -> allowed' p = allowedDaysPerPhase p) ->
  calculatePhaseDeadlines (startOfDay siteSurveyDate) allowed'
  = calculatePhaseDeadlines siteSurveyDate allowedDaysPerPhase.
Proof.
  intros H. apply map_eq. intros phase. rewrite !calculatePhaseDeadlines_lookup.
  rewrite (H wayleave) by done.
  by rewrite chainDate_startOfDay, (chainDate_ext _ allowedDaysPerPhase allowed').
Qed.

Lemma calculatePhaseDeadlines_ignores_witness :
  calculatePhaseDeadlines (startOfDay (newDate 2024 0 8 + 7200000))
    (fun p => if bool_decide (p = fqa) then 9 else DEFAULT_ALLOWED_DAYS p)
  = calculatePhaseDeadlines (newDate 2024 0 8 + 7200000) DEFAULT_ALLOWED_DAYS.
Proof.
  apply (calculatePhaseDeadlines_ignores (newDate 2024 0 8 + 7200000) DEFAULT_ALLOWED_DAYS
           (fun p => if bool_decide (p = fqa) then 9 else DEFAULT_ALLOWED_DAYS p)).
  intros p Hfqa _. by rewrite bool_decide_eq_false_2.
Defined.

(** X16: in the result of the full pass every phase that reads the cursor
    has [addBusinessDays] of its allowed days from the deadline of the
    phase that set the cursor: the phase before it, stepping over the
    mirrors and over a skipped wayleave.  So the phase after a skipped
    wayleave counts from the funding deadline, and a phase with zero or
    negative days shares the deadline of the phase before it. *)
Theorem calculatePhaseDeadlines_chain (siteSurveyDate : Date)
    (allowedDaysPerPhase : PhaseName -> Z) (phase previous : PhaseName) (d : Date) :
  let r := calculatePhaseDeadlines siteSurveyDate allowedDaysPerPhase in
  cursorPhase allowedDaysPerPhase phase = Some previous ->
  r !! phase = Some d ->
  exists c, r !! previous = Some c /\
    d = addBusinessDays c (allowedDaysPerPhase phase) /\
    (allowedDaysPerPhase phase <= 0 -> d = c).
Proof.
  intros r Hprev Hd. unfold r in *. rewrite calculatePhaseDeadlines_lookup in Hd.
  exists (chainDate siteSurveyDate allowedDaysPerPhase previous).
  rewrite calculatePhaseDeadlines_lookup.
  assert (Hc : d = addBusinessDays (chainDate siteSurveyDate allowedDaysPerPhase previous)
                 (allowedDaysPerPhase phase) /\
               (bool_decide (previous = wayleave) && (allowedDaysPerPhase wayleave =? 0)) = false).
  { destruct phase; cbn [cursorPhase] in Hprev; try discriminate Hprev;
      rewrite ?bool_decide_eq_false_2 in Hd by done;
      rewrite ?bool_decide_eq_true_2 in Hd by done; cbn [andb] in Hd.
    all: try (injection Hprev as <-; injection Hd as <-; split; reflexivity).
    - (* wayleave *)
      injection Hprev as <-. destruct (allowedDaysPerPhase wayleave =? 0) eqn:Hw;
        [discriminate Hd|]. injection Hd as <-. split; [|reflexivity].
      unfold chainDate. rewrite Hw. reflexivity.
    - (* materials *)
      injection Hd as <-. unfold chainDate.
      destruct (allowedDaysPerPhase wayleave =? 0) eqn:Hw; injection Hprev as <-;
        rewrite ?Hw; split; reflexivity. }
  destruct Hc as [-> ->]. split; [reflexivity|]. split; [reflexivity|].
  intros Hn. rewrite addBusinessDays_nonpos by assumption. apply chainDate_midnight.
Qed.

Lemma calculatePhaseDeadlines_chain_witness :
  let allowed p := if bool_decide (p = wayleave) then 0 else DEFAULT_ALLOWED_DAYS p in
  exists c, calculatePhaseDeadlines (newDate 2024 0 8) allowed !! funding = Some c /\
    newDate 2024 1 14 = addBusinessDays c 15.
Proof.
  intros allowed.
  destruct (calculatePhaseDeadlines_chain (newDate 2024 0 8) allowed materials funding
              (newDate 2024 1 14)) as (c & Hc & Hd & _).
  - reflexivity.
  - vm_compute. reflexivity.
  - exists c. split; [exact Hc | exact Hd].
Defined.

Lemma calculatePhaseDeadlines_domain_witness :
  calculatePhaseDeadlines (newDate 2024 0 8)
    (fun p => if bool_decide (p = wayleave) then 0 else 2) !! wayleave = None.
Proof.
  destruct (calculatePhaseDeadlines_domain (newDate 2024 0 8)
              (fun p => if bool_decide (p = wayleave) then 0 else 2) wayleave) as [H _].
  apply H. split; reflexivity.
Defined.
Section TargetedPass.

Variables (allowedDaysPerPhase : PhaseName -> Z).

Lemma addBusinessDays_0 c : addBusinessDays c 0 = startOfDay c.
Proof. by apply addBusinessDays_nonpos. Qed.

(** What a targeted recalculation returns for the phases after the changed
    one: a skipped wayleave keeps its current entry, every other phase gets
    the date of a full pass from the new deadline in which the phases up to
    the changed one take no days. *)
Lemma calculatePhaseDeadlinesFromDeadline_after changedPhase newDeadline
    (currentDeadlines : gmap PhaseName Date) phase :
  (phaseCode changedPhase < phaseCode phase)%nat ->
  calculatePhaseDeadlinesFromDeadline changedPhase newDeadline allowedDaysPerPhase
    currentDeadlines !! phase
  = if bool_decide (phase = wayleave) && (allowedDaysPerPhase wayleave =? 0)
    then currentDeadlines !! wayleave
    else Some (chainDate newDeadline (daysAfter changedPhase allowedDaysPerPhase) phase).
Proof.
  intros Hlt.
  rewrite calculatePhaseDeadlinesFromDeadline_loop, phasesAfter_phaseCode,
    deadlinesBeforeLoop_cases.
  destruct (allowedDaysPerPhase wayleave =? 0) eqn:Hwb.
  - assert (Hw : allowedDaysPerPhase wayleave = 0) by by apply Z.eqb_eq.
    destruct changedPhase; cbn [phaseCode drop PHASE_ORDER]; run_phases;
      destruct phase; cbn [phaseCode] in Hlt; try lia; lookup_inserts;
      rewrite ?bool_decide_eq_false_2 by done; rewrite ?bool_decide_eq_true_2 by done;
      cbn [andb]; try reflexivity;
      unfold chainDate, daysAfter; cbn [phaseCode Nat.leb]; rewrite ?Hwb; cbn [Z.eqb];
      rewrite ?addBusinessDays_0, ?startOfDay_idem; reflexivity.
  - assert (Hw : allowedDaysPerPhase wayleave <> 0) by by apply Z.eqb_neq.
    destruct changedPhase; cbn [phaseCode drop PHASE_ORDER]; run_phases;
      destruct phase; cbn [phaseCode] in Hlt; try lia; lookup_inserts;
      rewrite ?bool_decide_eq_false_2 by done; rewrite ?bool_decide_eq_true_2 by done;
      cbn [andb]; try reflexivity;
      unfold chainDate, daysAfter; cbn [phaseCode Nat.leb]; rewrite ?Hwb; cbn [Z.eqb];
      rewrite ?addBusinessDays_0, ?startOfDay_idem; reflexivity.
Qed.

End TargetedPass.
(** X17: a targeted recalculation writes the start of day of the new
    deadline to the changed phase and to its mirror partner, in either
    direction (changing fqa also moves build, changing com also moves rfa),
    and leaves every other phase before the changed one, and a skipped
    wayleave, with the entry of the current deadlines. *)
Theorem calculatePhaseDeadlinesFromDeadline_frame (changedPhase : PhaseName)
    (newDeadline : Date) (allowedDaysPerPhase : PhaseName -> Z)
    (currentDeadlines : gmap PhaseName Date) :
  let r := calculatePhaseDeadlinesFromDeadline changedPhase newDeadline allowedDaysPerPhase
             currentDeadlines in
  r !! changedPhase = Some (startOfDay newDeadline) /\
  (forall partner,
     MIRROR_PHASES changedPhase = Some partner \/ MIRROR_PHASES partner = Some changedPhase ->
     r !! partner = Some (startOfDay newDeadline)) /\
  (forall phase,
     (phaseCode phase < phaseCode changedPhase)%nat ->
     MIRROR_PHASES changedPhase <> Some phase ->
     r !! phase = currentDeadlines !! phase) /\
  (allowedDaysPerPhase wayleave = 0 -> changedPhase <> wayleave ->
     r !! wayleave = currentDeadlines !! wayleave).
Proof.
  intros r. unfold r.
  rewrite calculatePhaseDeadlinesFromDeadline_loop, phasesAfter_phaseCode,
    deadlinesBeforeLoop_cases.
  destruct (Z.eqb_spec (allowedDaysPerPhase wayleave) 0) as [Hw | Hw];
    destruct changedPhase; cbn [phaseCode drop PHASE_ORDER]; run_phases.
  all: split; [by lookup_inserts|].
  all: split;
    [intros partner [Hp | Hp];
       [try discriminate Hp; injection Hp as <-; by lookup_inserts
       |destruct partner; try discriminate Hp; by lookup_inserts]|].
  all: split;
    [intros phase Hlt Hm; destruct phase; cbn [phaseCode] in Hlt; try lia;
       try (by destruct Hm); by lookup_inserts|].
  all: intros Hz Hne; try (by destruct Hw); try (by destruct Hne); by lookup_inserts.
Qed.

Lemma calculatePhaseDeadlinesFromDeadline_frame_witness :
  calculatePhaseDeadlinesFromDeadline fqa (newDate 2024 5 3 + 1) DEFAULT_ALLOWED_DAYS ∅
    !! build = Some (newDate 2024 5 3) /\
  calculatePhaseDeadlinesFromDeadline fqa (newDate 2024 5 3 + 1) DEFAULT_ALLOWED_DAYS ∅
    !! kickoff = None.
Proof.
  destruct (calculatePhaseDeadlinesFromDeadline_frame fqa (newDate 2024 5 3 + 1)
              DEFAULT_ALLOWED_DAYS ∅) as (_ & Hpartner & Hframe & _).
  split.
  - rewrite (Hpartner build); [reflexivity | left; reflexivity].
  - rewrite (Hframe kickoff); [reflexivity | vm_compute; lia | discriminate].
Defined.

(** X18: after the changed phase a targeted recalculation is a full pass
    from the new deadline in which the phases up to the changed one take no
    days: every later phase, other than a skipped wayleave, gets the
    deadline that full pass gives it. *)
Theorem calculatePhaseDeadlinesFromDeadline_as_full_pass (changedPhase : PhaseName)
    (newDeadline : Date) (allowedDaysPerPhase : PhaseName -> Z)
    (currentDeadlines : gmap PhaseName Date) (phase : PhaseName) :
  (phaseCode changedPhase < phaseCode phase)%nat ->
  ~ (phase = wayleave /\ allowedDaysPerPhase wayleave = 0) ->
  calculatePhaseDeadlinesFromDeadline changedPhase newDeadline allowedDaysPerPhase
    currentDeadlines !! phase
  = calculatePhaseDeadlines newDeadline (daysAfter changedPhase allowedDaysPerPhase) !! phase.
Proof.
  intros Hlt Hskip.
  rewrite calculatePhaseDeadlinesFromDeadline_after, calculatePhaseDeadlines_lookup by assumption.
  destruct (bool_decide (phase = wayleave)) eqn:Hp; cbn [andb]; [|reflexivity].
  apply bool_decide_eq_true_1 in Hp. subst phase.
  assert (Hd : daysAfter changedPhase allowedDaysPerPhase wayleave = allowedDaysPerPhase wayleave).
  { unfold daysAfter. replace (_ <=? _)%nat with false; [reflexivity|].
    symmetry. apply Nat.leb_gt. exact Hlt. }
  rewrite Hd. destruct (Z.eqb_spec (allowedDaysPerPhase wayleave) 0); [|reflexivity].
  by destruct Hskip.
Qed.

Lemma calculatePhaseDeadlinesFromDeadline_as_full_pass_witness :
  calculatePhaseDeadlinesFromDeadline kickoff (newDate 2024 5 3) DEFAULT_ALLOWED_DAYS ∅ !! ecc
  = calculatePhaseDeadlines (newDate 2024 5 3) (daysAfter kickoff DEFAULT_ALLOWED_DAYS) !! ecc.
Proof.
  apply (calculatePhaseDeadlinesFromDeadline_as_full_pass kickoff (newDate 2024 5 3)
           DEFAULT_ALLOWED_DAYS ∅ ecc).
  - vm_compute. lia.
  - intros [H _]. discriminate H.
Defined.

(** X19: what a targeted recalculation returns after the changed phase
    does not depend on the current deadlines (a skipped wayleave apart),
    and the whole result depends on the new deadline only through its
    calendar day. *)
Theorem calculatePhaseDeadlinesFromDeadline_downstream_fresh (changedPhase : PhaseName)
    (newDeadline : Date) (allowedDaysPerPhase : PhaseName -> Z)
    (currentDeadlines currentDeadlines' : gmap PhaseName Date) :
  (forall phase,
     (phaseCode changedPhase < phaseCode phase)%nat ->
     ~ (phase = wayleave /\ allowedDaysPerPhase wayleave = 0) ->
     calculatePhaseDeadlinesFromDeadline changedPhase newDeadline allowedDaysPerPhase
       currentDeadlines !! phase
     = calculatePhaseDeadlinesFromDeadline changedPhase newDeadline allowedDaysPerPhase
         currentDeadlines' !! phase) /\
  calculatePhaseDeadlinesFromDeadline changedPhase (startOfDay newDeadline)
    allowedDaysPerPhase currentDeadlines
  = calculatePhaseDeadlinesFromDeadline changedPhase newDeadline allowedDaysPerPhase
      currentDeadlines.
Proof.
  split.
  - intros phase Hlt Hskip.
    rewrite !calculatePhaseDeadlinesFromDeadline_after by assumption.
    destruct (bool_decide (phase = wayleave)) eqn:Hp; cbn [andb]; [|reflexivity].
    apply bool_decide_eq_true_1 in Hp.
    destruct (Z.eqb_spec (allowedDaysPerPhase wayleave) 0); [|reflexivity].
    by destruct Hskip.
  - unfold calculatePhaseDeadlinesFromDeadline. by rewrite startOfDay_idem.
Qed.
Lemma calculatePhaseDeadlinesFromDeadline_downstream_fresh_witness :
  calculatePhaseDeadlinesFromDeadline build (newDate 2024 5 3) DEFAULT_ALLOWED_DAYS ∅ !! rfa
  = calculatePhaseDeadlinesFromDeadline build (newDate 2024 5 3) DEFAULT_ALLOWED_DAYS
      (calculatePhaseDeadlines (newDate 2024 0 8) DEFAULT_ALLOWED_DAYS) !! rfa.
Proof.
  destruct (calculatePhaseDeadlinesFromDeadline_downstream_fresh build (newDate 2024 5 3)
              DEFAULT_ALLOWED_DAYS ∅
              (calculatePhaseDeadlines (newDate 2024 0 8) DEFAULT_ALLOWED_DAYS)) as [H _].
  apply (H rfa).
  - vm_compute. lia.
  - intros [Hp _]. discriminate Hp.
Defined.

Lemma calculatePhaseDeadlines_lookup_Some siteSurveyDate
    (allowedDaysPerPhase : PhaseName -> Z) phase d :
  calculatePhaseDeadlines siteSurveyDate allowedDaysPerPhase !! phase = Some d ->
  d = chainDate siteSurveyDate allowedDaysPerPhase phase /\
  ~ (phase = wayleave /\ allowedDaysPerPhase wayleave = 0).
Proof.
  rewrite calculatePhaseDeadlines_lookup.
  destruct (bool_decide (phase = wayleave)) eqn:Hp; cbn [andb].
  - destruct (Z.eqb_spec (allowedDaysPerPhase wayleave) 0) as [Hz | Hz]; [discriminate|].
    intros H. split; [congruence | by intros [_ ?]].
  - apply bool_decide_eq_false_1 in Hp. intros H. split; [congruence | by intros [? _]].
Qed.

(** X20: a targeted recalculation from a phase, with the deadline the full
    pass gave that phase and the result of that full pass as current
    deadlines, returns that result unchanged. *)
Theorem calculatePhaseDeadlinesFromDeadline_fixed_point (siteSurveyDate : Date)
    (allowedDaysPerPhase : PhaseName -> Z) (changedPhase : PhaseName) (D : Date) :
  let full := calculatePhaseDeadlines siteSurveyDate allowedDaysPerPhase in
  full !! changedPhase = Some D ->
  calculatePhaseDeadlinesFromDeadline changedPhase D allowedDaysPerPhase full = full.
Proof.
  intros full HD. unfold full in *.
  apply calculatePhaseDeadlines_lookup_Some in HD as [-> Hnot].
  apply map_eq. intros phase.
  rewrite calculatePhaseDeadlinesFromDeadline_loop, phasesAfter_phaseCode,
    deadlinesBeforeLoop_cases. cbv zeta. rewrite chainDate_midnight.
  destruct (allowedDaysPerPhase wayleave =? 0) eqn:Hwb.
  - assert (Hw : allowedDaysPerPhase wayleave = 0) by by apply Z.eqb_eq.
    destruct changedPhase;
      try (exfalso; apply Hnot; split; [reflexivity | assumption]); clear Hnot;
      cbn [phaseCode drop PHASE_ORDER]; run_phases;
      destruct phase; lookup_inserts; rewrite ?calculatePhaseDeadlines_lookup;
      rewrite ?bool_decide_eq_false_2 by (intros Hc; discriminate Hc);
      rewrite ?bool_decide_eq_true_2 by reflexivity;
      rewrite ?Hwb; cbn [andb]; try reflexivity;
      unfold chainDate; rewrite ?Hwb; reflexivity.
  - assert (Hw : allowedDaysPerPhase wayleave <> 0) by by apply Z.eqb_neq.
    clear Hnot.
    destruct changedPhase;
      cbn [phaseCode drop PHASE_ORDER]; run_phases;
      destruct phase; lookup_inserts; rewrite ?calculatePhaseDeadlines_lookup;
      rewrite ?bool_decide_eq_false_2 by (intros Hc; discriminate Hc);
      rewrite ?bool_decide_eq_true_2 by reflexivity;
      rewrite ?Hwb; cbn [andb]; try reflexivity;
      unfold chainDate; rewrite ?Hwb; reflexivity.
Qed.

Lemma calculatePhaseDeadlinesFromDeadline_fixed_point_witness :
  calculatePhaseDeadlinesFromDeadline build (newDate 2024 2 18) DEFAULT_ALLOWED_DAYS
    (calculatePhaseDeadlines (newDate 2024 0 8)
       (fun p => if bool_decide (p = wayleave) then 0 else DEFAULT_ALLOWED_DAYS p))
  = calculatePhaseDeadlines (newDate 2024 0 8)
      (fun p => if bool_decide (p = wayleave) then 0 else DEFAULT_ALLOWED_DAYS p).
Proof.
  pose proof (calculatePhaseDeadlinesFromDeadline_fixed_point (newDate 2024 0 8)
    (fun p => if bool_decide (p = wayleave) then 0 else DEFAULT_ALLOWED_DAYS p)
    build (newDate 2024 2 18)) as H.
  cbv zeta in H. etransitivity; [|apply H; vm_compute; reflexivity].
  vm_compute. reflexivity.
Defined.

(** X21: after a targeted recalculation the deadlines of the phases after
    the changed one (a skipped wayleave apart) are local midnights on or
    after the start of day of the new deadline, and they never decrease
    along [PHASE_ORDER]. *)
Theorem calculatePhaseDeadlinesFromDeadline_monotone (changedPhase : PhaseName)
    (newDeadline : Date) (allowedDaysPerPhase : PhaseName -> Z)
    (currentDeadlines : gmap PhaseName Date) :
  let r := calculatePhaseDeadlinesFromDeadline changedPhase newDeadline allowedDaysPerPhase
             currentDeadlines in
  let skipped phase := phase = wayleave /\ allowedDaysPerPhase wayleave = 0 in
  (forall phase d,
     (phaseCode changedPhase < phaseCode phase)%nat -> ~ skipped phase ->
     r !! phase = Some d -> startOfDay d = d /\ startOfDay newDeadline <= d) /\
  (forall p q dp dq,
     (phaseCode changedPhase < phaseCode p)%nat -> (phaseCode p < phaseCode q)%nat ->
     ~ skipped p -> ~ skipped q ->
     r !! p = Some dp -> r !! q = Some dq -> dp <= dq).
Proof.
  intros r skipped.
  assert (Hlook : forall phase, (phaseCode changedPhase < phaseCode phase)%nat ->
            ~ skipped phase ->
            r !! phase
            = Some (chainDate newDeadline (daysAfter changedPhase allowedDaysPerPhase) phase)).
  { intros phase Hlt Hs. unfold r. rewrite calculatePhaseDeadlinesFromDeadline_after by assumption.
    destruct (bool_decide (phase = wayleave)) eqn:Hp; cbn [andb]; [|reflexivity].
    apply bool_decide_eq_true_1 in Hp.
    destruct (Z.eqb_spec (allowedDaysPerPhase wayleave) 0); [|reflexivity].
    by destruct Hs. }
  split.
  - intros phase d Hlt Hs. rewrite Hlook by assumption. intros [= <-].
    split; [apply chainDate_midnight|].
    by apply (chainDate_mono newDeadline _ phase phase).
  - intros p q dp dq Hp Hpq Hsp Hsq. rewrite !Hlook by (assumption || lia).
    intros [= <-] [= <-]. apply (chainDate_mono newDeadline _ p q). lia.
Qed.

Lemma calculatePhaseDeadlinesFromDeadline_monotone_witness :
  newDate 2024 5 3 <= newDate 2024 5 4.
Proof.
  destruct (calculatePhaseDeadlinesFromDeadline_monotone build (newDate 2024 5 3 + 1)
              DEFAULT_ALLOWED_DAYS ∅) as [H _].
  apply (H ecc (newDate 2024 5 4)).
  - vm_compute. lia.
  - intros [Hp _]. discriminate Hp.
  - vm_compute. reflexivity.
Defined.
(** ** Properties of the routes *)

Import Routes.

Section ProjectStatus.

Variable now : Date.

Lemma statusLoop_spec phases status :
  status = OnTrack \/ status = AtRisk ->
  statusLoop now phases status
  = if existsb (fun p => isActive p && (getBusinessDaysUntil now (deadline p) <? 0)) phases
    then Overdue
    else if existsb (fun p => isActive p && (getBusinessDaysUntil now (deadline p) <=? 3)) phases
    then AtRisk
    else status.
Proof.
  revert status. induction phases as [|phase rest IH]; intros status Hs; [reflexivity|].
  cbn [statusLoop existsb]. unfold isActive at 1 3.
  destruct (isComplete phase); cbn [negb andb orb]; [by apply IH|].
  destruct (isDisabledWayleave phase); cbn [negb andb orb]; [by apply IH|].
  destruct (Z.ltb_spec (getBusinessDaysUntil now (deadline phase)) 0); [reflexivity|].
  cbn [orb]. destruct (Z.leb_spec (getBusinessDaysUntil now (deadline phase)) 3).
  - cbn [orb]. rewrite IH by (destruct Hs as [-> | ->]; auto).
    destruct (existsb _ rest); [reflexivity|].
    destruct (existsb _ rest); destruct Hs as [-> | ->]; reflexivity.
  - by apply IH.
Qed.

Lemma existsb_elem_of {A} (f : A -> bool) (l : list A) :
  existsb f l = true <-> exists x, x ∈ l /\ f x = true.
Proof.
  rewrite existsb_exists. split; intros (x & Hin & Hf); exists x;
    (split; [by apply list_elem_of_In | done]).
Qed.

Lemma existsb_false_elem_of {A} (f : A -> bool) (l : list A) :
  existsb f l = false <-> forall x, x ∈ l -> f x = false.
Proof.
  split.
  - intros He x Hin. destruct (f x) eqn:Hf; [|done].
    rewrite <- He. symmetry. apply existsb_elem_of. eauto.
  - intros H. destruct (existsb f l) eqn:He; [|done].
    apply existsb_elem_of in He as (x & Hin & Hf). rewrite H in Hf; done.
Qed.

End ProjectStatus.


Section StatusFacts.

Lemma length_filter_le {A} (f : A -> bool) (l : list A) :
  (length (List.filter f l) <= length l)%nat.
Proof. induction l as [|x l IH]; cbn; [lia|]. destruct (f x); cbn; lia. Qed.

Lemma length_filter_all {A} (f : A -> bool) (l : list A) :
  (forall x, x ∈ l -> f x = true) -> length (List.filter f l) = length l.
Proof.
  induction l as [|x l IH]; intros H; [reflexivity|]. cbn [List.filter].
  rewrite (H x) by left. cbn [length]. f_equal. apply IH. intros y Hy. apply H. by right.
Qed.

Lemma length_filter_lt {A} (f : A -> bool) (l : list A) x :
  x ∈ l -> f x = false -> (length (List.filter f l) < length l)%nat.
Proof.
  induction l as [|y l IH]; intros Hin Hf; [by apply elem_of_nil in Hin|].
  cbn [List.filter length]. apply elem_of_cons in Hin as [<- | Hin].
  - rewrite Hf. pose proof (length_filter_le f l). lia.
  - specialize (IH Hin Hf). destruct (f y); cbn [length]; lia.
Qed.



End StatusFacts.

(** X23: a project all of whose rows are complete is not reported
    [Complete] when it has a row that is not counted (a mirror phase or a
    disabled wayleave): the count of complete rows then exceeds the count
    of counted rows, and the status is [OnTrack]. *)
Theorem projectStatus_all_complete (now : Date) (phases : list PhaseRow) (p : PhaseRow) :
  (forall q, q ∈ phases -> isComplete q = true) ->
  p ∈ phases -> countsInTotal p = false ->
  status (projectStatus now phases) = OnTrack.
Proof.
  intros Hall Hin Hp. unfold projectStatus. cbn [status].
  rewrite (length_filter_all isComplete) by assumption.
  pose proof (length_filter_lt countsInTotal phases p Hin Hp) as Hlt.
  replace (length phases =? _)%nat with false by (symmetry; apply Nat.eqb_neq; lia).
  cbn [andb]. rewrite statusLoop_spec by auto.
  assert (Hnone : forall f, existsb (fun q => isActive q && f q) phases = false).
  { intros f. apply existsb_false_elem_of. intros q Hq. unfold isActive.
    by rewrite (Hall q Hq). }
  by rewrite !Hnone.
Qed.

Lemma projectStatus_all_complete_witness :
  let finished :=
    map (fun row => {| phaseName := phaseName row; allowedDays := allowedDays row;
                       deadline := deadline row; isComplete := true |})
      (createPhaseRows (newDate 2024 0 8) DEFAULT_ALLOWED_DAYS) in
  status (projectStatus (newDate 2024 5 3) finished) = OnTrack.
Proof.
  intros finished.
  apply (projectStatus_all_complete (newDate 2024 5 3) finished
           {| phaseName := "fqa"; allowedDays := 0; deadline := newDate 2024 3 17;
              isComplete := true |}).
  - intros q Hq. unfold finished in Hq. apply list_elem_of_fmap in Hq as (row & -> & _).
    reflexivity.
  - unfold finished. apply list_elem_of_In. vm_compute. tauto.
  - reflexivity.
Defined.


(** X25: the notification of an active phase whose deadline lies [n >= 0]
    business days after the current date: urgent for 0 or 1, a warning for
    2 or 3, and none (an existing one is deleted) for more than 3. *)
Theorem phaseNotification_addBusinessDays (now : Date) (phase : PhaseRow) (n : Z) :
  isActive phase = true -> 0 <= n -> deadline phase = addBusinessDays now n ->
  phaseNotification now phase
  = if n <=? 1 then UpsertNotification urgent
    else if n <=? 3 then UpsertNotification warning
    else DeleteNotification.
Proof.
  intros Ha Hn Hd. unfold isActive in Ha. apply andb_true_iff in Ha as [Hc Hw].
  apply negb_true_iff in Hc, Hw. unfold phaseNotification.
  rewrite Hc, Hw, Hd, getBusinessDaysUntil_addBusinessDays_eq by assumption.
  unfold notificationType.
  replace (n <? 0) with false by (symmetry; apply Z.ltb_ge; lia).
  destruct (Z.eqb_spec n 0) as [-> | H0]; [reflexivity|].
  destruct (Z.eqb_spec n 1) as [-> | H1]; [reflexivity|].
  replace (n <=? 1) with false by (symmetry; apply Z.leb_gt; lia).
  by destruct (n <=? 3).
Qed.

Lemma phaseNotification_addBusinessDays_witness :
  phaseNotification (newDate 2024 2 27 + 1000)
    {| phaseName := "build"; allowedDays := 20; deadline := newDate 2024 3 1;
       isComplete := false |}
  = UpsertNotification warning.
Proof.
  apply (phaseNotification_addBusinessDays (newDate 2024 2 27 + 1000) _ 2);
    [reflexivity | discriminate | vm_compute; reflexivity].
Defined.





(** ** The update route and the role middleware *)

Section UpdateRoute.

Lemma indexOf_PHASE_ORDER p : indexOf PHASE_ORDER p = Z.of_nat (phaseCode p).
Proof. by destruct p. Qed.

Lemma phaseOfString_phaseString p : phaseOfString (phaseString p) = Some p.
Proof. by destruct p. Qed.

Variables (existingAllowedDays : PhaseName -> Z) (existingDeadlines : gmap PhaseName Date).

(** Without the super-admin role the loop never records a phase to
    recalculate from and never touches the deadlines. *)
Lemma applyPhaseUpdate_fold_admin updates : forall st,
  recalculateFromPhase st = None ->
  let st' := foldl (applyPhaseUpdate false) st updates in
  recalculateFromPhase st' = None /\
  recalculateFromDeadline st' = recalculateFromDeadline st /\
  currentDeadlines st' = currentDeadlines st /\
  needsFullRecalculation st'
  = needsFullRecalculation st || existsb changesAllowedDays updates.
Proof.
  induction updates as [|u updates IH]; intros st Hnone.
  - cbn. by rewrite orb_false_r.
  - cbn [foldl existsb].
    assert (Hstep : recalculateFromPhase (applyPhaseUpdate false st u) = None /\
              recalculateFromDeadline (applyPhaseUpdate false st u)
              = recalculateFromDeadline st /\
              currentDeadlines (applyPhaseUpdate false st u) = currentDeadlines st /\
              needsFullRecalculation (applyPhaseUpdate false st u)
              = needsFullRecalculation st || changesAllowedDays u).
    { unfold applyPhaseUpdate, changesAllowedDays.
      destruct (phaseOfString (update_phaseName u)); [|by rewrite orb_false_r].
      destruct (update_allowedDays u), (update_deadline u); cbn; rewrite ?Hnone;
        by rewrite ?orb_true_r, ?orb_false_r. }
    destruct Hstep as (H1 & H2 & H3 & H4).
    destruct (IH _ H1) as (I1 & I2 & I3 & I4). cbv zeta.
    rewrite I1, I2, I3, I4, H2, H3, H4. by rewrite orb_assoc.
Qed.

(** With the super-admin role the loop ends with the current deadlines
    overwritten by every override, in order, and it recalculates from the
    first override among those on the earliest phase. *)
Lemma applyPhaseUpdate_fold_superadmin updates :
  let st :=
    foldl (applyPhaseUpdate true)
      {| currentAllowedDays := existingAllowedDays;
         currentDeadlines := existingDeadlines;
         needsFullRecalculation := false;
         recalculateFromPhase := None;
         recalculateFromDeadline := None |} updates in
  let overrides := omap overrideOf updates in
  currentDeadlines st = withOverrides existingDeadlines overrides /\
  match overrides with
  | [] => recalculateFromPhase st = None /\ recalculateFromDeadline st = None
  | _ =>
      exists pre p D post,
        overrides = pre ++ (p, D) :: post /\
        (forall o, o ∈ pre -> (phaseCode p < phaseCode o.1)%nat) /\
        (forall o, o ∈ post -> (phaseCode p <= phaseCode o.1)%nat) /\
        recalculateFromPhase st = Some p /\ recalculateFromDeadline st = Some D
  end.
Proof.
  induction updates as [|u updates IH] using rev_ind; [by cbn|].
  cbv zeta in *. rewrite foldl_app, omap_app. cbn [foldl omap list_omap].
  set (st := foldl (applyPhaseUpdate true) _ updates) in *. clearbody st.
  set (overrides := omap overrideOf updates) in *. clearbody overrides.
  destruct IH as [Hd Hr].
  unfold applyPhaseUpdate, overrideOf.
  destruct (phaseOfString (update_phaseName u)) as [q|];
    [|rewrite app_nil_r; by split].
  set (st1 := match update_allowedDays u with Some _ => _ | None => st end).
  assert (H1 : currentDeadlines st1 = currentDeadlines st /\
               recalculateFromPhase st1 = recalculateFromPhase st /\
               recalculateFromDeadline st1 = recalculateFromDeadline st)
    by (unfold st1; by destruct (update_allowedDays u)).
  destruct H1 as (E1 & E2 & E3). clearbody st1.
  destruct (update_deadline u) as [Dq|]; [|rewrite app_nil_r, E1, E2, E3; by split].
  cbn [currentDeadlines recalculateFromPhase recalculateFromDeadline].
  rewrite E1, E2, E3, Hd. split.
  - unfold withOverrides. by rewrite foldl_app.
  - destruct overrides as [|o overrides].
    + destruct Hr as [Hp HD]. cbn [app]. rewrite Hp. exists [], q, Dq, [].
      repeat split; try done; intros o Ho; by apply elem_of_nil in Ho.
    + destruct Hr as (pre & p & D & post & Ho & Hpre & Hpost & -> & ->).
      rewrite !indexOf_PHASE_ORDER. rewrite Ho. cbn [app].
      destruct (Z.ltb_spec (Z.of_nat (phaseCode q)) (Z.of_nat (phaseCode p))) as [Hlt | Hge].
      * assert (Hsplit : exists o' rest, (pre ++ (p, D) :: post) ++ [(q, Dq)] = o' :: rest)
          by (destruct pre; cbn; eauto).
        destruct Hsplit as (o' & rest & Hsplit). rewrite Hsplit, <- Hsplit.
        exists (pre ++ (p, D) :: post), q, Dq, []. repeat split; try done.
        -- intros x Hx. apply elem_of_app in Hx as [Hx | Hx].
           ++ specialize (Hpre x Hx). lia.
           ++ apply elem_of_cons in Hx as [-> | Hx]; [cbn; lia|].
              specialize (Hpost x Hx). lia.
        -- intros x Hx. by apply elem_of_nil in Hx.
      * assert (Hsplit : exists o' rest, (pre ++ (p, D) :: post) ++ [(q, Dq)] = o' :: rest)
          by (destruct pre; cbn; eauto).
        destruct Hsplit as (o' & rest & Hsplit). rewrite Hsplit, <- Hsplit.
        exists pre, p, D, (post ++ [(q, Dq)]). repeat split; try done.
        -- by rewrite <- app_assoc.
        -- intros x Hx. apply elem_of_app in Hx as [Hx | Hx]; [by apply Hpost|].
           apply elem_of_cons in Hx as [-> | Hx]; [cbn; lia | by apply elem_of_nil in Hx].
Qed.

End UpdateRoute.

Section UpdateRouteFacts.

Variables (existingAllowedDays : PhaseName -> Z) (existingDeadlines : gmap PhaseName Date).

(** An update without a deadline on a known phase is handled the same way
    for every role. *)
Lemma applyPhaseUpdate_no_override st u :
  overrideOf u = None -> applyPhaseUpdate true st u = applyPhaseUpdate false st u.
Proof.
  unfold overrideOf, applyPhaseUpdate.
  destruct (phaseOfString (update_phaseName u)); [|done].
  by destruct (update_deadline u).
Qed.

Lemma applyPhaseUpdate_fold_no_override updates : forall st,
  omap overrideOf updates = [] ->
  foldl (applyPhaseUpdate true) st updates = foldl (applyPhaseUpdate false) st updates.
Proof.
  induction updates as [|u updates IH]; intros st Hnil; [done|].
  cbn [omap list_omap] in Hnil. cbn [foldl].
  destruct (overrideOf u) eqn:Hu; [discriminate Hnil|].
  rewrite applyPhaseUpdate_no_override by exact Hu. by apply IH.
Qed.

(** Without the super-admin role the deadline of an update is not read. *)
Lemma applyPhaseUpdate_fold_deadline_blind updates others :
  Forall2 (fun u v => update_phaseName u = update_phaseName v /\
                      update_allowedDays u = update_allowedDays v) updates others ->
  forall st,
    foldl (applyPhaseUpdate false) st updates = foldl (applyPhaseUpdate false) st others.
Proof.
  induction 1 as [|u v updates others [Hn Ha] _ IH]; intros st; [done|].
  cbn [foldl]. rewrite <- IH. f_equal.
  unfold applyPhaseUpdate. rewrite Hn, Ha.
  destruct (phaseOfString (update_phaseName v)); [|done].
  by destruct (update_deadline u), (update_deadline v).
Qed.

(** The deadlines of an update in which the loop recorded no phase to
    recalculate from. *)
Lemma updateProject_untargeted isSuperAdmin dataSiteSurveyDate dataPhases
    existingSiteSurveyDate :
  isSuperAdmin = false \/ omap overrideOf (default [] dataPhases) = [] ->
  let result := updateProject isSuperAdmin dataSiteSurveyDate dataPhases
                  existingSiteSurveyDate existingAllowedDays existingDeadlines in
  result.2
  = if match dataSiteSurveyDate with
       | Some _ => true
       | None => existsb changesAllowedDays (default [] dataPhases)
       end
    then calculatePhaseDeadlines (default existingSiteSurveyDate dataSiteSurveyDate) result.1
    else existingDeadlines.
Proof.
  intros Hcase result. unfold result, updateProject. cbn [fst snd].
  assert (Hfold : foldl (applyPhaseUpdate isSuperAdmin)
            {| currentAllowedDays := existingAllowedDays;
               currentDeadlines := existingDeadlines;
               needsFullRecalculation := false;
               recalculateFromPhase := None;
               recalculateFromDeadline := None |} (default [] dataPhases)
          = foldl (applyPhaseUpdate false)
            {| currentAllowedDays := existingAllowedDays;
               currentDeadlines := existingDeadlines;
               needsFullRecalculation := false;
               recalculateFromPhase := None;
               recalculateFromDeadline := None |} (default [] dataPhases)).
  { destruct Hcase as [-> | Hnil]; [done|].
    destruct isSuperAdmin; [|done]. by apply applyPhaseUpdate_fold_no_override. }
  rewrite Hfold.
  destruct (applyPhaseUpdate_fold_admin (default [] dataPhases)
              {| currentAllowedDays := existingAllowedDays;
                 currentDeadlines := existingDeadlines;
                 needsFullRecalculation := false;
                 recalculateFromPhase := None;
                 recalculateFromDeadline := None |} eq_refl)
    as (H1 & _ & H3 & H4).
  cbv zeta in H1, H3, H4. rewrite H1, H3, H4. cbn [needsFullRecalculation currentDeadlines orb].
  reflexivity.
Qed.

End UpdateRouteFacts.

(** X28: an update sent without the super-admin role never starts a
    targeted recalculation and does not read the deadlines of the request:
    two requests that agree on the phase names and allowed days give the
    same result.  The deadlines that come out are a full recalculation
    (from the site survey date of the request or, without one, the stored
    one, under the updated allowed days) when the request carries a site
    survey date or allowed days for a known phase, and the stored deadlines
    otherwise. *)
Theorem updateProject_admin (dataSiteSurveyDate : option Date)
    (dataPhases otherPhases : list PhaseUpdate) (existingSiteSurveyDate : Date)
    (existingAllowedDays : PhaseName -> Z) (existingDeadlines : gmap PhaseName Date) :
  Forall2 (fun u v => update_phaseName u = update_phaseName v /\
                      update_allowedDays u = update_allowedDays v)
    dataPhases otherPhases ->
  let result := updateProject false dataSiteSurveyDate (Some dataPhases)
                  existingSiteSurveyDate existingAllowedDays existingDeadlines in
  updateProject false dataSiteSurveyDate (Some otherPhases)
    existingSiteSurveyDate existingAllowedDays existingDeadlines = result /\
  result.2
  = if match dataSiteSurveyDate with
       | Some _ => true
       | None => existsb changesAllowedDays dataPhases
       end
    then calculatePhaseDeadlines (default existingSiteSurveyDate dataSiteSurveyDate) result.1
    else existingDeadlines.
Proof.
  intros Hsame result. split.
  - unfold result, updateProject. cbn [default].
    by rewrite (applyPhaseUpdate_fold_deadline_blind _ _ Hsame).
  - apply (updateProject_untargeted existingAllowedDays existingDeadlines false
             dataSiteSurveyDate (Some dataPhases)). by left.
Qed.

Lemma updateProject_admin_witness :
  updateProject false None
    (Some [ {| update_phaseName := "build"; update_allowedDays := Some 5;
               update_deadline := None |} ])
    (newDate 2024 0 8) DEFAULT_ALLOWED_DAYS ∅
  = updateProject false None
      (Some [ {| update_phaseName := "build"; update_allowedDays := Some 5;
                 update_deadline := Some (newDate 2024 5 3) |} ])
      (newDate 2024 0 8) DEFAULT_ALLOWED_DAYS ∅.
Proof.
  apply (updateProject_admin None
           [ {| update_phaseName := "build"; update_allowedDays := Some 5;
                update_deadline := Some (newDate 2024 5 3) |} ]
           [ {| update_phaseName := "build"; update_allowedDays := Some 5;
                update_deadline := None |} ]
           (newDate 2024 0 8) DEFAULT_ALLOWED_DAYS ∅).
  constructor; [split; reflexivity | constructor].
Defined.

(** X29: an update sent with the super-admin role.  Without a deadline on
    a known phase it is handled as for the other roles.  With one, the
    result is a targeted recalculation, whatever the site survey date of
    the request: it starts from the override on the earliest phase of
    PHASE_ORDER, the first such in the request, and runs over the stored
    deadlines with every override of the request written in order, under
    the updated allowed days. *)
Theorem updateProject_superadmin (dataSiteSurveyDate : option Date)
    (dataPhases : option (list PhaseUpdate)) (existingSiteSurveyDate : Date)
    (existingAllowedDays : PhaseName -> Z) (existingDeadlines : gmap PhaseName Date) :
  let result := updateProject true dataSiteSurveyDate dataPhases
                  existingSiteSurveyDate existingAllowedDays existingDeadlines in
  let overrides := omap overrideOf (default [] dataPhases) in
  match overrides with
  | [] =>
      result = updateProject false dataSiteSurveyDate dataPhases
                 existingSiteSurveyDate existingAllowedDays existingDeadlines
  | _ =>
      exists pre changedPhase newDeadline post,
        overrides = pre ++ (changedPhase, newDeadline) :: post /\
        (forall o, o ∈ pre ->
           indexOf PHASE_ORDER changedPhase < indexOf PHASE_ORDER o.1) /\
        (forall o, o ∈ post ->
           indexOf PHASE_ORDER changedPhase <= indexOf PHASE_ORDER o.1) /\
        result.2 = calculatePhaseDeadlinesFromDeadline changedPhase newDeadline result.1
                     (withOverrides existingDeadlines overrides)
  end.
Proof.
  intros result.
  destruct (applyPhaseUpdate_fold_superadmin existingAllowedDays existingDeadlines
              (default [] dataPhases)) as [Hd Hr].
  cbv zeta in Hd, Hr |- *.
  destruct (omap overrideOf (default [] dataPhases)) as [|o overrides] eqn:Ho.
  - unfold result, updateProject.
    by rewrite (applyPhaseUpdate_fold_no_override _ _ Ho).
  - destruct Hr as (pre & p & D & post & Hsplit & Hpre & Hpost & Hp & HD).
    exists pre, p, D, post. split; [exact Hsplit|].
    split; [intros x Hx; rewrite !indexOf_PHASE_ORDER; specialize (Hpre x Hx); lia|].
    split; [intros x Hx; rewrite !indexOf_PHASE_ORDER; specialize (Hpost x Hx); lia|].
    unfold result, updateProject. cbn [fst snd]. by rewrite Hp, HD, Hd.
Qed.

Section Middleware.

Variable verifyToken : string -> option Auth.AuthUser.

(** The user [authenticate] passes on, if any: the cookie is present, not
    empty, and verifies. *)
Lemma authenticate_cases token :
  (exists t u, token = Some t /\ t <> EmptyString /\ verifyToken t = Some u /\
               Auth.authenticate verifyToken token = (Auth.Next, Some u)) \/
  ((forall t, token = Some t -> t = EmptyString \/ verifyToken t = None) /\
   exists e, Auth.authenticate verifyToken token = (Auth.Respond 401 e, None)).
Proof.
  unfold Auth.authenticate. destruct token as [t|].
  - destruct (String.eqb_spec t EmptyString) as [-> | Hne].
    + right. split; [intros t' [= <-]; by left|]. by eexists.
    + destruct (verifyToken t) as [u|] eqn:Hv.
      * left. by exists t, u.
      * right. split; [|by eexists]. intros t' [= <-]. by right.
  - right. split; [intros t [=]|]. by eexists.
Qed.

Lemma guarded_requireRole_Next allowedRoles token :
  Auth.guarded verifyToken (Auth.requireRole allowedRoles) token = Auth.Next <->
  exists t u, token = Some t /\ t <> EmptyString /\ verifyToken t = Some u /\
              Auth.role u ∈ allowedRoles.
Proof.
  unfold Auth.guarded.
  destruct (authenticate_cases token) as [(t & u & -> & Hne & Hv & ->) | [Hbad [e ->]]].
  - cbn [Auth.requireRole]. split.
    + intros H. exists t, u. repeat split; try done.
      destruct (decide (Auth.role u ∈ allowedRoles)) as [Hin | Hnot]; [done|].
      by rewrite bool_decide_eq_false_2 in H by exact Hnot.
    + intros (t' & u' & [= <-] & _ & Hv' & Hin). rewrite Hv in Hv'. injection Hv' as <-.
      by rewrite bool_decide_eq_true_2 by exact Hin.
  - split; [done|]. intros (t & u & Ht & Hne & Hv & _).
    destruct (Hbad t Ht) as [He | He]; [done | by rewrite Hv in He].
Qed.

End Middleware.

(** X30: a route guarded by [authenticate] and then a role check.  It is
    answered with 401 exactly when the cookie is absent, empty or does not
    verify, whatever roles are allowed, and with 403 exactly when the
    token verifies to a user whose role is not allowed; otherwise the
    request is passed on.  [requireAdmin] passes on exactly the users
    whose role is not staff, [requireSuperAdmin] exactly the super admins,
    so whoever passes the second passes the first. *)
Theorem guarded_outcomes (verifyToken : string -> option Auth.AuthUser)
    (token : option string) (allowedRoles : list Auth.UserRole) :
  let verified t u := token = Some t /\ t <> EmptyString /\ verifyToken t = Some u in
  let outcome := Auth.guarded verifyToken (Auth.requireRole allowedRoles) token in
  (outcome = Auth.Next <-> exists t u, verified t u /\ Auth.role u ∈ allowedRoles) /\
  ((exists e, outcome = Auth.Respond 403 e) <->
   exists t u, verified t u /\ Auth.role u ∉ allowedRoles) /\
  ((exists e, outcome = Auth.Respond 401 e) <-> forall t u, ~ verified t u) /\
  (Auth.guarded verifyToken Auth.requireAdmin token = Auth.Next <->
   exists t u, verified t u /\ Auth.role u <> Auth.staff) /\
  (Auth.guarded verifyToken Auth.requireSuperAdmin token = Auth.Next <->
   exists t u, verified t u /\ Auth.role u = Auth.superadmin) /\
  (Auth.guarded verifyToken Auth.requireSuperAdmin token = Auth.Next ->
   Auth.guarded verifyToken Auth.requireAdmin token = Auth.Next).
Proof.
  intros verified outcome.
  assert (Hnext : forall roles,
            Auth.guarded verifyToken (Auth.requireRole roles) token = Auth.Next <->
            exists t u, verified t u /\ Auth.role u ∈ roles).
  { intros roles. rewrite guarded_requireRole_Next. unfold verified.
    split; intros (t & u & H); exists t, u; tauto. }
  assert (Hadmin : Auth.guarded verifyToken Auth.requireAdmin token = Auth.Next <->
                   exists t u, verified t u /\ Auth.role u <> Auth.staff).
  { unfold Auth.requireAdmin. rewrite Hnext.
    split; intros (t & u & Hv & Hr); exists t, u; (split; [exact Hv|]).
    - intros Hs. rewrite Hs in Hr. by repeat (apply elem_of_cons in Hr as [Hr | Hr]);
        [| |apply elem_of_nil in Hr].
    - destruct (Auth.role u);
        [done | apply elem_of_cons; by left
        | apply elem_of_cons; right; apply elem_of_cons; by left]. }
  assert (Hsuper : Auth.guarded verifyToken Auth.requireSuperAdmin token = Auth.Next <->
                   exists t u, verified t u /\ Auth.role u = Auth.superadmin).
  { unfold Auth.requireSuperAdmin. rewrite Hnext.
    split; intros (t & u & Hv & Hr); exists t, u; (split; [exact Hv|]).
    - apply elem_of_cons in Hr as [Hr | Hr]; [exact Hr | by apply elem_of_nil in Hr].
    - rewrite Hr. apply elem_of_cons. by left. }
  split; [apply Hnext|]. split; [|split; [|split; [exact Hadmin | split; [exact Hsuper|]]]].
  - unfold outcome, Auth.guarded.
    destruct (authenticate_cases verifyToken token)
      as [(t & u & Ht & Hne & Hv & ->) | [Hbad [e ->]]].
    + cbn [Auth.requireRole].
      destruct (decide (Auth.role u ∈ allowedRoles)) as [Hin | Hnot].
      * rewrite bool_decide_eq_true_2 by exact Hin. split; [by intros [e He]|].
        intros (t' & u' & (Ht' & _ & Hv') & Hnot). rewrite Ht in Ht'. injection Ht' as <-.
        rewrite Hv in Hv'. injection Hv' as <-. done.
      * rewrite bool_decide_eq_false_2 by exact Hnot. split; [|by eexists].
        intros _. by exists t, u.
    + split; [by intros [e' He']|].
      intros (t & u & (Ht & Hne & Hv) & _).
      destruct (Hbad t Ht) as [He | He]; [done | by rewrite Hv in He].
  - unfold outcome, Auth.guarded.
    destruct (authenticate_cases verifyToken token)
      as [(t & u & Ht & Hne & Hv & ->) | [Hbad [e ->]]].
    + cbn [Auth.requireRole]. split.
      * intros [e He]. by destruct (bool_decide (Auth.role u ∈ allowedRoles)).
      * intros Hno. by destruct (Hno t u).
    + split; [|by eexists]. intros _ t u (Ht & Hne & Hv).
      destruct (Hbad t Ht) as [He | He]; [done | by rewrite Hv in He].
  - rewrite Hadmin, Hsuper. intros (t & u & Hv & Hr). exists t, u. split; [exact Hv|].
    by rewrite Hr.
Qed.

Lemma updateProject_superadmin_witness :
  (updateProject true (Some (newDate 2024 0 8))
     (Some [ {| update_phaseName := "build"; update_allowedDays := None;
                update_deadline := Some (newDate 2024 5 3) |} ])
     (newDate 2024 0 1) DEFAULT_ALLOWED_DAYS ∅).2 !! fqa
  = Some (newDate 2024 5 3).
Proof.
  pose proof (updateProject_superadmin (Some (newDate 2024 0 8))
     (Some [ {| update_phaseName := "build"; update_allowedDays := None;
                update_deadline := Some (newDate 2024 5 3) |} ])
     (newDate 2024 0 1) DEFAULT_ALLOWED_DAYS ∅) as H.
  cbv zeta in H.
  change (omap overrideOf (default [] (Some [ _ ]))) with [(build, newDate 2024 5 3)] in H.
  cbv iota in H.
  destruct H as (pre & changedPhase & newDeadline & post & Hsplit & _ & _ & ->).
  destruct pre as [|o pre].
  - injection Hsplit as <- <- _. vm_compute. reflexivity.
  - exfalso. injection Hsplit as _ Hnil. by destruct pre.
Defined.

Lemma guarded_outcomes_witness :
  let user :=
    {| Auth.id := "7"; Auth.email := "admin@example.org"; Auth.name := "Admin";
       Auth.role := Auth.admin |} in
  let verifyToken t := if String.eqb t "signed" then Some user else None in
  Auth.guarded verifyToken Auth.requireAdmin (Some "signed"%string) = Auth.Next /\
  exists e,
    Auth.guarded verifyToken (Auth.requireRole [Auth.superadmin]) (Some "signed"%string)
    = Auth.Respond 403 e.
Proof.
  intros user verifyToken.
  pose proof (guarded_outcomes verifyToken (Some "signed"%string) [Auth.superadmin]) as H.
  cbv zeta in H. destruct H as (_ & Hforbidden & _ & Hadmin & _).
  split.
  - apply Hadmin. exists "signed"%string, user.
    split; [split; [reflexivity | split; [discriminate | reflexivity]] | discriminate].
  - apply Hforbidden. exists "signed"%string, user.
    split; [split; [reflexivity | split; [discriminate | reflexivity]]|].
    intros Hin. apply elem_of_cons in Hin as [Hin | Hin];
      [discriminate Hin | by apply elem_of_nil in Hin].
Defined.
